(** * A two-layer stop-and-wait transport over UDP, and a maze solver

    Shallow embedding of [maze.c], [l4sap.c] and [l2sap.c] (all three found
    in [src/maze.c]).  The C functions are written as Rocq functions over
    byte buffers, with the operating system (the UDP socket, the heap and
    the descriptors) passed around as an explicit state. *)

From Stdlib Require Import ZArith List Bool Lia.
Import ListNotations.
Open Scope Z_scope.

(** ** Machine integers

    C integers are unbounded [Z] values; every conversion that can change a
    value is written out. *)

Definition to_uint8 (x : Z) : Z := x mod 2 ^ 8.
Definition to_uint16 (x : Z) : Z := x mod 2 ^ 16.
(** [size_t] on an LP64 platform. *)
Definition to_size_t (x : Z) : Z := x mod 2 ^ 64.
(** Conversion of an out-of-range value to [int] (two's complement). *)
Definition to_int (x : Z) : Z := (x + 2 ^ 31) mod 2 ^ 32 - 2 ^ 31.

(** ** Byte buffers

    A buffer is the content of an array; its length is the array's capacity.
    A pointer argument is an [option buffer], [None] being [NULL]. *)

Definition buffer := list Z.

Definition zlength (b : buffer) : Z := Z.of_nat (length b).

(** A fresh array of [n] bytes after [memset(buf, 0, n)]. *)
Definition memset0 (n : Z) : buffer := repeat 0 (Z.to_nat n).

(** The [n] bytes of [b] from offset [off]. *)
Definition slice (b : buffer) (off n : Z) : buffer :=
  firstn (Z.to_nat n) (skipn (Z.to_nat off) b).

(** [b] with [bytes] written at offset [off]. *)
Definition store (b : buffer) (off : Z) (bytes : buffer) : buffer :=
  firstn (Z.to_nat off) b ++ bytes ++ skipn (Z.to_nat off + length bytes) b.

Definition load8 (b : buffer) (off : Z) : Z := nth (Z.to_nat off) b 0.

(** [memcpy(dst + doff, src + soff, n)].  The length is a [size_t], so a
    negative [n] is a huge count; reading past [src] or writing past [dst]
    is undefined behaviour, reported as [None]. *)
Definition memcpy (dst : buffer) (doff : Z) (src : buffer) (soff n : Z)
  : option buffer :=
  if (n <? 0) || (zlength src <? soff + n) || (zlength dst <? doff + n)
  then None
  else Some (store dst doff (slice src soff n)).

(** The bytes in memory of a [uint16_t] holding [htons(v)]: most significant
    byte first, whatever the host's byte order. *)
Definition htons_bytes (v : Z) : buffer :=
  [to_uint16 v / 256; to_uint16 v mod 256].

(** [ntohs] of the [uint16_t] stored at offset [off]. *)
Definition ntohs_at (b : buffer) (off : Z) : Z :=
  load8 b off * 256 + load8 b (off + 1).

(** ** Outcomes of a call

    A call returns ([Done]), waits for ever on a socket on which nothing
    arrives any more ([Blocked]), runs into undefined behaviour ([Fault]),
    or is still running when the model's iteration bound is used up
    ([Spinning]; see [l4sap_recv_returns_or_blocks]). *)

Inductive outcome (A : Type) : Type :=
| Done (a : A)
| Blocked
| Fault
| Spinning.

Arguments Done {A} a.
Arguments Blocked {A}.
Arguments Fault {A}.
Arguments Spinning {A}.

Definition bind {A B : Type} (m : outcome A) (k : A -> outcome B) : outcome B :=
  match m with
  | Done a => k a
  | Blocked => Blocked
  | Fault => Fault
  | Spinning => Spinning
  end.

Notation "x <- m ;; k" := (bind m (fun x => k))
  (at level 61, m at next level, right associativity).
Notation "' pat <- m ;; k" :=
  (bind m (fun x => match x with pat => k end))
  (at level 61, pat pattern, m at next level, right associativity).

Definition lift_mem {A : Type} (m : option A) : outcome A :=
  match m with
  | Some a => Done a
  | None => Fault
  end.

(** ** The operating system: one UDP socket

    [inbox] lists what the successive waits on the socket will see,
    [sendto_fails] tells which of the coming [sendto] calls fail (none once
    the list is used up), and [outbox] collects the datagrams put on the
    wire, oldest first.  Time is not modelled: a wait that ends without a
    datagram is an event of the script. *)

Inductive os_event : Type :=
| SelectFails
| SelectTimeout
| RecvfromFails
| Datagram (bytes : buffer).

Record OS : Type := mkOS {
  inbox : list os_event;
  sendto_fails : list bool;
  outbox : list buffer
}.

(** [struct timeval]. *)
Definition timeval : Type := (Z * Z)%type.

(** [select] on the socket.  With a timeout, an empty script is a timeout;
    without one the call never returns. *)
Definition sys_select (timeout : option timeval) (os : OS) : outcome (Z * OS) :=
  match inbox os with
  | [] =>
      match timeout with
      | Some _ => Done (0, os)
      | None => Blocked
      end
  | SelectFails :: rest => Done (-1, mkOS rest (sendto_fails os) (outbox os))
  | SelectTimeout :: rest => Done (0, mkOS rest (sendto_fails os) (outbox os))
  | RecvfromFails :: _ => Done (1, os)
  | Datagram _ :: _ => Done (1, os)
  end.

(** [recvfrom] into an array of [cap] bytes: the count and the bytes read (a
    datagram longer than the array is cut). *)
Definition sys_recvfrom (cap : Z) (os : OS) : Z * buffer * OS :=
  match inbox os with
  | Datagram d :: rest =>
      (Z.min (zlength d) cap, firstn (Z.to_nat cap) d,
       mkOS rest (sendto_fails os) (outbox os))
  | _ :: rest => (-1, [], mkOS rest (sendto_fails os) (outbox os))
  | [] => (-1, [], os)
  end.

(** [sendto] of the datagram [bytes]. *)
Definition sys_sendto (bytes : buffer) (os : OS) : Z * OS :=
  match sendto_fails os with
  | true :: rest => (-1, mkOS (inbox os) rest (outbox os))
  | false :: rest =>
      (zlength bytes, mkOS (inbox os) rest (outbox os ++ [bytes]))
  | [] => (zlength bytes, mkOS (inbox os) [] (outbox os ++ [bytes]))
  end.

(** ** Constants of the missing headers *)

(** Modelled from the spec: [l2sap.h] and [l4sap.h] are not part of the
    sources.  The frame size, the three frame types and the two negative
    return codes are parameters of the development; the header layouts are
    the ones of the data model ([L2Headersize = 6], [L4Headersize = 4]).
    [FD_SETSIZE], the number of descriptors an [fd_set] holds, is the
    platform's ([<sys/select.h>]) and a parameter as well. *)
Class Constants : Type := {
  L2Framesize : Z;
  L4_DATA : Z;
  L4_ACK : Z;
  L4_RESET : Z;
  L4_QUIT : Z;
  L4_SEND_FAILED : Z;
  FD_SETSIZE : Z
}.

(** Modelled from the spec: [sizeof(struct L2Header)], for the fields
    [dst_addr] (2 bytes), [len] (2), [checksum] (1), [mbz] (1). *)
Definition L2Headersize : Z := 6.

(** [L2_TIMEOUT], "which has the value 0". *)
Definition L2_TIMEOUT : Z := 0.

(** Modelled from the spec: [sizeof(struct L4Header)], four one-byte
    fields. *)
Definition L4Headersize : Z := 4.

(** Modelled from the spec: offsets of the fields of [struct L2Header]. *)
Definition L2_dst_addr : Z := 0.
Definition L2_len : Z := 2.
Definition L2_checksum : Z := 4.
Definition L2_mbz : Z := 5.

Section L2.

Context {K : Constants}.

Definition L2Payloadsize : Z := L2Framesize - L2Headersize.

(** Modelled from the spec: [struct L2SAP] is declared in the missing
    [l2sap.h]; the entity holds its socket and the peer's
    [sin_addr.s_addr]. *)
Record L2SAP : Type := mkL2SAP {
  socket : Z;
  peer_addr : Z
}.

Definition compute_checksum (frame : buffer) (len : Z) : Z :=
  fold_left Z.lxor (firstn (Z.to_nat len) frame) 0.

(** An [fd_set], as the descriptors in it.  [FD_SET(fd, &set)] sets the bit
    [fd] of an array of [FD_SETSIZE] bits: a descriptor that is negative or
    not below [FD_SETSIZE] is undefined behaviour. *)
Definition FD_ZERO : list Z := [].

Definition FD_SET (fd : Z) (set : list Z) : outcome (list Z) :=
  if (0 <=? fd) && (fd <? FD_SETSIZE) then Done (fd :: set) else Fault.

Definition l2sap_sendto (client : option L2SAP) (data : option buffer)
    (len : Z) (os : OS) : outcome (Z * OS) :=
  match client, data with
  | Some c, Some d =>
      if len <? 0 then Done (-1, os)
      else if len >? L2Payloadsize then Done (-1, os)
      else if socket c <? 0 then Done (-1, os)
      else if len + L2Headersize >? L2Framesize then Done (-1, os)
      else
        let frame := memset0 L2Framesize in
        let frame := store frame L2_dst_addr (htons_bytes (peer_addr c)) in
        let frame := store frame L2_len (htons_bytes (len + L2Headersize)) in
        let frame := store frame L2_checksum [0] in
        let frame := store frame L2_mbz [0] in
        frame <- lift_mem (memcpy frame L2Headersize d 0 len) ;;
        let checksum := compute_checksum frame (len + L2Headersize) in
        let frame := store frame L2_checksum [checksum] in
        let '(sent_udpbytes, os) :=
          sys_sendto (slice frame 0 (len + L2Headersize)) os in
        if sent_udpbytes <? 0 then Done (-1, os)
        else Done (len, os)
  | _, _ => Done (-1, os)
  end.

(** The buffer of the result is the content of [data] after the call ([[]]
    for a [NULL] pointer). *)
Definition l2sap_recvfrom_timeout (client : option L2SAP)
    (data : option buffer) (len : Z) (timeout : option timeval) (os : OS)
  : outcome (Z * buffer * OS) :=
  match client, data with
  | Some c, Some d =>
      if len <=? 0 then Done (-1, d, os)
      else
        readfds <- FD_SET (socket c) FD_ZERO ;;
        '(select_result, os) <- sys_select timeout os ;;
        if select_result <? 0 then Done (-1, d, os)
        else if select_result =? 0 then Done (L2_TIMEOUT, d, os)
        else
          let frame := memset0 L2Framesize in
          let '(received, bytes, os) := sys_recvfrom L2Framesize os in
          let frame := store frame 0 bytes in
          if received <? 0 then Done (-1, d, os)
          else if received <? L2Headersize then Done (-1, d, os)
          else
            let received_checksum := load8 frame L2_checksum in
            let frame := store frame L2_checksum [0] in
            let calculated_checksum := compute_checksum frame received in
            if negb (received_checksum =? calculated_checksum)
            then Done (-1, d, os)
            else
              let payload_len :=
                to_uint16 (ntohs_at frame L2_len - L2Headersize) in
              if payload_len >? len then Done (-1, d, os)
              else
                d <- lift_mem (memcpy d 0 frame L2Headersize payload_len) ;;
                Done (payload_len, d, os)
  | _, Some d => Done (-1, d, os)
  | _, None => Done (-1, [], os)
  end.

Definition l2sap_recvfrom (client : option L2SAP) (data : option buffer)
    (len : Z) (os : OS) : outcome (Z * buffer * OS) :=
  l2sap_recvfrom_timeout client data len None os.

End L2.

(** ** L4: stop-and-wait over L2 *)

(** Modelled from the spec: [struct L4Header] is declared in the missing
    [l4sap.h]; four [uint8_t] fields, in this order in memory. *)
Record L4Header : Type := mkL4Header {
  hdr_type : Z;
  hdr_seqno : Z;
  hdr_ackno : Z;
  hdr_mbz : Z
}.

(** The header read through a [struct L4Header*] pointing at [b]. *)
Definition header_at (b : buffer) : L4Header :=
  mkL4Header (load8 b 0) (load8 b 1) (load8 b 2) (load8 b 3).

(** The bytes of a header in memory. *)
Definition header_bytes (h : L4Header) : buffer :=
  [hdr_type h; hdr_seqno h; hdr_ackno h; hdr_mbz h].

(** Modelled from the spec: [struct L4SAP] is declared in the missing
    [l4sap.h].  The entity owns its L2 entity, the two alternating bits and
    the one-frame pending slot (flag, header, payload length, payload). *)
Record L4SAP : Type := mkL4SAP {
  l2 : option L2SAP;
  send_seqno : Z;
  expected_seqno : Z;
  pending_data : Z;
  pending_header : L4Header;
  pending_pl_len : Z;
  pending_pl_buffer : buffer
}.

Definition set_send_seqno (s : L4SAP) (v : Z) : L4SAP :=
  mkL4SAP (l2 s) v (expected_seqno s) (pending_data s) (pending_header s)
    (pending_pl_len s) (pending_pl_buffer s).

Definition set_expected_seqno (s : L4SAP) (v : Z) : L4SAP :=
  mkL4SAP (l2 s) (send_seqno s) v (pending_data s) (pending_header s)
    (pending_pl_len s) (pending_pl_buffer s).

Definition set_pending_data (s : L4SAP) (v : Z) : L4SAP :=
  mkL4SAP (l2 s) (send_seqno s) (expected_seqno s) v (pending_header s)
    (pending_pl_len s) (pending_pl_buffer s).

Definition set_pending (s : L4SAP) (h : L4Header) (n : Z) (pl : buffer)
  : L4SAP :=
  mkL4SAP (l2 s) (send_seqno s) (expected_seqno s) 1 h n pl.

Section L4.

Context {K : Constants}.

Definition L4Framesize : Z := L2Payloadsize.
Definition L4Payloadsize : Z := L4Framesize - L4Headersize.

(** The fields of a fresh entity, as [l4sap_create] sets them; the pending
    payload array comes from [malloc] with unknown content [garbage]. *)
Definition l4sap_init (c : L2SAP) (h : L4Header) (garbage : buffer) : L4SAP :=
  mkL4SAP (Some c) 0 0 0 h 0 garbage.

(** The ACK frame answering a DATA frame with sequence number [seqno]:
    [ackno = 1 - seqno], stored in a [uint8_t]. *)
Definition ack_for (seqno : Z) : buffer :=
  header_bytes (mkL4Header (to_uint8 L4_ACK) 0 (to_uint8 (1 - seqno)) 0).

(** [recv_len - sizeof(struct L4Header)] assigned to an [int]: the
    subtraction is done in [size_t]. *)
Definition payload_len_of (recv_len : Z) : Z :=
  to_int (to_size_t (to_size_t recv_len - L4Headersize)).

(** The [for] loop of [l4sap_send], with [attempts = max_retries - attempt]
    iterations to go.  The copy of the unexpected payload into [payload_str]
    only feeds the log and is left out. *)
Fixpoint l4sap_send_loop (attempts : nat) (s : L4SAP) (packet : buffer)
    (len : Z) (recv_buffer : buffer) (os : OS) : outcome (Z * L4SAP * OS) :=
  match attempts with
  | O => Done (L4_SEND_FAILED, s, os)
  | S attempts =>
      '(sent, os) <-
        l2sap_sendto (l2 s) (Some packet) (len + L4Headersize) os ;;
      if sent <? 0 then Done (L4_SEND_FAILED, s, os)
      else
        '(recv_len, recv_buffer, os) <-
          l2sap_recvfrom_timeout (l2 s) (Some recv_buffer) L4Framesize
            (Some (1, 0)) os ;;
        if recv_len =? L2_TIMEOUT
        then l4sap_send_loop attempts s packet len recv_buffer os
        else if recv_len <? 0
        then l4sap_send_loop attempts s packet len recv_buffer os
        else if to_size_t recv_len <? L4Headersize
        then l4sap_send_loop attempts s packet len recv_buffer os
        else
          let recv_header := header_at recv_buffer in
          if hdr_type recv_header =? L4_RESET then Done (L4_QUIT, s, os)
          else if hdr_type recv_header =? L4_ACK then
            if hdr_ackno recv_header =? 1 - send_seqno s
            then Done (len, set_send_seqno s (1 - send_seqno s), os)
            else l4sap_send_loop attempts s packet len recv_buffer os
          else if hdr_type recv_header =? L4_DATA then
            let payload_len := payload_len_of recv_len in
            let payload_len :=
              if payload_len >? L4Payloadsize then L4Payloadsize
              else payload_len in
            '(_, os) <-
              l2sap_sendto (l2 s) (Some (ack_for (hdr_seqno recv_header)))
                L4Headersize os ;;
            s <-
              (if pending_data s =? 0 then
                 pl <- lift_mem (memcpy (pending_pl_buffer s) 0 recv_buffer
                                   L4Headersize payload_len) ;;
                 Done (set_pending s recv_header payload_len pl)
               else Done s) ;;
            l4sap_send_loop attempts s packet len recv_buffer os
          else l4sap_send_loop attempts s packet len recv_buffer os
  end.

Definition max_retries : nat := 5.

(** The four header fields are written in one go.  [recv_buffer] is not
    initialised in the source; no byte of it is read before
    [l2sap_recvfrom_timeout] has written it, so it starts as zeros here. *)
Definition l4sap_send (l4 : option L4SAP) (data : option buffer) (len : Z)
    (os : OS) : outcome (Z * option L4SAP * OS) :=
  match l4 with
  | None => Done (L4_SEND_FAILED, None, os)
  | Some s =>
      match l2 s, data with
      | Some _, Some d =>
          if len <=? 0 then Done (L4_SEND_FAILED, Some s, os)
          else
            let len := if len >? L4Payloadsize then L4Payloadsize else len in
            let packet := memset0 L4Framesize in
            let packet :=
              store packet 0
                (header_bytes
                   (mkL4Header (to_uint8 L4_DATA) (to_uint8 (send_seqno s))
                      0 0)) in
            packet <- lift_mem (memcpy packet L4Headersize d 0 len) ;;
            let recv_buffer := memset0 L4Framesize in
            '(r, s, os) <-
              l4sap_send_loop max_retries s packet len recv_buffer os ;;
            Done (r, Some s, os)
      | _, _ => Done (L4_SEND_FAILED, Some s, os)
      end
  end.

(** The [while (1)] loop of [l4sap_recv]; [fuel] bounds the iterations of
    the model.  Both length tests compare an [int] with a [sizeof], that is
    in [size_t]; the second one repeats the first and never fires. *)
Fixpoint l4sap_recv_loop (fuel : nat) (s : L4SAP) (data : buffer)
    (packet : buffer) (os : OS) : outcome (Z * L4SAP * buffer * OS) :=
  match fuel with
  | O => Spinning
  | S fuel =>
      '(recv_len, packet, os) <-
        l2sap_recvfrom_timeout (l2 s) (Some packet) L2Framesize None os ;;
      if recv_len =? L2_TIMEOUT
      then l4sap_recv_loop fuel s data packet os
      else if to_size_t recv_len <? L4Headersize
      then l4sap_recv_loop fuel s data packet os
      else if to_size_t recv_len <? L4Headersize
      then l4sap_recv_loop fuel s data packet os
      else
        let header := header_at packet in
        let payload_len := payload_len_of recv_len in
        if negb (hdr_mbz header =? 0)
        then l4sap_recv_loop fuel s data packet os
        else if hdr_type header =? L4_RESET then Done (L4_QUIT, s, data, os)
        else if hdr_type header =? L4_DATA then
          if hdr_seqno header =? expected_seqno s then
            let copy_len := payload_len in
            data <- lift_mem (memcpy data 0 packet L4Headersize copy_len) ;;
            '(_, os) <-
              l2sap_sendto (l2 s) (Some (ack_for (hdr_seqno header)))
                L4Headersize os ;;
            Done (copy_len, set_expected_seqno s (1 - expected_seqno s),
                  data, os)
          else
            '(_, os) <-
              l2sap_sendto (l2 s) (Some (ack_for (hdr_seqno header)))
                L4Headersize os ;;
            l4sap_recv_loop fuel s data packet os
        else l4sap_recv_loop fuel s data packet os
  end.

(** Every iteration of the loop takes one event of the script, so one more
    iteration than there are events reaches the wait that never ends. *)
Definition l4sap_recv_network (s : L4SAP) (data : buffer) (os : OS)
  : outcome (Z * L4SAP * buffer * OS) :=
  l4sap_recv_loop (S (length (inbox os))) s data (memset0 L4Framesize) os.

Definition l4sap_recv (l4 : option L4SAP) (data : option buffer) (len : Z)
    (os : OS) : outcome (Z * option L4SAP * buffer * OS) :=
  match l4 with
  | None =>
      Done (-1, None, match data with Some d => d | None => [] end, os)
  | Some s =>
      match l2 s, data with
      | Some _, Some d =>
          if len <=? 0 then Done (-1, Some s, d, os)
          else
            '(r, s, d, os) <-
              (if negb (pending_data s =? 0) then
                 let hdr := pending_header s in
                 if (hdr_type hdr =? L4_DATA)
                    && (hdr_seqno hdr =? expected_seqno s)
                 then
                   let copy_len :=
                     if pending_pl_len s <? len then pending_pl_len s
                     else len in
                   d <- lift_mem
                          (memcpy d 0 (pending_pl_buffer s) 0 copy_len) ;;
                   '(_, os) <-
                     l2sap_sendto (l2 s) (Some (ack_for (hdr_seqno hdr)))
                       L4Headersize os ;;
                   let s := set_expected_seqno s (1 - expected_seqno s) in
                   let s := set_pending_data s 0 in
                   Done (copy_len, s, d, os)
                 else
                   '(_, os) <-
                     l2sap_sendto (l2 s) (Some (ack_for (hdr_seqno hdr)))
                       L4Headersize os ;;
                   let s := set_pending_data s 0 in
                   l4sap_recv_network s d os
               else l4sap_recv_network s d os) ;;
            Done (r, Some s, d, os)
      | _, Some d => Done (-1, Some s, d, os)
      | _, None => Done (-1, Some s, [], os)
      end
  end.

End L4.

(** ** The alternating bits *)

Definition bit (x : Z) : Prop := x = 0 \/ x = 1.

Definition seqnos_in_range (s : L4SAP) : Prop :=
  bit (send_seqno s) /\ bit (expected_seqno s).

(** ** Frames on the wire, and the conditions the theorems speak of *)

Section Wire.

Context {K : Constants}.

(** XOR of all the bytes of a buffer. *)
Definition xor_all (b : buffer) : Z := fold_left Z.lxor b 0.

Definition l2_header (dst len checksum : Z) : buffer :=
  htons_bytes dst ++ htons_bytes len ++ [checksum; 0].

(** The datagram [l2sap_sendto] hands to [sendto] for a payload
    ([l2sap_sendto_frame] below). *)
Definition l2_frame (dst : Z) (payload : buffer) : buffer :=
  let len := zlength payload + L2Headersize in
  l2_header dst len (xor_all (l2_header dst len 0 ++ payload)) ++ payload.

(** The test of [l2sap_recvfrom_timeout] on a received frame: the checksum
    field against the XOR of the frame with that field set to zero. *)
Definition checksum_verifies (frame : buffer) : bool :=
  load8 frame L2_checksum =?
  compute_checksum (store frame L2_checksum [0]) (zlength frame).

(** A frame that fits the receiver's array, holds a header and carries the
    checksum of its bytes. *)
Definition l2_wellformed (frame : buffer) : Prop :=
  L2Headersize <= zlength frame <= L2Framesize /\
  checksum_verifies frame = true.

(** An L4 frame: header and payload. *)
Definition l4_frame (h : L4Header) (payload : buffer) : buffer :=
  header_bytes h ++ payload.

(** The header of the DATA frame [l4sap_send] builds. *)
Definition data_header (s : L4SAP) : L4Header :=
  mkL4Header (to_uint8 L4_DATA) (to_uint8 (send_seqno s)) 0 0.

(** The datagram that carries the first [len + L4Headersize] bytes of
    [packet] to the peer of [c]. *)
Definition wire (c : L2SAP) (packet : buffer) (len : Z) : buffer :=
  l2_frame (peer_addr c) (slice packet 0 (len + L4Headersize)).

(** The datagram that carries an ACK for [seqno] to the peer of [c]. *)
Definition ack_wire (c : L2SAP) (seqno : Z) : buffer :=
  l2_frame (peer_addr c) (ack_for seqno).

(** A datagram from the peer: an L4 frame inside the L2 frame the peer's
    [l2sap_sendto] builds for it. *)
Definition incoming (dst : Z) (h : L4Header) (payload : buffer) : os_event :=
  Datagram (l2_frame dst (l4_frame h payload)).

(** What every iteration of the loop of [l4sap_send] relies on: an entity
    with an open socket that an [fd_set] can hold, a packet that holds the
    [len] payload bytes, a receive array of [L4Framesize] bytes, and a
    [sendto] that accepts the next datagram. *)
Definition send_ready (c : L2SAP) (s : L4SAP) (packet : buffer) (len : Z)
    (recv_buffer : buffer) (os : OS) : Prop :=
  l2 s = Some c /\ 0 <= socket c < FD_SETSIZE /\
  0 <= len <= L4Payloadsize /\ len + L4Headersize <= zlength packet /\
  zlength recv_buffer = L4Framesize /\
  hd false (sendto_fails os) = false.

(** The peer never answers: every wait ends in a timeout. *)
Definition peer_silent (os : OS) : Prop :=
  Forall (fun e => e = SelectTimeout) (inbox os).

(** [sendto] accepts every datagram. *)
Definition sendto_reliable (os : OS) : Prop :=
  Forall (fun b => b = false) (sendto_fails os).

(** The socket after [n] rounds of sending [frame] and timing out. *)
Definition after_timeouts (n : nat) (frame : buffer) (os : OS) : OS :=
  mkOS (skipn n (inbox os)) (skipn n (sendto_fails os))
    (outbox os ++ repeat frame n).

(** The frame sizes the layout needs: room for both headers, and a length
    that fits the 16-bit [len] field. *)
Definition framesize_ok : Prop :=
  L2Headersize + L4Headersize <= L2Framesize < 2 ^ 16.

(** One bit of one byte of a frame inverted. *)
Definition flip_bit (frame : buffer) (i : nat) (k : Z) : buffer :=
  firstn i frame ++
  match skipn i frame with
  | [] => []
  | b :: rest => Z.lxor b (Z.shiftl 1 k) :: rest
  end.

(** The wire after [os] sent the datagram [bytes]. *)
Definition sent (bytes : buffer) (os : OS) : OS := snd (sys_sendto bytes os).

(** The socket after its first event has been taken. *)
Definition next (os : OS) : OS :=
  mkOS (tl (inbox os)) (sendto_fails os) (outbox os).

End Wire.

(** ** A concrete configuration

    Small frames, so that runs can be computed: [L2Framesize = 32], hence
    [L4Framesize = 26] and [L4Payloadsize = 22]. *)

Definition demo : Constants := {|
  L2Framesize := 32;
  L4_DATA := 0;
  L4_ACK := 1;
  L4_RESET := 2;
  L4_QUIT := -2;
  L4_SEND_FAILED := -1;
  FD_SETSIZE := 1024
|}.

(** An L2 entity with an open socket and peer 127.0.0.1. *)
Definition demo_l2 : L2SAP := mkL2SAP 3 16777343.

(** A fresh L4 entity on it. *)
Definition demo_l4 : L4SAP :=
  l4sap_init demo_l2 (mkL4Header 0 0 0 0) (repeat 0 22).

(** The same entity with a DATA frame "hi" in its pending slot, with
    sequence number [seqno]. *)
Definition demo_l4_pending (seqno : Z) : L4SAP :=
  set_pending demo_l4 (mkL4Header 0 seqno 0 0) 2 ([104; 105] ++ repeat 0 20).

(** The three bytes "ABC" the entity is asked to send, and the packet
    [l4sap_send] builds for them. *)
Definition demo_data : buffer := [65; 66; 67].

Definition demo_packet : buffer :=
  [0; 0; 0; 0; 65; 66; 67] ++ repeat 0 19.

(** The DATA frame of the entity on the wire. *)
Definition demo_wire : buffer :=
  [0; 127; 0; 13; 50; 0; 0; 0; 0; 0; 65; 66; 67].

(** A socket with the given events to come and nothing sent yet. *)
Definition demo_os (events : list os_event) : OS := mkOS events [] [].

(** Frames of the peer: an ACK for the first DATA frame with [mbz] as
    given, an ACK that acknowledges nothing new, the peer's first DATA
    frame "hi", and a RESET. *)
Definition demo_ack (mbz : Z) : os_event :=
  incoming 7 (mkL4Header 1 0 1 mbz) [].

Definition demo_stale_ack : os_event := incoming 7 (mkL4Header 1 0 0 0) [].

Definition demo_peer_data (mbz : Z) : os_event :=
  incoming 7 (mkL4Header 0 0 0 mbz) [104; 105].

Definition demo_reset (mbz : Z) : os_event :=
  incoming 7 (mkL4Header 2 0 0 mbz) [].

(** The ACK of the entity for the peer's first DATA frame, on the wire. *)
Definition demo_ack_wire : buffer := [0; 127; 0; 10; 117; 0; 1; 0; 1; 0].


(** ** The pending slot and the rounds of [l4sap_send] *)

Section Slot.

Context {K : Constants}.

(** The pending slot of [s'] is the one of [s], untouched. *)
Definition slot_kept (s s' : L4SAP) : Prop :=
  pending_data s' = pending_data s /\
  pending_header s' = pending_header s /\
  pending_pl_len s' = pending_pl_len s /\
  pending_pl_buffer s' = pending_pl_buffer s.

(** The pending slot was empty in [s] and holds a DATA frame in [s']. *)
Definition slot_filled (s s' : L4SAP) : Prop :=
  pending_data s = 0 /\ pending_data s' = 1 /\
  hdr_type (pending_header s') = L4_DATA /\
  0 <= pending_pl_len s' <= L4Payloadsize /\
  zlength (pending_pl_buffer s') = zlength (pending_pl_buffer s).

(** What one round of the loop of [l4sap_send] puts on the wire: nothing
    (the send failed), the DATA frame, or the DATA frame and an ACK for a
    DATA frame of the peer. *)
Definition round_trace (c : L2SAP) (frame : buffer) (round : list buffer)
  : Prop :=
  round = [] \/ round = [frame] \/ exists q, round = [frame; ack_wire c q].

End Slot.

(** * The maze solver

    Shallow embedding of [maze.c] (the first file of [src/maze.c]): a
    depth-first search from the start of the maze that marks the cells of
    the path it finds to the end. *)

(** An expression of type [int]: a value outside the range is a signed
    overflow, which is undefined behaviour. *)
Definition int_of (v : Z) : outcome Z :=
  if (- 2 ^ 31 <=? v) && (v <? 2 ^ 31) then Done v else Fault.

(** [b[i]] read and written through a pointer to an array with the content
    [b]: an index outside the array is undefined behaviour. *)
Definition read8 (b : buffer) (i : Z) : outcome Z :=
  if (0 <=? i) && (i <? zlength b) then Done (load8 b i) else Fault.

Definition write8 (b : buffer) (i v : Z) : outcome buffer :=
  if (0 <=? i) && (i <? zlength b) then Done (store b i [v]) else Fault.

(** Modelled from the spec: [maze.h] is not part of the sources.  The five
    bits of a cell (an open passage to the left, to the right, up and down,
    and the mark of the solution) are parameters. *)
Class MazeBits : Type := {
  left : Z;
  right : Z;
  up : Z;
  down : Z;
  mark : Z
}.

(** Modelled from the spec: [struct Maze] is declared in the missing
    [maze.h]; the fields are the ones the solver reads.  [maze] is the
    content of the array of cells the field points to, row by row. *)
Record Maze : Type := mkMaze {
  edgeLen : Z;
  startX : Z;
  startY : Z;
  endX : Z;
  endY : Z;
  maze : buffer
}.

Definition set_maze (m : Maze) (cells : buffer) : Maze :=
  mkMaze (edgeLen m) (startX m) (startY m) (endX m) (endY m) cells.

Definition is_valid (x y n : Z) : bool :=
  (x >=? 0) && (x <? n) && (y >=? 0) && (y <? n).

Section Solver.

Context {B : MazeBits}.

(** A cell after [|= mark]: the result is stored in a [uint8_t]. *)
Definition with_mark (cell : Z) : Z := to_uint8 (Z.lor cell mark).

(** [maze->maze[idx] |= mark]. *)
Definition mark_cell (m : Maze) (idx : Z) : outcome Maze :=
  cell <- read8 (maze m) idx ;;
  cells <- write8 (maze m) idx (with_mark cell) ;;
  Done (set_maze m cells).

(** One of the four blocks of [dfs] that look at a neighbour: the passage
    out of the cell at [idx] is [out_bit], the neighbour is at [(x', y')]
    and its passage back is [in_bit]; [dfs] is the recursive call.  The
    result [1] is the [return 1] of the block; with [0] the function goes
    on behind the block. *)
Definition dfs_neighbour
    (dfs : Maze -> Z -> Z -> buffer -> outcome (Z * Maze * buffer))
    (m : Maze) (idx cell out_bit in_bit x' y' : Z) (visited : buffer)
  : outcome (Z * Maze * buffer) :=
  let n := edgeLen m in
  if Z.land cell out_bit =? 0 then Done (0, m, visited)
  else
    x' <- int_of x' ;;
    y' <- int_of y' ;;
    if negb (is_valid x' y' n) then Done (0, m, visited)
    else
      row <- int_of (y' * n) ;;
      next <- int_of (row + x') ;;
      seen <- read8 visited next ;;
      if negb (seen =? 0) then Done (0, m, visited)
      else
        neighbour <- read8 (maze m) next ;;
        if Z.land neighbour in_bit =? 0 then Done (0, m, visited)
        else
          '(found, m, visited) <- dfs m x' y' visited ;;
          if found =? 0 then Done (0, m, visited)
          else
            m <- mark_cell m idx ;;
            Done (1, m, visited).

(** [dfs] behind its test for [NULL] pointers (the recursive calls pass the
    two pointers on); [fuel] bounds the depth of the recursion in the
    model. *)
Fixpoint dfs_cells (fuel : nat) (m : Maze) (x y : Z) (visited : buffer)
  : outcome (Z * Maze * buffer) :=
  match fuel with
  | O => Spinning
  | S fuel =>
      let n := edgeLen m in
      row <- int_of (y * n) ;;
      idx <- int_of (row + x) ;;
      if idx <? 0 then Done (0, m, visited)
      else
        cells <- int_of (n * n) ;;
        if idx >=? cells then Done (0, m, visited)
        else if (x =? endX m) && (y =? endY m) then
          m <- mark_cell m idx ;;
          Done (1, m, visited)
        else
          visited <- write8 visited idx 1 ;;
          cell <- read8 (maze m) idx ;;
          '(found, m, visited) <-
            dfs_neighbour (dfs_cells fuel) m idx cell right left (x + 1) y
              visited ;;
          if negb (found =? 0) then Done (1, m, visited)
          else
          '(found, m, visited) <-
            dfs_neighbour (dfs_cells fuel) m idx cell left right (x - 1) y
              visited ;;
          if negb (found =? 0) then Done (1, m, visited)
          else
          '(found, m, visited) <-
            dfs_neighbour (dfs_cells fuel) m idx cell down up x (y + 1)
              visited ;;
          if negb (found =? 0) then Done (1, m, visited)
          else
          '(found, m, visited) <-
            dfs_neighbour (dfs_cells fuel) m idx cell up down x (y - 1)
              visited ;;
          if negb (found =? 0) then Done (1, m, visited)
          else Done (0, m, visited)
  end.

Definition dfs (fuel : nat) (maze : option Maze) (x y : Z)
    (visited : option buffer)
  : outcome (Z * option Maze * option buffer) :=
  match maze, visited with
  | Some m, Some v =>
      '(found, m, v) <- dfs_cells fuel m x y v ;;
      Done (found, Some m, Some v)
  | _, _ => Done (0, maze, visited)
  end.

(** The result is the maze after the call.  [calloc_ok] tells whether
    [calloc] returns an array.  A call of [dfs] enters a cell in [visited]
    before it calls itself on a cell that is not entered, so the depth of
    the recursion is at most the number of cells plus one
    ([dfs_cells_spec]). *)
Definition mazeSolve (m : Maze) (calloc_ok : bool) : outcome Maze :=
  let n := edgeLen m in
  cells <- int_of (n * n) ;;
  if negb calloc_ok then Done m
  else
    let visited := memset0 cells in
    '(_, maze', _) <-
      dfs (S (Z.to_nat cells)) (Some m) (startX m) (startY m)
        (Some visited) ;;
    match maze' with
    | Some m' => Done m'
    | None => Done m
    end.

(** ** What the theorems on the solver speak of *)

(** [cells'] is [cells] with [mark] set in some of the cells. *)
Definition marks_only (cells cells' : buffer) : Prop :=
  Forall2 (fun a b => b = a \/ b = with_mark a) cells cells'.

(** What a result of [dfs] keeps of the maze. *)
Definition maze_kept (m m' : Maze) : Prop :=
  edgeLen m' = edgeLen m /\ startX m' = startX m /\ startY m' = startY m /\
  endX m' = endX m /\ endY m' = endY m /\ marks_only (maze m) (maze m').

Definition dfs_result_ok (m : Maze) (r : Z) (m' : Maze) : Prop :=
  (r = 0 /\ m' = m) \/ (r = 1 /\ maze_kept m m').

(** The index of the cell at [(x, y)], as [dfs] computes it. *)
Definition cell_index (m : Maze) (x y : Z) : Z := y * edgeLen m + x.

(** A maze the solver can work on: a positive edge length whose square is
    an [int], and an array that holds all the cells. *)
Definition well_formed (m : Maze) : Prop :=
  0 < edgeLen m /\ edgeLen m * edgeLen m < 2 ^ 31 /\
  edgeLen m * edgeLen m <= zlength (maze m).

(** The three tests of [dfs] before it moves from [(x, y)] to the
    neighbour [(x', y')]: the passage out of the cell, the neighbour inside
    the grid, the passage back. *)
Definition open_between (m : Maze) (x y x' y' out_bit in_bit : Z) : bool :=
  negb (Z.land (load8 (maze m) (cell_index m x y)) out_bit =? 0) &&
  is_valid x' y' (edgeLen m) &&
  negb (Z.land (load8 (maze m) (cell_index m x' y')) in_bit =? 0).

(** [dfs] may move from the cell [p] to the cell [q]. *)
Definition passage (m : Maze) (p q : Z * Z) : bool :=
  let '(x, y) := p in
  let '(x', y') := q in
  ((x' =? x + 1) && (y' =? y) && open_between m x y x' y' right left) ||
  ((x' =? x - 1) && (y' =? y) && open_between m x y x' y' left right) ||
  ((x' =? x) && (y' =? y + 1) && open_between m x y x' y' down up) ||
  ((x' =? x) && (y' =? y - 1) && open_between m x y x' y' up down).

(** [p :: route] leads from [p] through passages to the end of the maze. *)
Fixpoint is_path (m : Maze) (p : Z * Z) (route : list (Z * Z)) : bool :=
  match route with
  | [] => (fst p =? endX m) && (snd p =? endY m)
  | q :: route' => passage m p q && is_path m q route'
  end.

(** The cells with [mark] set in the cell at index [i]. *)
Definition marked (cells : buffer) (i : Z) : buffer :=
  store cells i [with_mark (load8 cells i)].

(** The cells with [mark] set in every cell of a route. *)
Fixpoint mark_route (m : Maze) (route : list (Z * Z)) (cells : buffer)
  : buffer :=
  match route with
  | [] => cells
  | (x, y) :: route' =>
      marked (mark_route m route' cells) (cell_index m x y)
  end.

(** [(x, y)] is a cell of the route. *)
Definition on_route (route : list (Z * Z)) (x y : Z) : bool :=
  existsb (fun q => (fst q =? x) && (snd q =? y)) route.

(** The number of cells not visited yet. *)
Definition unvisited (visited : buffer) : nat := count_occ Z.eq_dec visited 0.

(** [visited'] has every cell visited that [visited] has. *)
Definition visited_more (visited visited' : buffer) : Prop :=
  Forall2 (fun a b => a <> 0 -> b <> 0) visited visited'.

(** The end of the maze is never entered in [visited]. *)
Definition end_unvisited (m : Maze) (visited : buffer) : Prop :=
  is_valid (endX m) (endY m) (edgeLen m) = true ->
  load8 visited (cell_index m (endX m) (endY m)) = 0.

(** Every cell visited between [visited] and [visited'] has all the cells
    visited to which a passage leads from it. *)
Definition explored (m : Maze) (visited visited' : buffer) : Prop :=
  forall x y x' y',
    is_valid x y (edgeLen m) = true ->
    load8 visited (cell_index m x y) = 0 ->
    load8 visited' (cell_index m x y) <> 0 ->
    passage m (x, y) (x', y') = true ->
    load8 visited' (cell_index m x' y') <> 0.

(** [dfs] found the end from [(x, y)]: the cells of a path from there to
    the end got their mark. *)
Definition dfs_found (m : Maze) (x y : Z) (m' : Maze) : Prop :=
  exists route,
    is_path m (x, y) route = true /\
    m' = set_maze m (mark_route m ((x, y) :: route) (maze m)).

(** What [dfs] needs for a search from the cell at [(x, y)] with enough
    [fuel]: a cell of the grid that is not visited. *)
Definition dfs_pre (fuel : nat) (m : Maze) (x y : Z) (visited : buffer)
  : Prop :=
  zlength visited = edgeLen m * edgeLen m /\
  end_unvisited m visited /\
  is_valid x y (edgeLen m) = true /\
  load8 visited (cell_index m x y) = 0 /\
  (unvisited visited < fuel)%nat.

(** What a search from [(x, y)] returns. *)
Definition dfs_post (m : Maze) (x y : Z) (visited : buffer)
    (res : Z * Maze * buffer) : Prop :=
  let '(r, m', visited') := res in
  visited_more visited visited' /\ end_unvisited m visited' /\
  ((r = 0 /\ m' = m /\ load8 visited' (cell_index m x y) <> 0 /\
    explored m visited visited') \/
   (r = 1 /\ dfs_found m x y m')).

End Solver.

(** ** A concrete maze

    The bits of a cell, and a maze of three by three cells:
<<
      S - + - +
      |       |
      +   .   +
      |       |
      + - + - E
>>
    The passages run along the border; the cell in the middle is closed. *)

Definition demo_bits : MazeBits := {|
  left := 1; right := 2; up := 4; down := 8; mark := 16
|}.

Definition demo_maze : Maze :=
  mkMaze 3 0 0 2 2 [10; 3; 9; 12; 0; 12; 6; 3; 5].

(** The same cells with the end in the closed cell in the middle. *)
Definition demo_maze_closed : Maze :=
  mkMaze 3 0 0 1 1 [10; 3; 9; 12; 0; 12; 6; 3; 5].

(** * Creating and destroying the entities

    [malloc], [free], [socket], [close] and [inet_pton] act on the
    resources of the process: the number of heap blocks it holds and the
    descriptors it has open.  [malloc_fails] and [socket_results] list the
    results of the calls to come ([malloc] succeeds and [socket] returns
    the descriptor 3 when the list is used up). *)

Record Host : Type := mkHost {
  malloc_fails : list bool;
  socket_results : list Z;
  blocks : Z;
  descriptors : list Z
}.

(** [malloc]: whether a block was returned. *)
Definition sys_malloc (h : Host) : bool * Host :=
  match malloc_fails h with
  | true :: rest =>
      (false, mkHost rest (socket_results h) (blocks h) (descriptors h))
  | false :: rest =>
      (true, mkHost rest (socket_results h) (blocks h + 1) (descriptors h))
  | [] => (true, mkHost [] (socket_results h) (blocks h + 1) (descriptors h))
  end.

Definition sys_free (h : Host) : Host :=
  mkHost (malloc_fails h) (socket_results h) (blocks h - 1) (descriptors h).

(** [socket]: the descriptor, or a negative value. *)
Definition sys_socket (h : Host) : Z * Host :=
  let fd := hd 3 (socket_results h) in
  (fd,
   mkHost (malloc_fails h) (tl (socket_results h)) (blocks h)
     (if fd <? 0 then descriptors h else fd :: descriptors h)).

Definition sys_close (fd : Z) (h : Host) : Host :=
  mkHost (malloc_fails h) (socket_results h) (blocks h)
    (remove Z.eq_dec fd (descriptors h)).

(** Modelled from the spec: the [struct sockaddr_in] inside [struct L2SAP]
    ([l2sap.h] is not part of the sources).  [l2sap_create] is the one
    function that writes the family and the port; the transfer functions
    read the address only, which is the [peer_addr] of [L2SAP]. *)
Record L2Endpoint : Type := mkL2Endpoint {
  endpoint : L2SAP;
  sin_family : Z;
  sin_port : buffer
}.

Section Lifecycle.

Context {K : Constants}.

(** [AF_INET], and [inet_pton(AF_INET, text, &addr)]: the address for a
    text it accepts (the call returns 1), [None] for one it turns down
    (the call returns 0 or -1). *)
Variable AF_INET : Z.
Variable inet_pton : buffer -> option Z.

(** The result is the new entity, [None] for [NULL].  [server_ip] is the
    text the pointer points to. *)
Definition l2sap_create (server_ip : buffer) (server_port : Z) (h : Host)
  : option L2Endpoint * Host :=
  let '(got, h) := sys_malloc h in
  if negb got then (None, h)
  else
    let '(fd, h) := sys_socket h in
    if fd <? 0 then (None, sys_free h)
    else
      match inet_pton server_ip with
      | None => (None, sys_free (sys_close fd h))
      | Some addr =>
          (Some (mkL2Endpoint (mkL2SAP fd addr) AF_INET
                   (htons_bytes server_port)), h)
      end.

Definition l2sap_destroy (client : option L2SAP) (h : Host) : Host :=
  match client with
  | Some c =>
      let h := if socket c >=? 0 then sys_close (socket c) h else h in
      sys_free h
  | None => h
  end.

(** [garbage] is what [malloc] leaves in the block of the new entity; the
    pending header and the pending payload keep it. *)
Definition l4sap_create (server_ip : option buffer) (server_port : Z)
    (garbage : L4SAP) (h : Host) : option L4SAP * Host :=
  match server_ip with
  | None => (None, h)
  | Some ip =>
      if server_port <? 1024 then (None, h)
      else
        let '(got, h) := sys_malloc h in
        if negb got then (None, h)
        else
          match l2sap_create ip server_port h with
          | (None, h) => (None, sys_free h)
          | (Some ep, h) =>
              (Some (l4sap_init (endpoint ep) (pending_header garbage)
                       (pending_pl_buffer garbage)), h)
          end
  end.

(** The pointer [l4] is gone after the call when the block was freed. *)
Definition l4sap_destroy (l4 : option L4SAP) (h : Host) : Host :=
  match l4 with
  | Some s =>
      match l2 s with
      | Some c =>
          let h := l2sap_destroy (Some c) h in
          sys_free h
      | None => h
      end
  | None => h
  end.

(** The resources of the process: heap blocks and open descriptors. *)
Definition resources (h : Host) : Z * list Z := (blocks h, descriptors h).

End Lifecycle.

(** A host with nothing allocated and no descriptor open, whose [inet_pton]
    accepts every text but the empty one, as 127.0.0.1. *)
Definition demo_host : Host := mkHost [] [] 0 [].

Definition demo_inet_pton (text : buffer) : option Z :=
  match text with
  | [] => None
  | _ :: _ => Some 16777343
  end.
(** ** Buffers: basic facts *)

Lemma zlength_nonneg (b : buffer) : 0 <= zlength b.
Proof. unfold zlength; lia. Qed.

Lemma zlength_app (a b : buffer) : zlength (a ++ b) = zlength a + zlength b.
Proof. unfold zlength; rewrite length_app; lia. Qed.

Lemma zlength_cons (x : Z) (b : buffer) : zlength (x :: b) = zlength b + 1.
Proof. unfold zlength; simpl length; lia. Qed.

Lemma zlength_memset0 (n : Z) : 0 <= n -> zlength (memset0 n) = n.
Proof. intros; unfold zlength, memset0; rewrite repeat_length; lia. Qed.

Lemma memset0_split (k n : Z) :
  0 <= k <= n -> memset0 n = memset0 k ++ memset0 (n - k).
Proof.
  intros H; unfold memset0.
  rewrite <- repeat_app; f_equal; lia.
Qed.

Lemma slice_length (b : buffer) (off n : Z) :
  0 <= off -> 0 <= n -> off + n <= zlength b -> zlength (slice b off n) = n.
Proof.
  unfold zlength, slice; intros.
  rewrite length_firstn, length_skipn; lia.
Qed.

Lemma slice_all (b : buffer) : slice b 0 (zlength b) = b.
Proof.
  unfold slice, zlength; simpl; rewrite Nat2Z.id; apply firstn_all.
Qed.

Lemma slice_app_l (a b : buffer) : slice (a ++ b) 0 (zlength a) = a.
Proof.
  unfold slice, zlength; simpl; rewrite Nat2Z.id.
  rewrite firstn_app, Nat.sub_diag, firstn_all; simpl; apply app_nil_r.
Qed.

Lemma slice_app_r (a b : buffer) (n : Z) :
  slice (a ++ b) (zlength a) n = slice b 0 n.
Proof.
  unfold slice, zlength; simpl; rewrite Nat2Z.id.
  rewrite skipn_app, Nat.sub_diag, skipn_all; reflexivity.
Qed.

(** Writing [bytes] over the middle part of [a ++ m ++ b]. *)
Lemma store_middle (a m b bytes : buffer) :
  length bytes = length m ->
  store (a ++ m ++ b) (zlength a) bytes = a ++ bytes ++ b.
Proof.
  intros E; unfold store, zlength; rewrite Nat2Z.id.
  rewrite firstn_app, Nat.sub_diag, firstn_all; simpl; rewrite app_nil_r.
  do 2 f_equal.
  rewrite E, skipn_app, skipn_all2 by lia; simpl.
  replace (_ - _)%nat with (length m) by lia.
  rewrite skipn_app, Nat.sub_diag, skipn_all; reflexivity.
Qed.

Lemma memcpy_ok (dst : buffer) (doff : Z) (src : buffer) (soff n : Z) :
  0 <= n -> soff + n <= zlength src -> doff + n <= zlength dst ->
  memcpy dst doff src soff n = Some (store dst doff (slice src soff n)).
Proof.
  intros; unfold memcpy.
  replace (n <? 0) with false by lia.
  replace (zlength src <? soff + n) with false by lia.
  replace (zlength dst <? doff + n) with false by lia.
  reflexivity.
Qed.

Lemma memcpy_negative (dst : buffer) (doff : Z) (src : buffer) (soff n : Z) :
  n < 0 -> memcpy dst doff src soff n = None.
Proof.
  intros; unfold memcpy; replace (n <? 0) with true by lia; reflexivity.
Qed.

Lemma memcpy_overflow (dst : buffer) (doff : Z) (src : buffer) (soff n : Z) :
  zlength dst < doff + n -> memcpy dst doff src soff n = None.
Proof.
  intros; unfold memcpy.
  replace (zlength dst <? doff + n) with true by lia.
  rewrite !orb_true_r; reflexivity.
Qed.

Lemma store_length (b : buffer) (off : Z) (bytes : buffer) :
  0 <= off -> off + zlength bytes <= zlength b ->
  zlength (store b off bytes) = zlength b.
Proof.
  unfold store, zlength; intros.
  rewrite !length_app, length_firstn, length_skipn; lia.
Qed.

(** Writing into the zeroed tail of a buffer. *)
Lemma store_memset0 (a : buffer) (m : Z) (p : buffer) :
  zlength p <= m ->
  store (a ++ memset0 m) (zlength a) p = a ++ p ++ memset0 (m - zlength p).
Proof.
  intros H; pose proof (zlength_nonneg p).
  rewrite (memset0_split (zlength p) m) by lia.
  apply store_middle.
  unfold memset0, zlength; rewrite repeat_length; lia.
Qed.

(** ** XOR over buffers *)

Lemma fold_xor_acc (l : buffer) (acc : Z) :
  fold_left Z.lxor l acc = Z.lxor acc (xor_all l).
Proof.
  unfold xor_all; revert acc; induction l as [|x l IH]; intros acc; simpl.
  - now rewrite Z.lxor_0_r.
  - rewrite IH, (IH x), Z.lxor_assoc; reflexivity.
Qed.

Lemma xor_all_cons (x : Z) (l : buffer) :
  xor_all (x :: l) = Z.lxor x (xor_all l).
Proof. unfold xor_all at 1; simpl; apply fold_xor_acc. Qed.

Lemma xor_all_app (a b : buffer) :
  xor_all (a ++ b) = Z.lxor (xor_all a) (xor_all b).
Proof.
  unfold xor_all at 1; rewrite fold_left_app.
  fold (xor_all a); apply fold_xor_acc.
Qed.

Lemma lxor_cancel_eqb (x t : Z) : (x =? Z.lxor t x) = (t =? 0).
Proof.
  destruct (Z.eqb_spec t 0) as [->|N].
  - rewrite Z.lxor_0_l; apply Z.eqb_refl.
  - apply Z.eqb_neq; intros E; apply N.
    assert (H : t = Z.lxor (Z.lxor t x) x)
      by (rewrite Z.lxor_assoc, Z.lxor_nilpotent, Z.lxor_0_r; reflexivity).
    rewrite <- E, Z.lxor_nilpotent in H; exact H.
Qed.

(** Equations between XORs of the same bytes, bit by bit. *)
Ltac xor_bits :=
  apply Z.bits_inj'; intros ? ?;
  rewrite ?xor_all_cons, ?Z.lxor_spec, ?Z.bits_0;
  repeat match goal with
         | |- context [Z.testbit ?x ?n] => destruct (Z.testbit x n)
         end; reflexivity.


(** ** L2: what goes on the wire *)

Section L2Facts.

Context {K : Constants}.

Lemma memset0_header (n : Z) :
  L2Headersize <= n -> memset0 n = [0; 0; 0; 0; 0; 0] ++ memset0 (n - 6).
Proof.
  unfold L2Headersize; intros.
  rewrite (memset0_split 6 n) by lia; reflexivity.
Qed.

(** The frame [l2sap_sendto] builds in its array and hands to [sendto]. *)
Lemma l2sap_sendto_frame (c : L2SAP) (d : buffer) (len : Z) (os : OS) :
  0 <= len <= L2Payloadsize -> 0 <= socket c -> len <= zlength d ->
  l2sap_sendto (Some c) (Some d) len os =
  let '(sent_udpbytes, os') :=
    sys_sendto (l2_frame (peer_addr c) (slice d 0 len)) os in
  if sent_udpbytes <? 0 then Done (-1, os') else Done (len, os').
Proof.
  intros Hlen Hsock Hd.
  unfold l2sap_sendto, L2Payloadsize in *.
  replace (len <? 0) with false by lia.
  replace (len >? L2Framesize - L2Headersize) with false by lia.
  replace (socket c <? 0) with false by lia.
  replace (len + L2Headersize >? L2Framesize) with false
    by (unfold L2Headersize in *; lia).
  rewrite (memset0_header L2Framesize) by (unfold L2Headersize in *; lia).
  unfold L2Headersize in *.
  unfold L2_dst_addr, L2_len, L2_checksum, L2_mbz.
  unfold store at 1 2 3 4; simpl.
  set (hd := to_uint16 (peer_addr c) / 256).
  set (ld := to_uint16 (peer_addr c) mod 256).
  set (hl := to_uint16 (len + 6) / 256).
  set (ll := to_uint16 (len + 6) mod 256).
  set (p := slice d 0 len).
  assert (Hp : zlength p = len) by (apply slice_length; lia).
  rewrite memcpy_ok; try lia.
  2:{ rewrite !zlength_cons, zlength_memset0; lia. }
  fold p; simpl lift_mem; cbn [bind].
  assert (E : store
                (hd :: ld :: hl :: ll :: 0 :: 0 :: memset0 (L2Framesize - 6))
                6 p
              = [hd; ld; hl; ll; 0; 0] ++ p ++ memset0 (L2Framesize - 6 - len)).
  { rewrite (memset0_split len (L2Framesize - 6)) by lia.
    apply (store_middle [hd; ld; hl; ll; 0; 0]).
    unfold memset0; rewrite repeat_length; unfold zlength in Hp; lia. }
  rewrite E; clear E.
  assert (C : compute_checksum
                ([hd; ld; hl; ll; 0; 0] ++ p ++ memset0 (L2Framesize - 6 - len))
                (len + 6)
              = xor_all ([hd; ld; hl; ll; 0; 0] ++ p)).
  { unfold compute_checksum, xor_all; f_equal.
    rewrite app_assoc.
    replace (Z.to_nat (len + 6))
      with (Nat.add (length ([hd; ld; hl; ll; 0; 0] ++ p)) O).
    - rewrite firstn_app_2; simpl firstn; apply app_nil_r.
    - rewrite length_app; unfold zlength in Hp; simpl; lia. }
  rewrite C; clear C.
  set (cs := xor_all ([hd; ld; hl; ll; 0; 0] ++ p)).
  assert (F : slice (store ([hd; ld; hl; ll; 0; 0] ++ p
                            ++ memset0 (L2Framesize - 6 - len)) 4 [cs])
                0 (len + 6)
              = l2_frame (peer_addr c) p).
  { unfold store; simpl.
    change (hd :: ld :: hl :: ll :: cs :: 0 :: p
            ++ memset0 (L2Framesize - 6 - len))
      with (([hd; ld; hl; ll; cs; 0] ++ p) ++ memset0 (L2Framesize - 6 - len)).
    replace (len + 6) with (zlength ([hd; ld; hl; ll; cs; 0] ++ p)).
    - rewrite slice_app_l.
      unfold l2_frame, l2_header, htons_bytes, L2Headersize.
      rewrite Hp; reflexivity.
    - rewrite zlength_app, Hp.
      change (zlength [hd; ld; hl; ll; cs; 0]) with 6; lia. }
  rewrite F; reflexivity.
Qed.

Lemma l2_frame_length (dst : Z) (p : buffer) :
  zlength (l2_frame dst p) = zlength p + L2Headersize.
Proof.
  unfold l2_frame, l2_header, htons_bytes; rewrite zlength_app.
  unfold L2Headersize, zlength; simpl length; lia.
Qed.

(** *** Receiving a datagram *)

Lemma checksum_verifies_xor (f : buffer) :
  L2Headersize <= zlength f -> checksum_verifies f = (xor_all f =? 0).
Proof.
  unfold L2Headersize; intros H.
  destruct f as [|a [|b [|c [|d [|e rest]]]]];
    try (unfold zlength in H; simpl in H; lia).
  unfold checksum_verifies, L2_checksum, load8, store, compute_checksum.
  set (n := Z.to_nat (zlength (a :: b :: c :: d :: e :: rest))).
  simpl nth; simpl skipn; simpl app.
  replace n with (length (a :: b :: c :: d :: 0 :: rest))
    by (unfold n, zlength; simpl; lia).
  rewrite firstn_all. fold (xor_all (a :: b :: c :: d :: 0 :: rest)).
  rewrite <- (lxor_cancel_eqb e). f_equal.
  rewrite !xor_all_cons. xor_bits.
Qed.

Lemma store_fresh_frame (dg : buffer) :
  zlength dg <= L2Framesize ->
  store (memset0 L2Framesize) 0 (firstn (Z.to_nat L2Framesize) dg)
  = dg ++ memset0 (L2Framesize - zlength dg).
Proof.
  intros H.
  rewrite firstn_all2 by (unfold zlength in H; lia).
  rewrite (memset0_split (zlength dg) L2Framesize)
    by (pose proof (zlength_nonneg dg); lia).
  apply (store_middle [] (memset0 (zlength dg))).
  unfold memset0, zlength; rewrite repeat_length; lia.
Qed.

Lemma FD_SET_ok (fd : Z) (set : list Z) :
  0 <= fd < FD_SETSIZE -> FD_SET fd set = Done (fd :: set).
Proof.
  intros H; unfold FD_SET.
  replace ((0 <=? fd) && (fd <? FD_SETSIZE)) with true; [reflexivity|].
  symmetry; apply andb_true_iff; lia.
Qed.

Lemma FD_SET_fault (fd : Z) (set : list Z) :
  fd < 0 \/ FD_SETSIZE <= fd -> FD_SET fd set = Fault.
Proof.
  intros H; unfold FD_SET.
  replace ((0 <=? fd) && (fd <? FD_SETSIZE)) with false; [reflexivity|].
  symmetry; apply andb_false_iff; lia.
Qed.

Lemma l2sap_recvfrom_timeout_datagram (c : L2SAP) (d : buffer) (len : Z)
    (timeout : option timeval) (os : OS) (dg : buffer) (rest : list os_event) :
  0 < len -> inbox os = Datagram dg :: rest ->
  L2Headersize <= zlength dg <= L2Framesize ->
  0 <= socket c < FD_SETSIZE ->
  l2sap_recvfrom_timeout (Some c) (Some d) len timeout os =
  if negb (checksum_verifies dg) then Done (-1, d, next os)
  else
    let payload_len := to_uint16 (ntohs_at dg L2_len - L2Headersize) in
    if payload_len >? len then Done (-1, d, next os)
    else
      d' <- lift_mem
              (memcpy d 0 (dg ++ memset0 (L2Framesize - zlength dg))
                 L2Headersize payload_len) ;;
      Done (payload_len, d', next os).
Proof.
  intros Hlen Hin Hdg Hfd.
  unfold l2sap_recvfrom_timeout.
  replace (len <=? 0) with false by lia.
  rewrite FD_SET_ok by exact Hfd; cbn [bind].
  unfold sys_select, sys_recvfrom; rewrite Hin; cbn [bind].
  cbn [Z.ltb Z.compare Z.eqb]; rewrite Hin.
  rewrite store_fresh_frame by lia.
  replace (Z.min (zlength dg) L2Framesize) with (zlength dg) by lia.
  replace (zlength dg <? 0) with false by (unfold L2Headersize in *; lia).
  replace (zlength dg <? L2Headersize) with false by lia.
  fold (next os).
  replace (mkOS rest (sendto_fails os) (outbox os)) with (next os)
    by (unfold next; rewrite Hin; reflexivity).
  set (z := memset0 (L2Framesize - zlength dg)).
  destruct dg as [|b0 [|b1 [|b2 [|b3 [|b4 [|b5 q]]]]]];
    try (exfalso; unfold zlength, L2Headersize in Hdg; simpl in Hdg; lia).
  unfold checksum_verifies.
  set (dg := b0 :: b1 :: b2 :: b3 :: b4 :: b5 :: q) in *.
  set (dg0 := b0 :: b1 :: b2 :: b3 :: 0 :: b5 :: q).
  change (store (dg ++ z) L2_checksum [0]) with (dg0 ++ z).
  change (store dg L2_checksum [0]) with dg0.
  change (load8 (dg ++ z) L2_checksum) with b4.
  change (load8 dg L2_checksum) with b4.
  change (ntohs_at (dg0 ++ z) L2_len) with (ntohs_at dg L2_len).
  assert (C : compute_checksum (dg0 ++ z) (zlength dg)
              = compute_checksum dg0 (zlength dg)).
  { unfold compute_checksum.
    replace (Z.to_nat (zlength dg)) with (length dg0)
      by (unfold zlength; rewrite Nat2Z.id; reflexivity).
    rewrite firstn_app, Nat.sub_diag, firstn_all, app_nil_r; reflexivity. }
  rewrite C.
  destruct (negb (b4 =? compute_checksum dg0 (zlength dg))); [reflexivity|].
  cbv zeta.
  generalize (to_uint16 (ntohs_at dg L2_len - L2Headersize)); intros pl.
  reflexivity.
Qed.

Lemma xor_all_l2_frame (dst : Z) (p : buffer) : xor_all (l2_frame dst p) = 0.
Proof.
  unfold l2_frame, l2_header, htons_bytes; cbv zeta; simpl app.
  set (len := zlength p + L2Headersize).
  rewrite !xor_all_cons.
  generalize (xor_all p); intros t.
  xor_bits.
Qed.

Lemma l2_frame_verifies (dst : Z) (p : buffer) :
  checksum_verifies (l2_frame dst p) = true.
Proof.
  rewrite checksum_verifies_xor.
  - rewrite xor_all_l2_frame; reflexivity.
  - rewrite l2_frame_length; pose proof (zlength_nonneg p); lia.
Qed.

Lemma ntohs_l2_frame (dst : Z) (p : buffer) :
  ntohs_at (l2_frame dst p) L2_len = to_uint16 (zlength p + L2Headersize).
Proof.
  change (ntohs_at (l2_frame dst p) L2_len)
    with (to_uint16 (zlength p + L2Headersize) / 256 * 256
          + to_uint16 (zlength p + L2Headersize) mod 256).
  generalize (to_uint16 (zlength p + L2Headersize)); intros v.
  pose proof (Z.div_mod v 256); lia.
Qed.

Lemma l2sap_recvfrom_timeout_frame (c : L2SAP) (d : buffer) (len : Z)
    (timeout : option timeval) (os : OS) (dst : Z) (p : buffer)
    (rest : list os_event) :
  L2Framesize < 65536 ->
  0 < len -> zlength p <= len -> zlength p <= zlength d ->
  zlength p <= L2Payloadsize ->
  inbox os = Datagram (l2_frame dst p) :: rest ->
  0 <= socket c < FD_SETSIZE ->
  l2sap_recvfrom_timeout (Some c) (Some d) len timeout os
  = Done (zlength p, store d 0 p, next os).
Proof.
  intros HF Hlen Hp Hd HP Hin Hfd.
  pose proof (zlength_nonneg p) as Hp0.
  unfold L2Payloadsize in HP.
  rewrite (l2sap_recvfrom_timeout_datagram c d len timeout os _ rest Hlen Hin)
    by (rewrite ?l2_frame_length; unfold L2Headersize in *; lia).
  rewrite l2_frame_verifies; cbn [negb]; cbv zeta.
  rewrite ntohs_l2_frame.
  assert (E : to_uint16 (to_uint16 (zlength p + L2Headersize) - L2Headersize)
              = zlength p).
  { unfold to_uint16, L2Headersize in *.
    rewrite (Z.mod_small (zlength p + 6)) by lia.
    rewrite Z.mod_small by lia. lia. }
  rewrite E.
  replace (zlength p >? len) with false by lia.
  rewrite memcpy_ok; try lia.
  2:{ rewrite zlength_app, l2_frame_length, zlength_memset0;
      rewrite ?l2_frame_length; unfold L2Headersize in *; lia. }
  cbn [lift_mem bind].
  do 3 f_equal.
  unfold l2_frame; cbv zeta. rewrite <- app_assoc.
  set (h := l2_header _ _ _).
  change L2Headersize with (zlength h).
  rewrite slice_app_r, slice_app_l; reflexivity.
Qed.

End L2Facts.

(** ** L2: round trip and checksum *)

Section L2Claims.

Context {K : Constants}.

Lemma sent_accepted (bytes : buffer) (os : OS) :
  hd false (sendto_fails os) = false ->
  sys_sendto bytes os = (zlength bytes, sent bytes os) /\
  outbox (sent bytes os) = outbox os ++ [bytes] /\
  inbox (sent bytes os) = inbox os /\
  sendto_fails (sent bytes os) = tl (sendto_fails os).
Proof.
  unfold sent, sys_sendto; destruct (sendto_fails os) as [|[|] fl];
    simpl; intros H; try discriminate; repeat split.
Qed.

Lemma sent_inbox (bytes : buffer) (os : OS) :
  inbox (sent bytes os) = inbox os.
Proof.
  unfold sent, sys_sendto; destruct (sendto_fails os) as [|[|] fl];
    reflexivity.
Qed.

(** [l2sap_sendto] with valid arguments, when [sendto] accepts the
    datagram. *)
Lemma l2sap_sendto_accepted (c : L2SAP) (d : buffer) (len : Z) (os : OS) :
  0 <= len <= L2Payloadsize -> 0 <= socket c -> len <= zlength d ->
  hd false (sendto_fails os) = false ->
  l2sap_sendto (Some c) (Some d) len os
  = Done (len, sent (l2_frame (peer_addr c) (slice d 0 len)) os).
Proof.
  intros Hlen Hsock Hd Hok.
  rewrite l2sap_sendto_frame by assumption.
  destruct (sent_accepted (l2_frame (peer_addr c) (slice d 0 len)) os Hok)
    as [E _]; rewrite E.
  replace (_ <? 0) with false; [reflexivity|].
  pose proof (zlength_nonneg (l2_frame (peer_addr c) (slice d 0 len))); lia.
Qed.

(** C7, as the code has it.  A payload of [len] bytes,
    [0 <= len <= L2Payloadsize], framed and transmitted by [l2sap_sendto]
    and delivered unmodified to [l2sap_recvfrom_timeout], passes the
    checksum test, and the call returns [len] and leaves the payload at the
    start of the caller's buffer, provided the length [buflen] given for
    that buffer is positive and at least [len]. *)
Theorem l2_round_trip (c c' : L2SAP) (data buf : buffer) (len buflen : Z)
    (timeout : option timeval) (os os' : OS) (rest : list os_event) :
  L2Framesize < 65536 ->
  0 <= len <= L2Payloadsize -> len <= zlength data ->
  0 <= socket c -> hd false (sendto_fails os) = false ->
  0 <= socket c' < FD_SETSIZE ->
  0 < buflen -> len <= buflen -> len <= zlength buf ->
  let frame := l2_frame (peer_addr c) (slice data 0 len) in
  inbox os' = Datagram frame :: rest ->
  l2sap_sendto (Some c) (Some data) len os = Done (len, sent frame os) /\
  outbox (sent frame os) = outbox os ++ [frame] /\
  checksum_verifies frame = true /\
  l2sap_recvfrom_timeout (Some c') (Some buf) buflen timeout os'
  = Done (len, slice data 0 len ++ skipn (Z.to_nat len) buf, next os').
Proof.
  intros HF Hlen Hd Hsock Hok Hfd Hb Hlb Hcap frame Hin.
  assert (Hp : zlength (slice data 0 len) = len)
    by (apply slice_length; lia).
  repeat split.
  - apply l2sap_sendto_accepted; assumption.
  - apply sent_accepted; assumption.
  - apply l2_frame_verifies.
  - rewrite (l2sap_recvfrom_timeout_frame c' buf buflen timeout os'
               (peer_addr c) (slice data 0 len) rest); rewrite ?Hp;
      try assumption; try lia.
    unfold store; simpl.
    replace (length (slice data 0 len)) with (Z.to_nat len)
      by (unfold zlength in Hp; lia).
    reflexivity.
Qed.

(** *** One inverted bit *)

Lemma flip_bit_length (f : buffer) (i : nat) (k : Z) :
  zlength (flip_bit f i k) = zlength f.
Proof.
  unfold flip_bit, zlength.
  rewrite <- (firstn_skipn i f) at 3.
  rewrite !length_app; destruct (skipn i f); reflexivity.
Qed.

Lemma xor_all_flip_bit (f : buffer) (i : nat) (k : Z) :
  (i < length f)%nat ->
  xor_all (flip_bit f i k) = Z.lxor (xor_all f) (Z.shiftl 1 k).
Proof.
  intros Hi; unfold flip_bit.
  rewrite <- (firstn_skipn i f) at 3.
  destruct (skipn i f) as [|b rest] eqn:E.
  - apply (f_equal (@length Z)) in E; rewrite length_skipn in E;
      simpl in E; lia.
  - rewrite !xor_all_app, !xor_all_cons.
    generalize (xor_all (firstn i f)) (xor_all rest) (Z.shiftl 1 k).
    intros x y m; xor_bits.
Qed.

Lemma shiftl_1_nonzero (k : Z) : 0 <= k -> Z.shiftl 1 k <> 0.
Proof.
  intros Hk; rewrite Z.shiftl_1_l.
  pose proof (Z.pow_pos_nonneg 2 k); lia.
Qed.

(** C8.  In a well-formed L2 frame, invert any one bit of any byte, header
    or payload: the checksum that [l2sap_recvfrom_timeout] recomputes
    differs from the checksum field it received, and the call discards the
    frame, returning [-1] and leaving the caller's buffer untouched. *)
Theorem checksum_detects_single_bit_flip (c : L2SAP) (buf : buffer)
    (buflen : Z) (timeout : option timeval) (os : OS) (frame : buffer)
    (i : nat) (k : Z) (rest : list os_event) :
  l2_wellformed frame ->
  (i < length frame)%nat -> 0 <= k < 8 ->
  0 <= socket c < FD_SETSIZE -> 0 < buflen ->
  inbox os = Datagram (flip_bit frame i k) :: rest ->
  checksum_verifies (flip_bit frame i k) = false /\
  l2sap_recvfrom_timeout (Some c) (Some buf) buflen timeout os
  = Done (-1, buf, next os).
Proof.
  intros [Hlen Hck] Hi Hk Hfd Hb Hin.
  assert (Hbad : checksum_verifies (flip_bit frame i k) = false).
  { rewrite checksum_verifies_xor by (rewrite flip_bit_length; lia).
    rewrite checksum_verifies_xor in Hck by lia.
    apply Z.eqb_eq in Hck.
    rewrite xor_all_flip_bit, Hck, Z.lxor_0_l by assumption.
    apply Z.eqb_neq, shiftl_1_nonzero; lia. }
  split; [exact Hbad|].
  rewrite (l2sap_recvfrom_timeout_datagram c buf buflen timeout os _ rest
             Hb Hin) by (rewrite ?flip_bit_length; lia).
  rewrite Hbad; reflexivity.
Qed.

(** The frames [l2sap_sendto] transmits are well-formed. *)
Lemma l2_frame_wellformed (dst : Z) (p : buffer) :
  zlength p <= L2Payloadsize -> l2_wellformed (l2_frame dst p).
Proof.
  intros H; split; [|apply l2_frame_verifies].
  rewrite l2_frame_length; pose proof (zlength_nonneg p).
  unfold L2Payloadsize in H; lia.
Qed.

End L2Claims.

(** ** L4: the alternating bits *)

(** Case analysis on the next test or call of a run with a known
    outcome. *)
Ltac step_run H :=
  match type of H with
  | bind ?m _ = _ =>
      let E := fresh "E" in
      destruct m as [?| | |] eqn:E; cbn [bind] in H; try discriminate H
  | (let '(_, _) := ?p in _) = _ =>
      destruct p; cbn beta iota in H
  | (match ?p with (_, _) => _ end) = _ =>
      destruct p; cbn beta iota in H
  | (if ?c then _ else _) = _ =>
      let E := fresh "E" in destruct c eqn:E
  end.

Section L4Seqno.

Context {K : Constants}.

Lemma l4sap_send_loop_seqno (n : nat) :
  forall s packet len rb os r s' os',
  l4sap_send_loop n s packet len rb os = Done (r, s', os') ->
  expected_seqno s' = expected_seqno s /\ l2 s' = l2 s /\
  ((r = len /\ send_seqno s' = 1 - send_seqno s) \/
   ((r = L4_SEND_FAILED \/ r = L4_QUIT) /\ send_seqno s' = send_seqno s)).
Proof.
  induction n as [|n IH]; intros s packet len rb os r s' os' H.
  - inversion H; subst; auto 6.
  - cbn [l4sap_send_loop] in H.
    repeat step_run H;
      try (apply IH in H; exact H);
      try solve [inversion H; subst; clear H;
                 cbn [set_send_seqno send_seqno expected_seqno l2]; auto 6].
    assert (Ea : expected_seqno a = expected_seqno s /\ l2 a = l2 s
                 /\ send_seqno a = send_seqno s).
    { repeat step_run E9; inversion E9; subst; auto. }
    destruct Ea as (Ee & El & Es).
    apply IH in H; rewrite Ee, El, Es in H; exact H.
Qed.

Lemma toggle_bit (x : Z) : bit x -> bit (1 - x).
Proof. unfold bit; lia. Qed.


Lemma memcpy_some_nonneg dst doff src soff n b :
  memcpy dst doff src soff n = Some b -> 0 <= n.
Proof.
  unfold memcpy; destruct (n <? 0) eqn:E; [discriminate|lia].
Qed.

Lemma lift_mem_done {A} (m : option A) (a : A) :
  lift_mem m = Done a -> m = Some a.
Proof. destruct m; simpl; congruence. Qed.

Lemma l4sap_recv_loop_seqno (fuel : nat) :
  forall s data packet os r s' data' os',
  l4sap_recv_loop fuel s data packet os = Done (r, s', data', os') ->
  (r = L4_QUIT /\ s' = s /\ data' = data) \/
  (0 <= r /\ s' = set_expected_seqno s (1 - expected_seqno s)).
Proof.
  induction fuel as [|fuel IH]; intros s data packet os r s' data' os' H.
  - discriminate H.
  - cbn [l4sap_recv_loop] in H.
    repeat step_run H;
      try (apply IH in H; exact H);
      try solve [inversion H; subst; clear H; auto].
    inversion H; subst; clear H; right; split; [|reflexivity].
    match goal with
    | E : lift_mem (memcpy _ _ _ _ _) = Done _ |- _ =>
        apply lift_mem_done, memcpy_some_nonneg in E; exact E
    end.
Qed.

(** C1.  Both sequence numbers stay in {0,1}.  A call of [l4sap_send] that
    returns leaves [expected_seqno] alone and returns either a byte count
    ([0 <= r]), having replaced [send_seqno] by [1 - send_seqno] (one
    toggle), or [L4_SEND_FAILED] or [L4_QUIT], having left [send_seqno] as
    it was.  A call of [l4sap_recv] that returns leaves [send_seqno] alone
    and returns either a payload length, having toggled [expected_seqno]
    once, or [L4_QUIT] or [-1], having left it as it was. *)
Theorem seqno_discipline :
  L4_QUIT < 0 -> L4_SEND_FAILED < 0 -> 0 <= L4Payloadsize ->
  (forall s data len os r l4' os',
     l4sap_send (Some s) data len os = Done (r, l4', os') ->
     exists s', l4' = Some s' /\
       (seqnos_in_range s -> seqnos_in_range s') /\
       expected_seqno s' = expected_seqno s /\
       (0 <= r \/ r = L4_SEND_FAILED \/ r = L4_QUIT) /\
       (0 <= r -> send_seqno s' = 1 - send_seqno s) /\
       (r = L4_SEND_FAILED \/ r = L4_QUIT -> send_seqno s' = send_seqno s)) /\
  (forall s data len os r l4' data' os',
     l4sap_recv (Some s) data len os = Done (r, l4', data', os') ->
     exists s', l4' = Some s' /\
       (seqnos_in_range s -> seqnos_in_range s') /\
       send_seqno s' = send_seqno s /\
       (0 <= r \/ r = L4_QUIT \/ r = -1) /\
       (0 <= r -> expected_seqno s' = 1 - expected_seqno s) /\
       (r = L4_QUIT \/ r = -1 -> expected_seqno s' = expected_seqno s)).
Proof.
  intros HQ HF HP; split.
  - intros s data len os r l4' os' H.
    unfold l4sap_send in H.
    destruct (l2 s) as [c|] eqn:El2; [destruct data as [d|]|].
    2,3: inversion H; subst; exists s; unfold seqnos_in_range;
         repeat split; auto; try lia; tauto.
    destruct (len <=? 0) eqn:Elen.
    { inversion H; subst; exists s; unfold seqnos_in_range;
        repeat split; auto; try lia; tauto. }
    repeat step_run H.
    inversion H; subst; clear H.
    eexists; split; [reflexivity|].
    match goal with
    | E : l4sap_send_loop _ _ _ _ _ _ = Done _ |- _ =>
        apply l4sap_send_loop_seqno in E;
        destruct E as (Ee & _ & [[Er Es] | [Er Es]])
    end; unfold seqnos_in_range; rewrite Ee, Es.
    + assert (0 <= r) by (subst r; destruct (len >? L4Payloadsize); lia).
      repeat split; auto; try lia; try tauto.
      apply toggle_bit; tauto.
    + repeat split; auto; try lia; tauto.
  - intros s data len os r l4' data' os' H.
    unfold l4sap_recv in H.
    destruct (l2 s) as [c|] eqn:El2; [destruct data as [d|]|].
    2:{ inversion H; subst; exists s; unfold seqnos_in_range;
        repeat split; auto; try lia; tauto. }
    2:{ destruct data; inversion H; subst; exists s; unfold seqnos_in_range;
        repeat split; auto; try lia; tauto. }
    destruct (len <=? 0) eqn:Elen.
    { inversion H; subst; exists s; unfold seqnos_in_range;
        repeat split; auto; try lia; tauto. }
    step_run H.
    repeat step_run H. inversion H; subst; clear H.
    eexists; split; [reflexivity|].
    repeat step_run E.
    + inversion E; subst; clear E.
      match goal with
      | E : lift_mem (memcpy _ _ _ _ _) = Done _ |- _ =>
          apply lift_mem_done, memcpy_some_nonneg in E
      end.
      unfold seqnos_in_range;
        cbn [set_pending_data set_expected_seqno send_seqno expected_seqno].
      repeat split; auto; try lia; try tauto.
      apply toggle_bit; tauto.
    + apply l4sap_recv_loop_seqno in E.
      cbn [set_pending_data send_seqno expected_seqno] in E.
      destruct E as [(-> & -> & _) | (Hr & ->)]; unfold seqnos_in_range;
        cbn [set_pending_data set_expected_seqno send_seqno expected_seqno].
      * repeat split; auto; try lia; tauto.
      * repeat split; auto; try lia; try tauto.
        apply toggle_bit; tauto.
    + apply l4sap_recv_loop_seqno in E.
      destruct E as [(-> & -> & _) | (Hr & ->)]; unfold seqnos_in_range;
        cbn [set_pending_data set_expected_seqno send_seqno expected_seqno].
      * repeat split; auto; try lia; tauto.
      * repeat split; auto; try lia; try tauto.
        apply toggle_bit; tauto.
Qed.
End L4Seqno.

(** ** L4: one attempt of [l4sap_send] *)

Section L4Send.
Context {K : Constants}.
Hypothesis Hsize : framesize_ok.

Lemma sizes :
  0 <= L4Payloadsize /\ L4Framesize = L4Payloadsize + 4 /\
  L2Payloadsize = L4Framesize /\ L2Framesize = L4Framesize + 6 /\
  L2Framesize < 65536.
Proof.
  unfold framesize_ok, L4Payloadsize, L4Framesize, L2Payloadsize,
    L2Headersize, L4Headersize in *. lia.
Qed.

Lemma next_nil (os : OS) : inbox os = [] -> next os = os.
Proof. destruct os; unfold next; simpl; intros ->; reflexivity. Qed.

Lemma l4_frame_length (h : L4Header) (pl : buffer) :
  zlength (l4_frame h pl) = zlength pl + L4Headersize.
Proof.
  unfold l4_frame, header_bytes, zlength, L4Headersize; simpl length; lia.
Qed.

Lemma header_at_store (rb : buffer) (h : L4Header) (pl : buffer) :
  header_at (store rb 0 (l4_frame h pl)) = h.
Proof. destruct h; reflexivity. Qed.

(** The peer's frame comes out of L2 as it was put in. *)
Lemma recv_incoming (c : L2SAP) (rb : buffer) (len : Z)
    (timeout : option timeval) (os : OS) (dst : Z) (h : L4Header)
    (pl : buffer) (rest : list os_event) :
  0 < len -> zlength pl + L4Headersize <= len ->
  zlength pl + L4Headersize <= zlength rb ->
  zlength pl <= L4Payloadsize ->
  inbox os = incoming dst h pl :: rest ->
  0 <= socket c < FD_SETSIZE ->
  l2sap_recvfrom_timeout (Some c) (Some rb) len timeout os
  = Done (zlength pl + L4Headersize, store rb 0 (l4_frame h pl), next os).
Proof.
  intros Hlen Hl Hrb Hpl Hin Hfd.
  pose proof sizes as (S0 & S1 & S2 & S3 & S4).
  rewrite <- l4_frame_length with (h := h).
  apply l2sap_recvfrom_timeout_frame with (dst := dst) (rest := rest);
    rewrite ?l4_frame_length; unfold L4Headersize in *; try lia.
  exact Hin.
Qed.

Lemma payload_len_of_frame (n : Z) :
  0 <= n < 2 ^ 16 -> payload_len_of (n + L4Headersize) = n.
Proof.
  intros H; unfold payload_len_of, to_int, to_size_t, L4Headersize.
  rewrite (Z.mod_small (n + 4)) by lia.
  replace (n + 4 - 4) with n by lia.
  rewrite (Z.mod_small n) by lia.
  rewrite Z.mod_small by lia. lia.
Qed.

Lemma to_size_t_small (n : Z) : 0 <= n < 2 ^ 16 -> to_size_t n = n.
Proof. intros; unfold to_size_t; apply Z.mod_small; lia. Qed.


(** An ACK handed to L2: on the wire if [sendto] accepts it; the caller
    does not look at the result. *)
Lemma send_ack (c : L2SAP) (seqno : Z) (os : OS) :
  0 <= socket c ->
  exists r,
    l2sap_sendto (Some c) (Some (ack_for seqno)) L4Headersize os
    = Done (r, sent (ack_wire c seqno) os).
Proof.
  intros Hsock. pose proof sizes as (S0 & S1 & S2 & S3 & S4).
  rewrite l2sap_sendto_frame; try assumption.
  2:{ unfold L4Headersize; lia. }
  2:{ unfold L4Headersize; reflexivity. }
  change (slice (ack_for seqno) 0 L4Headersize) with (ack_for seqno).
  fold (ack_wire c seqno). unfold sent.
  destruct (sys_sendto (ack_wire c seqno) os) as [r os'].
  destruct (r <? 0); eexists; reflexivity.
Qed.

Lemma slice_stored_payload (rb : buffer) (h : L4Header) (pl : buffer) :
  slice (store rb 0 (l4_frame h pl)) L4Headersize (zlength pl) = pl.
Proof.
  unfold store, l4_frame.
  change (firstn (Z.to_nat 0) rb) with (@nil Z).
  rewrite app_nil_l, <- app_assoc.
  change L4Headersize with (zlength (header_bytes h)).
  rewrite slice_app_r. apply slice_app_l.
Qed.

Lemma send_loop_incoming (n : nat) (c : L2SAP) (s : L4SAP)
    (packet : buffer) (len : Z) (rb : buffer) (os : OS) (dst : Z)
    (h : L4Header) (pl : buffer) (rest : list os_event) :
  send_ready c s packet len rb os ->
  zlength pl <= L4Payloadsize ->
  inbox os = incoming dst h pl :: rest ->
  l4sap_send_loop (S n) s packet len rb os =
  let os1 := next (sent (wire c packet len) os) in
  let rb1 := store rb 0 (l4_frame h pl) in
  if hdr_type h =? L4_RESET then Done (L4_QUIT, s, os1)
  else if hdr_type h =? L4_ACK then
    if hdr_ackno h =? 1 - send_seqno s
    then Done (len, set_send_seqno s (1 - send_seqno s), os1)
    else l4sap_send_loop n s packet len rb1 os1
  else if hdr_type h =? L4_DATA then
    let os2 := sent (ack_wire c (hdr_seqno h)) os1 in
    if pending_data s =? 0 then
      stash <- lift_mem (memcpy (pending_pl_buffer s) 0 pl 0 (zlength pl)) ;;
      l4sap_send_loop n (set_pending s h (zlength pl) stash) packet len rb1 os2
    else l4sap_send_loop n s packet len rb1 os2
  else l4sap_send_loop n s packet len rb1 os1.
Proof.
  intros (El2 & [Hsock Hfd] & Hlen & Hpk & Hrb & Hok) Hpl Hin.
  pose proof sizes as (S0 & S1 & S2 & S3 & S4).
  pose proof (zlength_nonneg pl) as Hpl0.
  cbn [l4sap_send_loop]; rewrite El2.
  rewrite l2sap_sendto_accepted; try assumption;
    try (unfold L4Headersize in *; lia).
  fold (wire c packet len); cbn [bind].
  replace (len + L4Headersize <? 0) with false
    by (unfold L4Headersize; lia).
  rewrite (recv_incoming c rb L4Framesize _ _ dst h pl rest);
    unfold L4Headersize in *; try lia.
  2:{ rewrite sent_inbox; exact Hin. }
  cbn [bind]. unfold L2_TIMEOUT.
  replace (zlength pl + 4 =? 0) with false by lia.
  replace (zlength pl + 4 <? 0) with false by lia.
  rewrite to_size_t_small by lia.
  replace (zlength pl + 4 <? 4) with false by lia.
  rewrite header_at_store.
  change (zlength pl + 4) with (zlength pl + L4Headersize).
  rewrite payload_len_of_frame by lia.
  replace (zlength pl >? L4Payloadsize) with false by lia.
  cbv zeta.
  destruct (hdr_type h =? L4_RESET); [reflexivity|].
  destruct (hdr_type h =? L4_ACK); [reflexivity|].
  destruct (hdr_type h =? L4_DATA); [|reflexivity].
  destruct (send_ack c (hdr_seqno h)
              (next (sent (wire c packet len) os)) Hsock) as [r Er].
  unfold L4Headersize in Er; rewrite Er; cbn [bind].
  destruct (pending_data s =? 0); [|reflexivity].
  unfold memcpy; rewrite slice_stored_payload, slice_all.
  rewrite store_length by (rewrite ?l4_frame_length; unfold L4Headersize; lia).
  replace (zlength pl <? 0) with false by lia.
  replace (zlength rb <? 4 + zlength pl) with false by lia.
  replace (zlength pl <? 0 + zlength pl) with false by lia.
  cbn [orb].
  destruct (zlength (pending_pl_buffer s) <? 0 + zlength pl); reflexivity.
Qed.

(** A wait that ends in a timeout: the attempt is over. *)
Lemma send_loop_timeout (n : nat) (c : L2SAP) (s : L4SAP)
    (packet : buffer) (len : Z) (rb : buffer) (os : OS) :
  send_ready c s packet len rb os ->
  hd SelectTimeout (inbox os) = SelectTimeout ->
  l4sap_send_loop (S n) s packet len rb os
  = l4sap_send_loop n s packet len rb (next (sent (wire c packet len) os)).
Proof.
  intros (El2 & [Hsock Hfd] & Hlen & Hpk & Hrb & Hok) Hin.
  pose proof sizes as (S0 & S1 & S2 & S3 & S4).
  cbn [l4sap_send_loop]; rewrite El2.
  rewrite l2sap_sendto_accepted; try assumption;
    try (unfold L4Headersize in *; lia).
  fold (wire c packet len); cbn [bind].
  replace (len + L4Headersize <? 0) with false
    by (unfold L4Headersize; lia).
  set (os1 := sent (wire c packet len) os).
  assert (Hin1 : inbox os1 = inbox os) by apply sent_inbox.
  unfold l2sap_recvfrom_timeout, sys_select.
  replace (L4Framesize <=? 0) with false by lia.
  rewrite FD_SET_ok by lia; cbn [bind].
  rewrite Hin1.
  destruct (inbox os) as [|[| | |] rest] eqn:Ein; try discriminate Hin.
  - cbn. rewrite next_nil by (rewrite Hin1; reflexivity). reflexivity.
  - cbn. unfold next. rewrite Hin1. reflexivity.
Qed.
End L4Send.


(** ** L4: a call of [l4sap_send] *)

Section L4SendCall.

Context {K : Constants}.
Hypothesis Hsize : framesize_ok.

(** The packet [l4sap_send] builds: header, the accepted bytes, zeros. *)
Lemma l4sap_send_packet (c : L2SAP) (s : L4SAP) (d : buffer) (len : Z)
    (os : OS) :
  l2 s = Some c -> 0 < len -> Z.min len L4Payloadsize <= zlength d ->
  let len' := Z.min len L4Payloadsize in
  let packet :=
    l4_frame (data_header s) (slice d 0 len')
    ++ memset0 (L4Payloadsize - len') in
  l4sap_send (Some s) (Some d) len os =
  ('(r, s', os') <-
     l4sap_send_loop max_retries s packet len' (memset0 L4Framesize) os ;;
   Done (r, Some s', os')) /\
  wire c packet len'
  = l2_frame (peer_addr c) (l4_frame (data_header s) (slice d 0 len')) /\
  len' + L4Headersize <= zlength packet /\ 0 <= len' <= L4Payloadsize.
Proof.
  intros El2 Hlen Hd len' packet.
  pose proof (sizes Hsize) as (S0 & S1 & S2 & S3 & S4).
  assert (Hl : 0 <= len' <= L4Payloadsize) by (unfold len'; lia).
  assert (Hp : zlength (slice d 0 len') = len')
    by (apply slice_length; fold len' in Hd; lia).
  assert (Hf : zlength (l4_frame (data_header s) (slice d 0 len'))
               = len' + L4Headersize)
    by (rewrite l4_frame_length, Hp; reflexivity).
  repeat split; try lia.
  - unfold l4sap_send; rewrite El2.
    replace (len <=? 0) with false by lia.
    replace (if len >? L4Payloadsize then L4Payloadsize else len) with len'
      by (unfold len'; destruct (Z.gtb_spec len L4Payloadsize); lia).
    fold (data_header s).
    change (store (memset0 L4Framesize) 0 (header_bytes (data_header s)))
      with (store ([] ++ memset0 L4Framesize) (zlength [])
              (header_bytes (data_header s))).
    assert (Hh : zlength (header_bytes (data_header s)) = 4) by reflexivity.
    rewrite store_memset0 by lia.
    rewrite app_nil_l, Hh.
    rewrite memcpy_ok; try lia.
    2:{ rewrite zlength_app, zlength_memset0, Hh; unfold L4Headersize; lia. }
    cbn [lift_mem bind].
    change L4Headersize with (zlength (header_bytes (data_header s))).
    rewrite store_memset0 by lia.
    rewrite Hp, app_assoc.
    replace (L4Framesize - 4 - len') with (L4Payloadsize - len') by lia.
    reflexivity.
  - unfold wire, packet. rewrite <- Hf, slice_app_l. reflexivity.
  - unfold packet. rewrite zlength_app, Hf, zlength_memset0; lia.
Qed.

End L4SendCall.

(** ** L4: a peer that never answers *)

Section L4Silent.

Context {K : Constants}.
Hypothesis Hsize : framesize_ok.

Lemma skipn_tl {A} (n : nat) (l : list A) : skipn n (tl l) = skipn (S n) l.
Proof. destruct l; [destruct n|]; reflexivity. Qed.

Lemma reliable_hd (os : OS) :
  sendto_reliable os -> hd false (sendto_fails os) = false.
Proof.
  unfold sendto_reliable; destruct (sendto_fails os); simpl; [reflexivity|].
  intros H; inversion H; assumption.
Qed.

Lemma silent_hd (os : OS) :
  peer_silent os -> hd SelectTimeout (inbox os) = SelectTimeout.
Proof.
  unfold peer_silent; destruct (inbox os); simpl; [reflexivity|].
  intros H; inversion H; assumption.
Qed.

Lemma Forall_tl {A} (P : A -> Prop) (l : list A) :
  Forall P l -> Forall P (tl l).
Proof. destruct l; simpl; [auto|]. intros H; inversion H; assumption. Qed.

(** After a round: the frame on the wire, one event and one [sendto]
    verdict used up. *)
Lemma round_os (frame : buffer) (os : OS) :
  hd false (sendto_fails os) = false ->
  next (sent frame os)
  = mkOS (tl (inbox os)) (tl (sendto_fails os)) (outbox os ++ [frame]).
Proof.
  intros H; destruct (sent_accepted frame os H) as (_ & Eo & Ei & Ef).
  unfold next; rewrite Eo, Ei, Ef; reflexivity.
Qed.

Lemma send_loop_silent (c : L2SAP) (s : L4SAP) (packet : buffer) (len : Z)
    (rb : buffer) (n : nat) :
  forall os,
  send_ready c s packet len rb os ->
  peer_silent os -> sendto_reliable os ->
  l4sap_send_loop n s packet len rb os
  = Done (L4_SEND_FAILED, s, after_timeouts n (wire c packet len) os).
Proof.
  induction n as [|n IH]; intros os Hr Hs Hf.
  - unfold after_timeouts; destruct os; simpl; rewrite app_nil_r; reflexivity.
  - rewrite (send_loop_timeout Hsize n c) by auto using silent_hd.
    assert (Hhd := reliable_hd os Hf).
    rewrite round_os by assumption.
    rewrite IH.
    + unfold after_timeouts; cbn [inbox sendto_fails outbox].
      rewrite !skipn_tl, <- app_assoc; reflexivity.
    + destruct Hr as (? & ? & ? & ? & ? & ?).
      do 5 (split; [assumption|]).
      apply reliable_hd; unfold sendto_reliable; cbn [sendto_fails].
      apply Forall_tl; exact Hf.
    + unfold peer_silent; cbn [inbox]; apply Forall_tl; exact Hs.
    + unfold sendto_reliable; cbn [sendto_fails]; apply Forall_tl; exact Hf.
Qed.

(** C3.  When every wait of [l4sap_send] ends in a timeout (and [sendto]
    accepts the datagrams), the call puts the DATA frame on the wire five
    times, no more, and returns [L4_SEND_FAILED], the entity unchanged. *)
Theorem silent_peer_five_transmissions (c : L2SAP) (s : L4SAP) (d : buffer)
    (len : Z) (os : OS) :
  l2 s = Some c -> 0 <= socket c < FD_SETSIZE ->
  0 < len -> Z.min len L4Payloadsize <= zlength d ->
  peer_silent os -> sendto_reliable os ->
  let frame :=
    l2_frame (peer_addr c)
      (l4_frame (data_header s) (slice d 0 (Z.min len L4Payloadsize))) in
  l4sap_send (Some s) (Some d) len os
  = Done (L4_SEND_FAILED, Some s, after_timeouts 5 frame os) /\
  outbox (after_timeouts 5 frame os)
  = outbox os ++ [frame; frame; frame; frame; frame].
Proof.
  intros El2 Hfd Hlen Hd Hs Hf frame.
  pose proof (proj1 Hfd) as Hsock.
  destruct (l4sap_send_packet Hsize c s d len os El2 Hlen Hd)
    as (E & Ew & Hpk & Hl).
  split; [|reflexivity].
  rewrite E, (send_loop_silent c); auto.
  - cbn [bind]; rewrite Ew; reflexivity.
  - do 4 (split; [assumption|]); split.
    + apply zlength_memset0. pose proof (sizes Hsize); lia.
    + apply reliable_hd; assumption.
Qed.
End L4Silent.

(** ** L4: [l4sap_send] always returns *)

Section L4Total.

Context {K : Constants}.
Hypothesis Hsize : framesize_ok.

Lemma to_uint16_range (x : Z) : 0 <= to_uint16 x < 2 ^ 16.
Proof. unfold to_uint16; apply Z.mod_pos_bound; lia. Qed.

(** [l2sap_sendto] returns, whatever the socket does; it leaves the inbox
    alone and at most adds to the wire. *)
Lemma l2sap_sendto_returns (c : L2SAP) (d : buffer) (len : Z) (os : OS) :
  len <= zlength d ->
  exists r os' more,
    l2sap_sendto (Some c) (Some d) len os = Done (r, os') /\
    inbox os' = inbox os /\ outbox os' = outbox os ++ more.
Proof.
  intros Hd; unfold l2sap_sendto.
  destruct (len <? 0) eqn:E1;
    [exists (-1), os, []; rewrite app_nil_r; auto|].
  destruct (len >? L2Payloadsize) eqn:E2;
    [exists (-1), os, []; rewrite app_nil_r; auto|].
  destruct (socket c <? 0) eqn:E3;
    [exists (-1), os, []; rewrite app_nil_r; auto|].
  destruct (len + L2Headersize >? L2Framesize) eqn:E4;
    [exists (-1), os, []; rewrite app_nil_r; auto|].
  rewrite (memset0_header L2Framesize) by (unfold L2Headersize in *; lia).
  unfold L2Headersize in *.
  unfold L2_dst_addr, L2_len, L2_checksum, L2_mbz.
  unfold store at 1 2 3 4; simpl.
  rewrite memcpy_ok; try lia.
  2:{ rewrite !zlength_cons, zlength_memset0; lia. }
  cbn [lift_mem bind].
  match goal with
  | |- context [sys_sendto ?x os] =>
      generalize x; intros f; unfold sys_sendto
  end.
  destruct (sendto_fails os) as [|[|] fl]; cbn.
  - replace (zlength f <? 0) with false
      by (pose proof (zlength_nonneg f); lia).
    eexists _, _, [f]; repeat split.
  - eexists _, _, []; rewrite app_nil_r; repeat split.
  - replace (zlength f <? 0) with false
      by (pose proof (zlength_nonneg f); lia).
    eexists _, _, [f]; repeat split.
Qed.


(** A wait with a timeout returns; the count is [-1] or within the
    caller's length, and the caller's array keeps its size. *)
Lemma l2sap_recvfrom_timeout_returns (c : L2SAP) (rb : buffer) (len : Z)
    (t : Z * Z) (os : OS) :
  0 < len -> len <= zlength rb -> len + L2Headersize <= L2Framesize ->
  0 <= socket c < FD_SETSIZE ->
  exists r rb' os',
    l2sap_recvfrom_timeout (Some c) (Some rb) len (Some t) os
    = Done (r, rb', os') /\
    zlength rb' = zlength rb /\ -1 <= r <= len /\
    outbox os' = outbox os.
Proof.
  intros Hlen Hrb HF Hfd.
  unfold l2sap_recvfrom_timeout.
  replace (len <=? 0) with false by lia.
  rewrite FD_SET_ok by exact Hfd; cbn [bind].
  unfold sys_select.
  destruct (inbox os) as [|[| | |dg] rest] eqn:Ein; cbn [bind].
  1-3: cbn; eexists _, _, _; repeat split; unfold L2_TIMEOUT; lia.
  - unfold sys_recvfrom; rewrite Ein. cbn.
    eexists _, _, _; repeat split; lia.
  - unfold sys_recvfrom; rewrite Ein.
    cbn [Z.ltb Z.eqb Z.compare].
    set (frame := store (memset0 L2Framesize) 0
                    (firstn (Z.to_nat L2Framesize) dg)).
    set (os1 := mkOS rest (sendto_fails os) (outbox os)).
    assert (Hfr : zlength frame = L2Framesize).
    { unfold frame; rewrite store_length; unfold L2Headersize in *.
      - apply zlength_memset0; lia.
      - lia.
      - rewrite zlength_memset0 by lia.
        unfold zlength; rewrite length_firstn; lia. }
    destruct (Z.min (zlength dg) L2Framesize <? 0);
      [eexists _, _, _; repeat split; lia|].
    destruct (Z.min (zlength dg) L2Framesize <? L2Headersize);
      [eexists _, _, _; repeat split; lia|].
    destruct (negb _);
      [eexists _, _, _; repeat split; lia|].
    set (pl := to_uint16 _).
    pose proof (to_uint16_range (ntohs_at (store frame L2_checksum [0]) L2_len
                                 - L2Headersize)) as Hpl; fold pl in Hpl.
    destruct (Z.gtb_spec pl len);
      [eexists _, _, _; repeat split; lia|].
    assert (Hfr0 : zlength (store frame L2_checksum [0]) = L2Framesize).
    { rewrite store_length; unfold L2_checksum, L2Headersize in *;
        try lia. unfold zlength at 1; simpl; lia. }
    rewrite memcpy_ok; try lia.
    cbn [lift_mem bind].
    eexists _, _, _; repeat split; try lia.
    apply store_length; try lia.
    rewrite slice_length; unfold L2Headersize in *; lia.
Qed.

(** The loop of [l4sap_send] returns; what it puts on the wire starts with
    the DATA frame when [sendto] accepts it. *)
Lemma l4sap_send_loop_returns (c : L2SAP) (packet : buffer) (len : Z)
    (n : nat) :
  forall s rb os,
  l2 s = Some c ->
  len + L4Headersize <= zlength packet ->
  zlength rb = L4Framesize ->
  L4Payloadsize <= zlength (pending_pl_buffer s) ->
  0 <= socket c < FD_SETSIZE ->
  exists r s' os' more,
    l4sap_send_loop n s packet len rb os = Done (r, s', os') /\
    outbox os' = outbox os ++ more /\
    (n <> O -> send_ready c s packet len rb os ->
     exists more', more = wire c packet len :: more').
Proof.
  pose proof (sizes Hsize) as (S0 & S1 & S2 & S3 & S4).
  induction n as [|n IH]; intros s rb os El2 Hpk Hrb Hpend Hfd.
  - exists L4_SEND_FAILED, s, os, []; rewrite app_nil_r.
    repeat split; congruence.
  - cbn [l4sap_send_loop]; rewrite El2.
    destruct (l2sap_sendto_returns c packet (len + L4Headersize) os Hpk)
      as (r1 & os1 & m1 & E1 & _ & O1).
    assert (First : forall x, S n <> O ->
               send_ready c s packet len rb os ->
               exists more', m1 ++ x = wire c packet len :: more').
    { intros x _ (_ & [Hsock _] & Hlen & _ & _ & Hok).
      rewrite l2sap_sendto_accepted in E1; try assumption;
        try (unfold L4Headersize in *; lia).
      inversion E1; subst r1 os1; clear E1.
      destruct (sent_accepted (wire c packet len) os Hok) as (_ & Eo & _).
      unfold wire in Eo; rewrite Eo in O1.
      apply app_inv_head in O1; subst m1.
      eexists; reflexivity. }
    rewrite E1; cbn [bind].
    destruct (r1 <? 0).
    { exists L4_SEND_FAILED, s, os1, m1; repeat split; [exact O1|].
      rewrite <- (app_nil_r m1); apply First. }
    destruct (l2sap_recvfrom_timeout_returns c rb L4Framesize (1, 0) os1)
      as (r2 & rb2 & os2 & E2 & Hrb2 & Hr2 & O2);
      try (unfold L2Headersize; lia).
    rewrite E2; cbn [bind].
    assert (Next : forall s2 os3 m3,
               l2 s2 = Some c ->
               L4Payloadsize <= zlength (pending_pl_buffer s2) ->
               outbox os3 = outbox os2 ++ m3 ->
               exists r s' os' more,
                 l4sap_send_loop n s2 packet len rb2 os3 = Done (r, s', os') /\
                 outbox os' = outbox os ++ more /\
                 (S n <> O -> send_ready c s packet len rb os ->
                  exists more', more = wire c packet len :: more')).
    { intros s2 os3 m3 El Hp O3.
      destruct (IH s2 rb2 os3 El Hpk (eq_trans Hrb2 Hrb) Hp Hfd)
        as (r & s' & os' & m & E & O & _).
      exists r, s', os', (m1 ++ m3 ++ m); repeat split; [exact E| |apply First].
      rewrite O, O3, O2, O1, <- !app_assoc; reflexivity. }
    assert (Same : exists r s' os' more,
               l4sap_send_loop n s packet len rb2 os2 = Done (r, s', os') /\
               outbox os' = outbox os ++ more /\
               (S n <> O -> send_ready c s packet len rb os ->
                exists more', more = wire c packet len :: more')).
    { apply (Next s os2 []); auto; symmetry; apply app_nil_r. }
    destruct (r2 =? L2_TIMEOUT) eqn:T1; [exact Same|].
    destruct (r2 <? 0) eqn:T2; [exact Same|].
    destruct (to_size_t r2 <? L4Headersize) eqn:T3; [exact Same|].
    destruct (hdr_type (header_at rb2) =? L4_RESET).
    { exists L4_QUIT, s, os2, m1; repeat split.
      - rewrite O2, O1; reflexivity.
      - rewrite <- (app_nil_r m1); apply First. }
    destruct (hdr_type (header_at rb2) =? L4_ACK).
    { destruct (hdr_ackno (header_at rb2) =? 1 - send_seqno s);
        [|exact Same].
      eexists _, _, os2, m1; repeat split.
      - rewrite O2, O1; reflexivity.
      - rewrite <- (app_nil_r m1); apply First. }
    destruct (hdr_type (header_at rb2) =? L4_DATA); [|exact Same].
    destruct (l2sap_sendto_returns c (ack_for (hdr_seqno (header_at rb2)))
                L4Headersize os2) as (r3 & os3 & m3 & E3 & _ & O3);
      [reflexivity|].
    rewrite E3; cbn [bind].
    destruct (pending_data s =? 0); cbn [bind];
      [|apply (Next s os3 m3); auto].
    unfold L2_TIMEOUT, L4Headersize in T1, T2, T3.
    rewrite to_size_t_small in T3 by lia.
    replace r2 with ((r2 - 4) + L4Headersize) by (unfold L4Headersize; lia).
    rewrite payload_len_of_frame by lia.
    replace (r2 - 4 >? L4Payloadsize) with false by lia.
    rewrite memcpy_ok; try (unfold L4Headersize; lia).
    cbn [lift_mem bind].
    apply (Next _ os3 m3); auto.
    cbn [set_pending pending_pl_buffer].
    rewrite store_length; try lia.
    rewrite slice_length; unfold L4Headersize; lia.
Qed.
End L4Total.

(** ** L4: the length handed to [l4sap_send] *)

Section L4SendLength.

Context {K : Constants}.
Hypothesis Hsize : framesize_ok.

(** A matching ACK ends the call with success, whatever its [mbz] and
    [seqno] fields hold. *)
Lemma send_loop_ack (n : nat) (c : L2SAP) (s : L4SAP) (packet : buffer)
    (len : Z) (rb : buffer) (os : OS) (dst : Z) (h : L4Header) (pl : buffer)
    (rest : list os_event) :
  send_ready c s packet len rb os ->
  zlength pl <= L4Payloadsize ->
  inbox os = incoming dst h pl :: rest ->
  L4_ACK <> L4_RESET ->
  hdr_type h = L4_ACK -> hdr_ackno h = 1 - send_seqno s ->
  l4sap_send_loop (S n) s packet len rb os
  = Done (len, set_send_seqno s (1 - send_seqno s),
          next (sent (wire c packet len) os)).
Proof.
  intros Hr Hpl Hin Hne Ht Ha.
  rewrite (send_loop_incoming Hsize n c s packet len rb os dst h pl rest)
    by assumption.
  cbv zeta; rewrite Ht, Ha, !Z.eqb_refl.
  replace (L4_ACK =? L4_RESET) with false by lia.
  reflexivity.
Qed.

(** C9.  [l4sap_send] turns down [len <= 0] with the negative
    [L4_SEND_FAILED], the entity and the socket untouched.  For [0 < len]
    it accepts [n = min len L4Payloadsize] bytes, that is [len] up to
    [L4Payloadsize] and [L4Payloadsize] beyond: the call returns, the first
    datagram it puts on the wire carries exactly the first [n] bytes of the
    caller's data behind the DATA header, and a return value that is not
    negative is [n]; with a matching ACK as first answer the call returns
    [n]. *)
Theorem l4sap_send_length (c : L2SAP) (s : L4SAP) (d : buffer) (len : Z)
    (os : OS) :
  L4_SEND_FAILED < 0 -> L4_QUIT < 0 ->
  (len <= 0 ->
   L4_SEND_FAILED < 0 /\
   forall l4 data,
     l4sap_send l4 data len os = Done (L4_SEND_FAILED, l4, os)) /\
  (0 < len ->
   l2 s = Some c -> 0 <= socket c < FD_SETSIZE ->
   Z.min len L4Payloadsize <= zlength d ->
   L4Payloadsize <= zlength (pending_pl_buffer s) ->
   hd false (sendto_fails os) = false ->
   let n := Z.min len L4Payloadsize in
   let frame :=
     l2_frame (peer_addr c) (l4_frame (data_header s) (slice d 0 n)) in
   (len <= L4Payloadsize -> n = len) /\
   (L4Payloadsize < len -> n = L4Payloadsize) /\
   zlength (slice d 0 n) = n /\
   (exists r s' os' more,
      l4sap_send (Some s) (Some d) len os = Done (r, Some s', os') /\
      outbox os' = outbox os ++ frame :: more /\
      (0 <= r -> r = n)) /\
   (forall dst h rest,
      L4_ACK <> L4_RESET ->
      hdr_type h = L4_ACK -> hdr_ackno h = 1 - send_seqno s ->
      inbox os = incoming dst h [] :: rest ->
      l4sap_send (Some s) (Some d) len os
      = Done (n, Some (set_send_seqno s (1 - send_seqno s)),
              next (sent frame os)))).
Proof.
  intros HF HQ; split.
  - intros Hlen; split; [exact HF|].
    intros [s0|] data; [|reflexivity].
    unfold l4sap_send.
    destruct (l2 s0); [destruct data|]; try reflexivity.
    replace (len <=? 0) with true by lia; reflexivity.
  - intros Hlen El2 Hfd Hd Hpend Hok n frame.
    pose proof (proj1 Hfd) as Hsock.
    pose proof (sizes Hsize) as (S0 & S1 & S2 & S3 & S4).
    destruct (l4sap_send_packet Hsize c s d len os El2 Hlen Hd)
      as (E & Ew & Hpk & Hl).
    fold n in E, Ew, Hpk, Hl, Hd.
    set (packet := l4_frame (data_header s) (slice d 0 n)
                   ++ memset0 (L4Payloadsize - n)) in *.
    fold frame in Ew.
    assert (Hready : send_ready c s packet n (memset0 L4Framesize) os).
    { do 4 (split; [assumption|]); split; [|assumption].
      apply zlength_memset0; lia. }
    split; [unfold n; lia|].
    split; [unfold n; lia|].
    split; [apply slice_length; lia|].
    split.
    + destruct (l4sap_send_loop_returns Hsize c packet n max_retries s
                  (memset0 L4Framesize) os El2 Hpk)
        as (r & s' & os' & more & El & Eo & Efirst); try assumption.
      { apply zlength_memset0; lia. }
      destruct Efirst as [more' ->]; [discriminate|exact Hready|].
      exists r, s', os', more'.
      rewrite E, El; cbn [bind]; rewrite Eo, Ew.
      repeat split.
      apply l4sap_send_loop_seqno in El.
      destruct El as (_ & _ & [[Er _] | [[Er | Er] _]]); lia.
    + intros dst h rest Hne Ht Ha Hin.
      rewrite E.
      unfold max_retries.
      rewrite (send_loop_ack 4 c s packet n _ os dst h [] rest);
        try assumption; try (unfold zlength; simpl; lia).
      cbn [bind]; rewrite Ew; reflexivity.
Qed.

End L4SendLength.

(** ** L4: one frame in the loop of [l4sap_recv] *)

Section L4Recv.

Context {K : Constants}.
Hypothesis Hsize : framesize_ok.

Lemma recv_loop_incoming (fuel : nat) (c : L2SAP) (s : L4SAP)
    (data packet : buffer) (os : OS) (dst : Z) (h : L4Header) (pl : buffer)
    (rest : list os_event) :
  l2 s = Some c -> 0 <= socket c < FD_SETSIZE ->
  zlength pl <= L4Payloadsize -> zlength packet = L4Framesize ->
  inbox os = incoming dst h pl :: rest ->
  l4sap_recv_loop (S fuel) s data packet os =
  let packet1 := store packet 0 (l4_frame h pl) in
  let os1 := next os in
  if negb (hdr_mbz h =? 0) then l4sap_recv_loop fuel s data packet1 os1
  else if hdr_type h =? L4_RESET then Done (L4_QUIT, s, data, os1)
  else if hdr_type h =? L4_DATA then
    if hdr_seqno h =? expected_seqno s then
      data' <- lift_mem (memcpy data 0 pl 0 (zlength pl)) ;;
      Done (zlength pl, set_expected_seqno s (1 - expected_seqno s), data',
            sent (ack_wire c (hdr_seqno h)) os1)
    else
      l4sap_recv_loop fuel s data packet1
        (sent (ack_wire c (hdr_seqno h)) os1)
  else l4sap_recv_loop fuel s data packet1 os1.
Proof.
  intros El2 Hfd Hpl Hpk Hin.
  pose proof (proj1 Hfd) as Hsock.
  pose proof (sizes Hsize) as (S0 & S1 & S2 & S3 & S4).
  pose proof (zlength_nonneg pl) as Hpl0.
  cbn [l4sap_recv_loop]; rewrite El2.
  rewrite (recv_incoming Hsize c packet L2Framesize _ _ dst h pl rest);
    try assumption; try (unfold L4Headersize in *; lia).
  cbn [bind]. unfold L2_TIMEOUT.
  replace (zlength pl + L4Headersize =? 0) with false
    by (unfold L4Headersize; lia).
  rewrite to_size_t_small by (unfold L4Headersize; lia).
  replace (zlength pl + L4Headersize <? L4Headersize) with false by lia.
  rewrite header_at_store.
  rewrite payload_len_of_frame by lia.
  cbv zeta.
  destruct (negb (hdr_mbz h =? 0)); [reflexivity|].
  destruct (hdr_type h =? L4_RESET); [reflexivity|].
  destruct (hdr_type h =? L4_DATA); [|reflexivity].
  destruct (send_ack Hsize c (hdr_seqno h) (next os) Hsock) as [r Er].
  destruct (hdr_seqno h =? expected_seqno s).
  - unfold memcpy; rewrite slice_stored_payload, slice_all.
    rewrite store_length
      by (rewrite ?l4_frame_length; unfold L4Headersize; lia).
    replace (zlength packet <? L4Headersize + zlength pl) with false
      by (unfold L4Headersize; lia).
    replace (zlength pl <? 0 + zlength pl) with false by lia.
    destruct ((zlength pl <? 0) || false || (zlength data <? 0 + zlength pl));
      [reflexivity|].
    cbn [lift_mem bind]. rewrite Er. reflexivity.
  - rewrite Er; reflexivity.
Qed.

End L4Recv.

(** ** L4: frames with a nonzero [mbz], RESET frames *)

Section L4Claims.

Context {K : Constants}.
Hypothesis Hsize : framesize_ok.

Lemma memcpy_whole (dst p : buffer) :
  zlength p <= zlength dst ->
  memcpy dst 0 p 0 (zlength p) = Some (p ++ skipn (length p) dst).
Proof.
  intros H; pose proof (zlength_nonneg p).
  rewrite memcpy_ok by lia. rewrite slice_all. reflexivity.
Qed.

(** In the loop of [l4sap_recv], a frame with a nonzero [mbz] is dropped:
    the loop goes on with the entity, the caller's buffer and the wire as
    they were. *)
Lemma recv_drops_nonzero_mbz (fuel : nat) (c : L2SAP) (s : L4SAP)
    (data packet : buffer) (os : OS) (dst : Z) (h : L4Header) (pl : buffer)
    (rest : list os_event) :
  l2 s = Some c -> 0 <= socket c < FD_SETSIZE ->
  zlength pl <= L4Payloadsize -> zlength packet = L4Framesize ->
  inbox os = incoming dst h pl :: rest ->
  hdr_mbz h <> 0 ->
  l4sap_recv_loop (S fuel) s data packet os
  = l4sap_recv_loop fuel s data (store packet 0 (l4_frame h pl)) (next os) /\
  outbox (next os) = outbox os.
Proof.
  intros El2 Hfd Hpl Hpk Hin Hmbz.
  pose proof (proj1 Hfd) as Hsock.
  rewrite (recv_loop_incoming Hsize fuel c s data packet os dst h pl rest)
    by assumption.
  cbv zeta. replace (hdr_mbz h =? 0) with false by lia.
  split; reflexivity.
Qed.

(** C5, on the code.  While [l4sap_send] waits for its ACK, a frame with a
    nonzero [mbz] is not dropped: an ACK with the awaited [ackno] ends the
    call with success and toggles [send_seqno], and a DATA frame is
    acknowledged and stored in the empty pending slot. *)
Theorem send_accepts_nonzero_mbz (n : nat) (c : L2SAP) (s : L4SAP)
    (packet : buffer) (len : Z) (rb : buffer) (os : OS) (dst : Z)
    (h : L4Header) (pl : buffer) (rest : list os_event) :
  send_ready c s packet len rb os ->
  zlength pl <= L4Payloadsize ->
  zlength pl <= zlength (pending_pl_buffer s) ->
  inbox os = incoming dst h pl :: rest ->
  hdr_mbz h <> 0 ->
  L4_ACK <> L4_RESET -> L4_DATA <> L4_RESET -> L4_DATA <> L4_ACK ->
  (hdr_type h = L4_ACK -> hdr_ackno h = 1 - send_seqno s ->
   l4sap_send_loop (S n) s packet len rb os
   = Done (len, set_send_seqno s (1 - send_seqno s),
           next (sent (wire c packet len) os))) /\
  (hdr_type h = L4_DATA -> pending_data s = 0 ->
   l4sap_send_loop (S n) s packet len rb os
   = l4sap_send_loop n
       (set_pending s h (zlength pl)
          (pl ++ skipn (length pl) (pending_pl_buffer s)))
       packet len (store rb 0 (l4_frame h pl))
       (sent (ack_wire c (hdr_seqno h))
          (next (sent (wire c packet len) os)))).
Proof.
  intros Hr Hpl Hcap Hin Hmbz N1 N2 N3; split.
  - intros Ht Ha.
    apply (send_loop_ack Hsize n c s packet len rb os dst h pl rest);
      assumption.
  - intros Ht Hp.
    rewrite (send_loop_incoming Hsize n c s packet len rb os dst h pl rest)
      by assumption.
    cbv zeta; rewrite Ht, Hp, !Z.eqb_refl.
    replace (L4_DATA =? L4_RESET) with false by lia.
    replace (L4_DATA =? L4_ACK) with false by lia.
    rewrite memcpy_whole by assumption.
    reflexivity.
Qed.

(** C6.  A RESET frame (well-formed: [mbz = 0]) received while [l4sap_send]
    waits for its ACK, or in the loop of [l4sap_recv], ends the call with
    [L4_QUIT] at once.  Nothing is delivered: the entity and the caller's
    buffer are as they were.  Nothing is sent after the frame arrived: after
    [l4sap_send] the wire holds the DATA frame of the attempt, sent before
    the wait, and after [l4sap_recv] it is unchanged.  This holds in any
    round of the two loops, and so for the calls whose first frame is the
    RESET. *)
Theorem reset_returns_quit (c : L2SAP) (s : L4SAP) (dst : Z) (h : L4Header)
    (pl : buffer) (rest : list os_event) (os : OS) :
  l2 s = Some c -> 0 <= socket c < FD_SETSIZE ->
  zlength pl <= L4Payloadsize ->
  inbox os = incoming dst h pl :: rest ->
  hdr_mbz h = 0 -> hdr_type h = L4_RESET ->
  (forall n packet len rb,
     send_ready c s packet len rb os ->
     l4sap_send_loop (S n) s packet len rb os
     = Done (L4_QUIT, s, next (sent (wire c packet len) os)) /\
     outbox (next (sent (wire c packet len) os))
     = outbox os ++ [wire c packet len]) /\
  (forall d len,
     0 < len -> Z.min len L4Payloadsize <= zlength d ->
     hd false (sendto_fails os) = false ->
     let frame :=
       l2_frame (peer_addr c)
         (l4_frame (data_header s) (slice d 0 (Z.min len L4Payloadsize))) in
     l4sap_send (Some s) (Some d) len os
     = Done (L4_QUIT, Some s, next (sent frame os)) /\
     outbox (next (sent frame os)) = outbox os ++ [frame]) /\
  (forall fuel data packet,
     zlength packet = L4Framesize ->
     l4sap_recv_loop (S fuel) s data packet os
     = Done (L4_QUIT, s, data, next os) /\
     outbox (next os) = outbox os) /\
  (forall data len,
     0 < len -> pending_data s = 0 ->
     l4sap_recv (Some s) (Some data) len os
     = Done (L4_QUIT, Some s, data, next os)).
Proof.
  intros El2 Hfd Hpl Hin Hmbz Ht.
  pose proof (proj1 Hfd) as Hsock.
  pose proof (sizes Hsize) as (S0 & S1 & S2 & S3 & S4).
  assert (Send : forall n packet len rb,
            send_ready c s packet len rb os ->
            l4sap_send_loop (S n) s packet len rb os
            = Done (L4_QUIT, s, next (sent (wire c packet len) os)) /\
            outbox (next (sent (wire c packet len) os))
            = outbox os ++ [wire c packet len]).
  { intros n packet len rb Hr.
    rewrite (send_loop_incoming Hsize n c s packet len rb os dst h pl rest)
      by assumption.
    cbv zeta; rewrite Ht, Z.eqb_refl.
    split; [reflexivity|].
    destruct Hr as (_ & _ & _ & _ & _ & Hok).
    destruct (sent_accepted (wire c packet len) os Hok) as (_ & Eo & _).
    exact Eo. }
  assert (Recv : forall fuel data packet,
            zlength packet = L4Framesize ->
            l4sap_recv_loop (S fuel) s data packet os
            = Done (L4_QUIT, s, data, next os) /\
            outbox (next os) = outbox os).
  { intros fuel data packet Hpk.
    rewrite (recv_loop_incoming Hsize fuel c s data packet os dst h pl rest)
      by assumption.
    cbv zeta; rewrite Hmbz, Ht, !Z.eqb_refl.
    split; reflexivity. }
  split; [exact Send|]. split; [|split; [exact Recv|]].
  - intros d len Hlen Hd Hok frame.
    destruct (l4sap_send_packet Hsize c s d len os El2 Hlen Hd)
      as (E & Ew & Hpk & Hl).
    unfold frame; rewrite <- Ew, E.
    change max_retries with (S 4).
    destruct (Send 4%nat
                (l4_frame (data_header s)
                   (slice d 0 (Z.min len L4Payloadsize))
                 ++ memset0 (L4Payloadsize - Z.min len L4Payloadsize))
                (Z.min len L4Payloadsize) (memset0 L4Framesize))
      as [E1 E2].
    { do 4 (split; [assumption|]); split; [|exact Hok].
      apply zlength_memset0; lia. }
    rewrite E1; split; [reflexivity|exact E2].
  - intros data len Hlen Hp.
    unfold l4sap_recv, l4sap_recv_network; rewrite El2, Hp.
    replace (len <=? 0) with false by lia.
    cbn [Z.eqb negb].
    destruct (Recv (length (inbox os)) data (memset0 L4Framesize)) as [E _].
    { apply zlength_memset0; lia. }
    rewrite E; reflexivity.
Qed.

End L4Claims.

(** ** L4: what ends an attempt of [l4sap_send] *)

Section L4Attempts.

Context {K : Constants}.
Hypothesis Hsize : framesize_ok.

Lemma reliable_sent (f : buffer) (os : OS) :
  sendto_reliable os -> sendto_reliable (sent f os).
Proof.
  intros H; destruct (sent_accepted f os (reliable_hd os H)) as (_ & _ & _ & E).
  unfold sendto_reliable; rewrite E; apply Forall_tl; exact H.
Qed.

Lemma reliable_next (os : OS) :
  sendto_reliable os -> sendto_reliable (next os).
Proof. intros H; exact H. Qed.

(** With an attempt left, the loop puts the DATA frame on the wire. *)
Lemma send_loop_transmits (n : nat) (c : L2SAP) (s : L4SAP)
    (packet : buffer) (len : Z) (rb : buffer) (os : OS) :
  send_ready c s packet len rb os ->
  L4Payloadsize <= zlength (pending_pl_buffer s) ->
  exists r s' os' more,
    l4sap_send_loop (S n) s packet len rb os = Done (r, s', os') /\
    outbox os' = outbox os ++ wire c packet len :: more.
Proof.
  intros Hr Hcap.
  destruct Hr as (El2 & Hsock & Hlen & Hpk & Hrb & Hok).
  destruct (l4sap_send_loop_returns Hsize c packet len (S n) s rb os
              El2 Hpk Hrb Hcap Hsock)
    as (r & s' & os' & more & E & Eo & First).
  destruct First as [more' ->]; [discriminate| |].
  - do 5 (split; [assumption|]); assumption.
  - exists r, s', os', more'; split; assumption.
Qed.

(** C2, on the code.  While [l4sap_send] waits for its ACK, an ACK with
    another [ackno], or a DATA frame of the peer (acknowledged and stored in
    the empty pending slot), is not ignored within the attempt: the [for]
    loop goes on with its next iteration, so one of the attempts is used up
    and, if an attempt is left, the DATA frame is put on the wire again at
    once, no wait having timed out. *)
Theorem unexpected_frame_ends_attempt (n : nat) (c : L2SAP) (s : L4SAP)
    (packet : buffer) (len : Z) (rb : buffer) (os : OS) (dst : Z)
    (h : L4Header) (pl : buffer) (rest : list os_event) :
  send_ready c s packet len rb os -> sendto_reliable os ->
  zlength pl <= L4Payloadsize ->
  zlength (pending_pl_buffer s) = L4Payloadsize ->
  inbox os = incoming dst h pl :: rest ->
  hdr_type h <> L4_RESET ->
  let data_wire := wire c packet len in
  let rb1 := store rb 0 (l4_frame h pl) in
  (hdr_type h = L4_ACK -> hdr_ackno h <> 1 - send_seqno s ->
   let os1 := next (sent data_wire os) in
   l4sap_send_loop (S n) s packet len rb os
   = l4sap_send_loop n s packet len rb1 os1 /\
   outbox os1 = outbox os ++ [data_wire] /\
   (n <> O ->
    exists r s' os' more,
      l4sap_send_loop (S n) s packet len rb os = Done (r, s', os') /\
      outbox os' = outbox os ++ data_wire :: data_wire :: more)) /\
  (hdr_type h = L4_DATA -> L4_DATA <> L4_ACK -> pending_data s = 0 ->
   let ack := ack_wire c (hdr_seqno h) in
   let os1 := sent ack (next (sent data_wire os)) in
   let s1 :=
     set_pending s h (zlength pl)
       (pl ++ skipn (length pl) (pending_pl_buffer s)) in
   l4sap_send_loop (S n) s packet len rb os
   = l4sap_send_loop n s1 packet len rb1 os1 /\
   outbox os1 = outbox os ++ [data_wire; ack] /\
   (n <> O ->
    exists r s' os' more,
      l4sap_send_loop (S n) s packet len rb os = Done (r, s', os') /\
      outbox os' = outbox os ++ data_wire :: ack :: data_wire :: more)).
Proof.
  intros Hr Hrel Hpl Hcap Hin Hnr data_wire rb1.
  pose proof (sizes Hsize) as (S0 & S1 & S2 & S3 & S4).
  pose proof (zlength_nonneg pl) as Hpl0.
  pose proof Hr as (El2 & Hsock & Hlen & Hpk & Hrb & Hok).
  assert (Hrb1 : zlength rb1 = L4Framesize).
  { unfold rb1; rewrite store_length; rewrite ?l4_frame_length;
      unfold L4Headersize; lia. }
  assert (Hrel1 : sendto_reliable (next (sent data_wire os)))
    by (apply reliable_next, reliable_sent; exact Hrel).
  assert (Ho1 : outbox (next (sent data_wire os)) = outbox os ++ [data_wire]).
  { destruct (sent_accepted data_wire os Hok) as (_ & Eo & _); exact Eo. }
  split.
  - intros Ht Ha os1.
    assert (E : l4sap_send_loop (S n) s packet len rb os
                = l4sap_send_loop n s packet len rb1 os1).
    { rewrite (send_loop_incoming Hsize n c s packet len rb os dst h pl rest)
        by assumption.
      cbv zeta; rewrite Ht.
      replace (L4_ACK =? L4_RESET) with false by lia.
      rewrite Z.eqb_refl.
      replace (hdr_ackno h =? 1 - send_seqno s) with false by lia.
      reflexivity. }
    split; [exact E|]. split; [exact Ho1|].
    intros Hn; destruct n as [|m]; [contradiction|].
    destruct (send_loop_transmits m c s packet len rb1 os1)
      as (r & s' & os' & more & E' & Eo'); try lia.
    { do 5 (split; [assumption|]). apply reliable_hd; exact Hrel1. }
    exists r, s', os', more; rewrite E; split; [exact E'|].
    rewrite Eo'; unfold os1; rewrite Ho1, <- app_assoc; reflexivity.
  - intros Ht Hna Hp ack os1 s1.
    assert (Ho2 : outbox os1 = outbox os ++ [data_wire; ack]).
    { destruct (sent_accepted ack (next (sent data_wire os))
                  (reliable_hd _ Hrel1)) as (_ & Eo & _).
      unfold os1; rewrite Eo, Ho1, <- app_assoc; reflexivity. }
    assert (E : l4sap_send_loop (S n) s packet len rb os
                = l4sap_send_loop n s1 packet len rb1 os1).
    { rewrite (send_loop_incoming Hsize n c s packet len rb os dst h pl rest)
        by assumption.
      cbv zeta; rewrite Ht, Hp, !Z.eqb_refl.
      replace (L4_DATA =? L4_RESET) with false by lia.
      replace (L4_DATA =? L4_ACK) with false by lia.
      rewrite memcpy_whole by lia.
      reflexivity. }
    split; [exact E|]. split; [exact Ho2|].
    intros Hn; destruct n as [|m]; [contradiction|].
    destruct (send_loop_transmits m c s1 packet len rb1 os1)
      as (r & s' & os' & more & E' & Eo').
    { do 5 (split; [assumption|]).
      apply reliable_hd, reliable_sent; exact Hrel1. }
    { unfold s1; cbn [set_pending pending_pl_buffer].
      unfold zlength in *; rewrite length_app, length_skipn; lia. }
    exists r, s', os', more; rewrite E; split; [exact E'|].
    rewrite Eo', Ho2, <- app_assoc; reflexivity.
Qed.

End L4Attempts.

(** ** L4: what [l4sap_recv] delivers *)

Section L4Deliver.

Context {K : Constants}.
Hypothesis Hsize : framesize_ok.

Lemma to_uint8_bit (x : Z) : bit x -> to_uint8 (1 - x) = 1 - x.
Proof. intros [-> | ->]; reflexivity. Qed.

(** C10.  In the loop of [l4sap_recv], a DATA frame with the expected
    sequence number has its whole payload, the received length minus the
    header, copied to the caller's buffer and its length returned; the
    length [len] the caller gave plays no part, so a payload longer than
    [len] is written past the first [len] bytes.  When the payload is
    longer than the memory behind the buffer, the copy runs out of it.
    (The pending-slot path clamps to [len] instead.) *)
Theorem recv_network_copy_unclamped (c : L2SAP) (s : L4SAP) (data : buffer)
    (os : OS) (dst : Z) (h : L4Header) (pl : buffer)
    (rest : list os_event) :
  l2 s = Some c -> 0 <= socket c < FD_SETSIZE ->
  zlength pl <= L4Payloadsize ->
  inbox os = incoming dst h pl :: rest ->
  hdr_mbz h = 0 -> hdr_type h = L4_DATA -> L4_DATA <> L4_RESET ->
  hdr_seqno h = expected_seqno s ->
  let s' := set_expected_seqno s (1 - expected_seqno s) in
  let os' := sent (ack_wire c (hdr_seqno h)) (next os) in
  (forall fuel packet,
     zlength packet = L4Framesize ->
     (zlength pl <= zlength data ->
      l4sap_recv_loop (S fuel) s data packet os
      = Done (zlength pl, s', pl ++ skipn (length pl) data, os')) /\
     (zlength data < zlength pl ->
      l4sap_recv_loop (S fuel) s data packet os = Fault)) /\
  (forall len,
     0 < len -> pending_data s = 0 ->
     (zlength pl <= zlength data ->
      l4sap_recv (Some s) (Some data) len os
      = Done (zlength pl, Some s', pl ++ skipn (length pl) data, os')) /\
     (zlength data < zlength pl ->
      l4sap_recv (Some s) (Some data) len os = Fault)).
Proof.
  intros El2 Hfd Hpl Hin Hmbz Ht Hne Hseq s' os'.
  pose proof (proj1 Hfd) as Hsock.
  pose proof (sizes Hsize) as (S0 & S1 & S2 & S3 & S4).
  assert (Loop : forall fuel packet,
            zlength packet = L4Framesize ->
            (zlength pl <= zlength data ->
             l4sap_recv_loop (S fuel) s data packet os
             = Done (zlength pl, s', pl ++ skipn (length pl) data, os')) /\
            (zlength data < zlength pl ->
             l4sap_recv_loop (S fuel) s data packet os = Fault)).
  { intros fuel packet Hpk.
    rewrite (recv_loop_incoming Hsize fuel c s data packet os dst h pl rest)
      by assumption.
    cbv zeta; rewrite Hmbz, Ht, !Z.eqb_refl; cbn [negb].
    replace (L4_DATA =? L4_RESET) with false by lia.
    replace (hdr_seqno h =? expected_seqno s) with true by lia.
    split; intros Hcap.
    - rewrite memcpy_whole by assumption; reflexivity.
    - rewrite memcpy_overflow by lia; reflexivity. }
  split; [exact Loop|].
  intros len Hlen Hp.
  unfold l4sap_recv, l4sap_recv_network; rewrite El2, Hp.
  replace (len <=? 0) with false by lia.
  cbn [Z.eqb negb].
  destruct (Loop (length (inbox os)) (memset0 L4Framesize)) as [L1 L2].
  { apply zlength_memset0; lia. }
  split; intros Hcap.
  - rewrite L1 by assumption; reflexivity.
  - rewrite L2 by assumption; reflexivity.
Qed.

(** C4.  A call of [l4sap_recv] that finds the pending slot full sends an
    ACK with [ackno = 1 - pending.seqno] and clears the slot.  If the
    pending frame is a DATA frame with the expected sequence number, the
    call copies [min(pending_len, len)] bytes to the caller's buffer,
    toggles [expected_seqno] and returns that count; otherwise it goes on
    into the network loop. *)
Theorem recv_pending_slot (c : L2SAP) (s : L4SAP) (data : buffer)
    (len : Z) (os : OS) :
  l2 s = Some c -> 0 <= socket c ->
  pending_data s <> 0 -> 0 < len ->
  let h := pending_header s in
  let ack := ack_wire c (hdr_seqno h) in
  (ack = l2_frame (peer_addr c)
           [to_uint8 L4_ACK; 0; to_uint8 (1 - hdr_seqno h); 0] /\
   (bit (hdr_seqno h) -> to_uint8 (1 - hdr_seqno h) = 1 - hdr_seqno h) /\
   (hd false (sendto_fails os) = false ->
    outbox (sent ack os) = outbox os ++ [ack])) /\
  (hdr_type h = L4_DATA -> hdr_seqno h = expected_seqno s ->
   let n := Z.min (pending_pl_len s) len in
   0 <= n -> n <= zlength (pending_pl_buffer s) -> n <= zlength data ->
   l4sap_recv (Some s) (Some data) len os
   = Done (n,
           Some (set_pending_data
                   (set_expected_seqno s (1 - expected_seqno s)) 0),
           slice (pending_pl_buffer s) 0 n ++ skipn (Z.to_nat n) data,
           sent ack os)) /\
  (hdr_type h <> L4_DATA \/ hdr_seqno h <> expected_seqno s ->
   l4sap_recv (Some s) (Some data) len os
   = ('(r, s', data', os') <-
        l4sap_recv_network (set_pending_data s 0) data (sent ack os) ;;
      Done (r, Some s', data', os'))).
Proof.
  intros El2 Hsock Hp Hlen h ack.
  split; [|split].
  - split; [reflexivity|]. split; [apply to_uint8_bit|].
    intros Hok; apply sent_accepted; exact Hok.
  - intros Ht Hs n Hn0 Hnp Hnd.
    unfold l4sap_recv; rewrite El2.
    replace (len <=? 0) with false by lia.
    replace (pending_data s =? 0) with false by lia.
    fold h; rewrite Ht, Hs, !Z.eqb_refl; cbn [negb andb].
    replace (if pending_pl_len s <? len then pending_pl_len s else len)
      with n by (unfold n; destruct (Z.ltb_spec (pending_pl_len s) len); lia).
    rewrite memcpy_ok by lia.
    cbn [lift_mem bind].
    destruct (send_ack Hsize c (expected_seqno s) os Hsock) as [r Er].
    rewrite Er; cbn [bind].
    unfold ack; rewrite Hs.
    unfold store; cbn [Z.to_nat firstn app Nat.add].
    replace (length (slice (pending_pl_buffer s) 0 n)) with (Z.to_nat n).
    + reflexivity.
    + pose proof (slice_length (pending_pl_buffer s) 0 n) as L.
      unfold zlength in L at 2. lia.
  - intros Hne.
    unfold l4sap_recv; rewrite El2.
    replace (len <=? 0) with false by lia.
    replace (pending_data s =? 0) with false by lia.
    fold h.
    replace ((hdr_type h =? L4_DATA) && (hdr_seqno h =? expected_seqno s))
      with false.
    2:{ symmetry; apply andb_false_iff.
        destruct Hne; [left|right]; lia. }
    cbn [negb].
    destruct (send_ack Hsize c (hdr_seqno h) os Hsock) as [r Er].
    rewrite Er; cbn [bind]. reflexivity.
Qed.

End L4Deliver.

(** ** L4: the loop of [l4sap_recv] takes one event per iteration *)

Section L4Fuel.

Context {K : Constants}.

Lemma lift_mem_not_spinning {A} (m : option A) : lift_mem m <> Spinning.
Proof. destruct m; discriminate. Qed.

Lemma l2sap_sendto_inbox (cl : option L2SAP) (dt : option buffer) (len : Z)
    (os : OS) :
  match l2sap_sendto cl dt len os with
  | Done (_, os') => inbox os' = inbox os
  | Blocked | Spinning => False
  | Fault => True
  end.
Proof.
  unfold l2sap_sendto.
  destruct cl as [c|]; [|destruct dt; reflexivity].
  destruct dt as [d|]; [|reflexivity].
  repeat match goal with
         | |- context [if ?b then _ else _] => destruct b; [reflexivity|]
         end.
  destruct (memcpy _ _ _ _ _); cbn [lift_mem bind]; [|exact I].
  match goal with
  | |- context [sys_sendto ?x os] => generalize x; intros f
  end.
  unfold sys_sendto.
  destruct (sendto_fails os) as [|[|] fl]; cbn;
    try (destruct (zlength f <? 0)); reflexivity.
Qed.

Lemma l2sap_recvfrom_timeout_inbox (c : L2SAP) (pk : buffer) (len : Z)
    (os : OS) :
  0 < len ->
  match l2sap_recvfrom_timeout (Some c) (Some pk) len None os with
  | Done (_, _, os') => length (inbox os) = S (length (inbox os'))
  | Blocked => inbox os = []
  | Fault => True
  | Spinning => False
  end.
Proof.
  intros Hlen; unfold l2sap_recvfrom_timeout.
  replace (len <=? 0) with false by lia.
  unfold FD_SET.
  destruct ((0 <=? socket c) && (socket c <? FD_SETSIZE));
    cbn [bind]; [|exact I].
  unfold sys_select, sys_recvfrom.
  destruct (inbox os) as [|[| | |dg] rest] eqn:Ein; cbn [bind];
    try reflexivity.
  - rewrite Ein; reflexivity.
  - rewrite Ein. cbn [Z.ltb Z.eqb Z.compare].
    repeat match goal with
           | |- context [if ?b then _ else _] => destruct b; [reflexivity|]
           end.
    destruct (memcpy _ _ _ _ _); cbn [lift_mem bind]; [reflexivity|exact I].
Qed.

Lemma l4sap_recv_loop_fuel (c : L2SAP) (fuel : nat) :
  forall s data packet os,
  0 < L2Framesize -> l2 s = Some c ->
  (length (inbox os) < fuel)%nat ->
  l4sap_recv_loop fuel s data packet os <> Spinning.
Proof.
  induction fuel as [|fuel IH]; intros s data packet os HF El2 Hfuel H;
    [lia|].
  cbn [l4sap_recv_loop] in H; rewrite El2 in H.
  pose proof (l2sap_recvfrom_timeout_inbox c packet L2Framesize os HF) as R.
  destruct (l2sap_recvfrom_timeout _ _ _ _ _) as [[[rl pk] os1]| | |];
    cbn [bind] in H; try discriminate H; try contradiction.
  assert (Go : forall os2, inbox os2 = inbox os1 ->
               l4sap_recv_loop fuel s data pk os2 <> Spinning).
  { intros os2 E; apply IH; try assumption. rewrite E; lia. }
  repeat step_run H;
    try (revert H; apply Go; reflexivity);
    try discriminate H;
    try (eapply lift_mem_not_spinning; eassumption).
  all: match goal with
       | E : l2sap_sendto ?a ?b ?c ?d = _ |- _ =>
           pose proof (l2sap_sendto_inbox a b c d) as I; rewrite E in I
       end; try contradiction.
  revert H; apply Go; assumption.
Qed.

(** [l4sap_recv] returns, blocks or runs into undefined behaviour: the
    bound on the iterations of its loop is never reached. *)
Lemma l4sap_recv_returns_or_blocks (l4 : option L4SAP)
    (data : option buffer) (len : Z) (os : OS) :
  0 < L2Framesize -> l4sap_recv l4 data len os <> Spinning.
Proof.
  intros HF H; unfold l4sap_recv in H.
  destruct l4 as [s|]; [|discriminate H].
  destruct (l2 s) as [c|] eqn:El2; [|destruct data; discriminate H].
  destruct data as [d|]; [|discriminate H].
  destruct (len <=? 0); [discriminate H|].
  step_run H.
  - destruct a as [[[r s'] d'] os']; discriminate H.
  - clear H. unfold l4sap_recv_network in E.
    repeat step_run E;
      try discriminate E;
      try (eapply lift_mem_not_spinning; eassumption);
      try match goal with
          | E : l2sap_sendto ?a ?b ?c ?d = _ |- _ =>
              pose proof (l2sap_sendto_inbox a b c d) as I; rewrite E in I
          end; try contradiction.
    + revert E; apply (l4sap_recv_loop_fuel c); auto.
    + revert E; apply (l4sap_recv_loop_fuel c); auto.
Qed.
(** More iterations than needed change nothing. *)
Lemma l4sap_recv_loop_more_fuel (fuel : nat) :
  forall s data packet os o,
  l4sap_recv_loop fuel s data packet os = o -> o <> Spinning ->
  l4sap_recv_loop (S fuel) s data packet os = o.
Proof.
  induction fuel as [|fuel IH]; intros s data packet os o H Ho.
  - symmetry in H; contradiction.
  - remember (S fuel) as n eqn:En.
    cbn [l4sap_recv_loop]; subst n; cbn [l4sap_recv_loop] in H.
    repeat step_run H;
      cbn [bind];
      repeat (match goal with
              | E : ?x = _ |- context [?x] => rewrite E
              end; cbn [bind]);
      try reflexivity; try exact H; try (apply IH; assumption).
Qed.
End L4Fuel.

(** ** L4: an L2 error inside [l4sap_recv] *)

Section L4RecvError.

Context {K : Constants}.

(** An L2 error is not skipped by the loop of [l4sap_recv]: [-1] is not
    below [sizeof(struct L4Header)] once converted to [size_t], so the
    bytes left in [packet] are taken for a frame of length [-1].  If they
    read as a DATA frame with the expected sequence number (as the zeroed
    array does when [L4_DATA] and [expected_seqno] are 0), the payload is
    copied with a length of [-5]. *)
Lemma recv_loop_l2_error (fuel : nat) (c : L2SAP) (s : L4SAP)
    (data packet : buffer) (os : OS) (rest : list os_event) :
  0 < L2Framesize -> l2 s = Some c -> 0 <= socket c < FD_SETSIZE ->
  inbox os = RecvfromFails :: rest ->
  hdr_mbz (header_at packet) = 0 ->
  hdr_type (header_at packet) = L4_DATA -> L4_DATA <> L4_RESET ->
  hdr_seqno (header_at packet) = expected_seqno s ->
  payload_len_of (-1) = -5 /\
  l4sap_recv_loop (S fuel) s data packet os = Fault.
Proof.
  intros HF El2 Hfd Hin Hmbz Ht Hne Hseq.
  split; [reflexivity|].
  cbn [l4sap_recv_loop]; rewrite El2.
  unfold l2sap_recvfrom_timeout, sys_select, sys_recvfrom.
  replace (L2Framesize <=? 0) with false by lia.
  rewrite FD_SET_ok by exact Hfd; cbn [bind].
  rewrite Hin; cbn [bind]; rewrite Hin.
  cbn -[l4sap_recv_loop header_at memcpy payload_len_of l2sap_sendto].
  rewrite Hmbz, Ht, Hseq, !Z.eqb_refl.
  replace (L4_DATA =? L4_RESET) with false by lia.
  cbn [negb].
  rewrite memcpy_negative by reflexivity.
  reflexivity.
Qed.
End L4RecvError.

(** * More on the code: L2 *)

Lemma skipn_store_0 (d s : buffer) :
  skipn (length s) (store d 0 s) = skipn (length s) d.
Proof.
  unfold store; simpl.
  rewrite skipn_app, Nat.sub_diag, skipn_all; reflexivity.
Qed.

Lemma load8_memset0 (n i : Z) : load8 (memset0 n) i = 0.
Proof.
  unfold load8, memset0.
  destruct (Nat.lt_ge_cases (Z.to_nat i) (Z.to_nat n)).
  - apply nth_repeat_lt; assumption.
  - apply nth_overflow; rewrite repeat_length; assumption.
Qed.

Lemma nth_skipn_eq {A} (k : nat) :
  forall (a b : list A) (i : nat) (d : A),
  skipn k a = skipn k b -> (k <= i)%nat -> nth i a d = nth i b d.
Proof.
  induction k as [|k IH]; intros a b i d H Hi.
  - simpl in H; subst; reflexivity.
  - destruct i as [|i]; [lia|].
    destruct a as [|x a], b as [|y b]; simpl in H |- *.
    + reflexivity.
    + rewrite <- (IH [] b i d); [destruct i; reflexivity| |lia].
      rewrite skipn_nil; exact H.
    + rewrite (IH a [] i d); [destruct i; reflexivity| |lia].
      rewrite skipn_nil; exact H.
    + apply IH; [exact H|lia].
Qed.

Lemma flip_bit_app (h p : buffer) (i : nat) (k : Z) :
  (i < length p)%nat ->
  flip_bit (h ++ p) (length h + i) k = h ++ flip_bit p i k.
Proof.
  intros Hi; unfold flip_bit.
  rewrite firstn_app, skipn_app.
  replace (length h + i - length h)%nat with i by lia.
  rewrite firstn_all2, skipn_all2 by lia.
  rewrite <- app_assoc; reflexivity.
Qed.

Lemma nth_flip_bit_same (f : buffer) (i : nat) (k : Z) :
  (i < length f)%nat ->
  nth i (flip_bit f i k) 0 = Z.lxor (nth i f 0) (Z.shiftl 1 k).
Proof.
  intros Hi; unfold flip_bit.
  rewrite app_nth2 by (rewrite length_firstn; lia).
  rewrite length_firstn.
  replace (i - Nat.min i (length f))%nat with O by lia.
  rewrite <- (firstn_skipn i f) at 2.
  rewrite app_nth2 by (rewrite length_firstn; lia).
  rewrite length_firstn.
  replace (i - Nat.min i (length f))%nat with O by lia.
  destruct (skipn i f) eqn:E; [|reflexivity].
  apply (f_equal (@length Z)) in E; rewrite length_skipn in E.
  simpl in E; lia.
Qed.

Lemma nth_flip_bit_before (f : buffer) (i j : nat) (k : Z) :
  (i < j)%nat -> nth i (flip_bit f j k) 0 = nth i f 0.
Proof.
  intros Hij; unfold flip_bit.
  destruct (Nat.lt_ge_cases i (length f)) as [Hi|Hi].
  - rewrite app_nth1 by (rewrite length_firstn; lia).
    rewrite <- (firstn_skipn j f) at 2.
    rewrite app_nth1 by (rewrite length_firstn; lia).
    reflexivity.
  - rewrite (nth_overflow f) by lia.
    apply nth_overflow.
    rewrite skipn_all2 by lia.
    rewrite app_nil_r, length_firstn; lia.
Qed.

Lemma firstn_repeat_le {A} (x : A) (k n : nat) :
  (k <= n)%nat -> firstn k (repeat x n) = repeat x k.
Proof.
  revert n; induction k as [|k IH]; intros [|n] H; simpl; try lia; auto.
  f_equal; apply IH; lia.
Qed.

Section L2Edges.

Context {K : Constants}.

(** Every call of [l2sap_sendto] on an entity returns; it hands one whole
    frame to [sendto] or none at all, and it never reads the socket. *)
Lemma l2sap_sendto_cases (c : L2SAP) (d : buffer) (len : Z) (os : OS) :
  len <= zlength d ->
  exists r os',
    l2sap_sendto (Some c) (Some d) len os = Done (r, os') /\
    inbox os' = inbox os /\
    ((r = -1 /\ outbox os' = outbox os) \/
     (r = len /\ 0 <= len <= L2Payloadsize /\ 0 <= socket c /\
      outbox os' = outbox os ++ [l2_frame (peer_addr c) (slice d 0 len)])).
Proof.
  intros Hd.
  destruct (Z.ltb_spec len 0) as [Hneg|Hpos].
  { exists (-1), os; unfold l2sap_sendto.
    replace (len <? 0) with true by lia; auto. }
  destruct (Z.ltb_spec L2Payloadsize len) as [Hbig|Hfit].
  { exists (-1), os; unfold l2sap_sendto.
    replace (len <? 0) with false by lia.
    replace (len >? L2Payloadsize) with true by lia; auto. }
  destruct (Z.ltb_spec (socket c) 0) as [Hbad|Hsock].
  { exists (-1), os; unfold l2sap_sendto.
    replace (len <? 0) with false by lia.
    replace (len >? L2Payloadsize) with false by lia.
    replace (socket c <? 0) with true by lia; auto. }
  rewrite l2sap_sendto_frame by (try assumption; lia).
  remember (l2_frame (peer_addr c) (slice d 0 len)) as f eqn:Ef.
  assert (Hz : (zlength f <? 0) = false)
    by (pose proof (zlength_nonneg f); lia).
  unfold sys_sendto.
  destruct (sendto_fails os) as [|[|] fl]; cbn -[zlength Z.ltb];
    rewrite ?Hz; (eexists _, _; split; [reflexivity|]; split; [reflexivity|]).
  2: left; split; reflexivity.
  all: right; do 3 (split; [first [reflexivity | assumption | lia]|]);
    reflexivity.
Qed.

(** A receive into an array that holds [len] bytes, with [len] within the
    L2 payload size: the call returns (or waits for ever on an empty socket
    without timeout), the count is [-1] or within [len], only the first
    [count] bytes of the array are written, nothing is sent and at most one
    event of the socket is taken.  The descriptor is one that [FD_SET] can
    put into the [fd_set]. *)
Lemma l2sap_recvfrom_timeout_cases (c : L2SAP) (d : buffer)
    (len : Z) (timeout : option timeval) (os : OS) :
  0 < len <= zlength d -> len + L2Headersize <= L2Framesize ->
  0 <= socket c < FD_SETSIZE ->
  match l2sap_recvfrom_timeout (Some c) (Some d) len timeout os with
  | Done (r, d', os') =>
      -1 <= r <= len /\ zlength d' = zlength d /\
      skipn (Z.to_nat r) d' = skipn (Z.to_nat r) d /\
      outbox os' = outbox os /\ sendto_fails os' = sendto_fails os /\
      (inbox os' = inbox os \/ inbox os' = tl (inbox os))
  | Blocked => timeout = None /\ inbox os = []
  | Fault | Spinning => False
  end.
Proof.
  intros Hlen HF Hfd.
  unfold l2sap_recvfrom_timeout.
  replace (len <=? 0) with false by lia.
  rewrite FD_SET_ok by exact Hfd; cbn [bind].
  unfold sys_select.
  destruct (inbox os) as [|[| | |dg] rest] eqn:Ein; cbn [bind].
  - destruct timeout; cbn; rewrite ?Ein; [|auto].
    repeat split; unfold L2_TIMEOUT; simpl; auto; lia.
  - cbn; repeat split; simpl; auto; lia.
  - cbn; repeat split; unfold L2_TIMEOUT; simpl; auto; lia.
  - unfold sys_recvfrom; rewrite Ein; cbn; rewrite ?Ein.
    repeat split; simpl; auto; lia.
  - unfold sys_recvfrom; rewrite Ein.
    cbn [Z.ltb Z.eqb Z.compare].
    set (frame := store (memset0 L2Framesize) 0
                    (firstn (Z.to_nat L2Framesize) dg)).
    set (os1 := mkOS rest (sendto_fails os) (outbox os)).
    assert (Hos1 : outbox os1 = outbox os /\
                   sendto_fails os1 = sendto_fails os /\
                   (inbox os1 = Datagram dg :: rest \/
                    inbox os1 = tl (Datagram dg :: rest))).
    { unfold os1; simpl; auto. }
    assert (Hfr : zlength frame = L2Framesize).
    { unfold frame; rewrite store_length; unfold L2Headersize in *.
      - apply zlength_memset0; lia.
      - lia.
      - rewrite zlength_memset0 by lia.
        unfold zlength; rewrite length_firstn; lia. }
    destruct (Z.min (zlength dg) L2Framesize <? 0);
      [split; [lia|]; split; [reflexivity|]; split; [reflexivity|];
       exact Hos1|].
    destruct (Z.min (zlength dg) L2Framesize <? L2Headersize);
      [split; [lia|]; split; [reflexivity|]; split; [reflexivity|];
       exact Hos1|].
    destruct (negb _);
      [split; [lia|]; split; [reflexivity|]; split; [reflexivity|];
       exact Hos1|].
    set (pl := to_uint16 _).
    pose proof (to_uint16_range (ntohs_at (store frame L2_checksum [0]) L2_len
                                 - L2Headersize)) as Hpl; fold pl in Hpl.
    destruct (Z.gtb_spec pl len);
      [split; [lia|]; split; [reflexivity|]; split; [reflexivity|];
       exact Hos1|].
    assert (Hfr0 : zlength (store frame L2_checksum [0]) = L2Framesize).
    { rewrite store_length; unfold L2_checksum, L2Headersize in *;
        try lia. unfold zlength at 1; simpl; lia. }
    rewrite memcpy_ok; try lia.
    cbn [lift_mem bind].
    assert (Hs : zlength (slice (store frame L2_checksum [0])
                            L2Headersize pl) = pl).
    { rewrite slice_length; unfold L2Headersize in *; lia. }
    split; [lia|]. split; [apply store_length; lia|].
    split; [|exact Hos1].
    replace (Z.to_nat pl)
      with (length (slice (store frame L2_checksum [0]) L2Headersize pl))
      by (unfold zlength in Hs; lia).
    apply skipn_store_0.
Qed.

(** With a descriptor that is negative or not below [FD_SETSIZE], the call
    runs [FD_SET] outside the [fd_set]. *)
Lemma l2sap_recvfrom_timeout_bad_fd (c : L2SAP) (d : buffer)
    (len : Z) (timeout : option timeval) (os : OS) :
  0 < len -> socket c < 0 \/ FD_SETSIZE <= socket c ->
  l2sap_recvfrom_timeout (Some c) (Some d) len timeout os = Fault.
Proof.
  intros Hlen Hfd.
  unfold l2sap_recvfrom_timeout.
  replace (len <=? 0) with false by lia.
  rewrite FD_SET_fault by exact Hfd; reflexivity.
Qed.

(** X1. [l2sap_sendto] sends one whole frame or nothing. Every call returns and
    leaves the inbox of the socket alone. It returns [-1] with nothing sent, or
    [len] with exactly one datagram sent: the frame of the first [len] bytes of
    [data], [len + L2Headersize] bytes long. A [NULL] argument, a negative or
    too large [len] and a closed socket give [-1] before [sendto] is called. *)
Theorem l2sap_sendto_all_or_nothing (client : option L2SAP)
    (data : option buffer) (len : Z) (os : OS) :
  (forall d, data = Some d -> len <= zlength d) ->
  exists r os',
    l2sap_sendto client data len os = Done (r, os') /\
    inbox os' = inbox os /\
    ((r = -1 /\ outbox os' = outbox os) \/
     (r = len /\
      exists c d,
        client = Some c /\ data = Some d /\
        0 <= socket c /\ 0 <= len <= L2Payloadsize /\
        outbox os' = outbox os ++ [l2_frame (peer_addr c) (slice d 0 len)] /\
        zlength (l2_frame (peer_addr c) (slice d 0 len))
        = len + L2Headersize)) /\
    (client = None \/ data = None \/ len < 0 \/ L2Payloadsize < len \/
     (exists c, client = Some c /\ socket c < 0) ->
     r = -1 /\ os' = os).
Proof.
  intros Hd.
  destruct client as [c|]; [destruct data as [d|]|].
  2,3: exists (-1), os; repeat split; auto; destruct data; reflexivity.
  specialize (Hd d eq_refl).
  destruct (l2sap_sendto_cases c d len os Hd)
    as (r & os' & E & Hin & Hcase).
  exists r, os'; split; [exact E|]. split; [exact Hin|]. split.
  - destruct Hcase as [Hfail|(Hr & Hlen & Hsock & Hout)]; [left; exact Hfail|].
    right; split; [exact Hr|]. exists c, d.
    do 4 (split; [first [reflexivity | assumption]|]).
    split; [exact Hout|].
    rewrite l2_frame_length, slice_length; lia.
  - intros Hbad.
    assert (Hrej : len < 0 \/ L2Payloadsize < len \/ socket c < 0).
    { destruct Hbad as [Hb|[Hb|[Hb|[Hb|(c0 & Hb & Hb')]]]];
        try discriminate; auto.
      inversion Hb; subst; auto. }
    clear Hbad Hcase Hin; unfold l2sap_sendto in E.
    destruct (Z.ltb_spec len 0); [inversion E; auto|].
    destruct (Z.gtb_spec len L2Payloadsize); [inversion E; auto|].
    destruct (Z.ltb_spec (socket c) 0); [inversion E; auto|].
    exfalso; lia.
Qed.

(** X2. [l2sap_recvfrom_timeout] writes into the first [r] bytes of the
    caller's array only. With an array of at least [len] bytes and [len] within
    the L2 payload size, whatever datagram arrives: the call runs into
    undefined behaviour exactly when [client->socket] is negative or not below
    [FD_SETSIZE], where [FD_SET] writes outside the [fd_set]; when it returns
    [r], then [r] is [-1] or within [0 .. len], the array keeps its size and
    every byte from index [r] on, nothing is sent, and at most the first event
    of the socket is taken. *)
Theorem l2sap_recvfrom_timeout_bounded_write (c : L2SAP) (d : buffer)
    (len : Z) (timeout : option timeval) (os : OS) :
  0 < len <= zlength d -> len + L2Headersize <= L2Framesize ->
  (l2sap_recvfrom_timeout (Some c) (Some d) len timeout os <> Fault <->
   0 <= socket c < FD_SETSIZE) /\
  forall r d' os',
    l2sap_recvfrom_timeout (Some c) (Some d) len timeout os
    = Done (r, d', os') ->
    0 <= socket c < FD_SETSIZE /\
    -1 <= r <= len /\ zlength d' = zlength d /\
    (forall i, 0 <= i -> r <= i -> load8 d' i = load8 d i) /\
    outbox os' = outbox os /\ sendto_fails os' = sendto_fails os /\
    (inbox os' = inbox os \/ inbox os' = tl (inbox os)).
Proof.
  intros Hlen HF.
  assert (Hbad : ~ 0 <= socket c < FD_SETSIZE ->
                 l2sap_recvfrom_timeout (Some c) (Some d) len timeout os
                 = Fault).
  { intros Hn; apply l2sap_recvfrom_timeout_bad_fd; lia. }
  pose proof (l2sap_recvfrom_timeout_cases c d len timeout os Hlen HF) as H.
  assert (Hdec : 0 <= socket c < FD_SETSIZE \/ ~ 0 <= socket c < FD_SETSIZE)
    by lia.
  split; [split|].
  - intros Hnf; destruct Hdec as [Hfd|Hn]; [exact Hfd|].
    exfalso; apply Hnf, Hbad, Hn.
  - intros Hfd E; specialize (H Hfd); rewrite E in H; exact H.
  - intros r d' os' E.
    destruct Hdec as [Hfd|Hn];
      [|rewrite (Hbad Hn) in E; discriminate E].
    specialize (H Hfd); rewrite E in H.
    destruct H as (Hr & Hz & Hskip & Hrest).
    split; [exact Hfd|].
    split; [exact Hr|]. split; [exact Hz|]. split; [|exact Hrest].
    intros i Hi Hri; unfold load8.
    apply (nth_skipn_eq (Z.to_nat r)); [exact Hskip|lia].
Qed.

(** X3. The checksum misses paired flips. Invert the same bit in two bytes of
    the payload of a frame: the result is the frame of the changed payload, so
    [l2sap_recvfrom_timeout] takes it for a sound frame and hands the changed
    payload to the caller. *)
Theorem checksum_misses_paired_flips (c : L2SAP) (d : buffer) (len : Z)
    (timeout : option timeval) (os : OS) (dst : Z) (p : buffer)
    (rest : list os_event) (i j : nat) (k : Z) :
  L2Framesize < 2 ^ 16 ->
  0 < len -> zlength p <= len -> zlength p <= zlength d ->
  zlength p <= L2Payloadsize ->
  (i < j < length p)%nat -> 0 <= k ->
  0 <= socket c < FD_SETSIZE ->
  let p' := flip_bit (flip_bit p i k) j k in
  let f' := flip_bit (flip_bit (l2_frame dst p) (6 + i) k) (6 + j) k in
  inbox os = Datagram f' :: rest ->
  p' <> p /\ f' = l2_frame dst p' /\
  l2sap_recvfrom_timeout (Some c) (Some d) len timeout os
  = Done (zlength p, store d 0 p', next os).
Proof.
  intros HF Hlen Hpl Hd Hfit Hij Hk Hfd p' f' Hin.
  assert (Hlen1 : length (flip_bit p i k) = length p).
  { pose proof (flip_bit_length p i k) as E; unfold zlength in E; lia. }
  assert (Hz' : zlength p' = zlength p).
  { unfold p'; rewrite !flip_bit_length; reflexivity. }
  assert (Hx' : xor_all p' = xor_all p).
  { unfold p'; rewrite !xor_all_flip_bit by lia.
    rewrite Z.lxor_assoc, Z.lxor_nilpotent, Z.lxor_0_r; reflexivity. }
  assert (Hne : p' <> p).
  { intros E; apply (f_equal (fun l => nth i l 0)) in E.
    unfold p' in E.
    rewrite nth_flip_bit_before, nth_flip_bit_same in E by lia.
    apply (f_equal (Z.lxor (nth i p 0))) in E.
    rewrite <- Z.lxor_assoc, Z.lxor_nilpotent, Z.lxor_0_l in E.
    exact (shiftl_1_nonzero k Hk E). }
  assert (Hf' : f' = l2_frame dst p').
  { unfold f', l2_frame.
    rewrite xor_all_app, (xor_all_app _ p'), Hz', Hx'.
    set (hdr := l2_header dst _ _).
    change 6%nat with (length hdr).
    rewrite flip_bit_app by lia.
    rewrite flip_bit_app by lia.
    reflexivity. }
  split; [exact Hne|]. split; [exact Hf'|].
  rewrite <- Hz'.
  apply (l2sap_recvfrom_timeout_frame c d len timeout os dst p' rest);
    try lia.
  rewrite <- Hf'; exact Hin.
Qed.

(** X4. [l2sap_recvfrom_timeout] takes the length of the payload from the [len]
    field of the header, not from the size of the datagram, and looks at
    neither [dst_addr] nor [mbz]. A datagram whose checksum matches is turned
    down with [-1] if the field claims more than [len] bytes; otherwise the
    call returns the claimed length [n] and hands over the [n] bytes behind the
    header of its zeroed frame array: the bytes that arrived followed by zeros
    where the datagram is shorter than claimed. *)
Theorem l2sap_recvfrom_trusts_len_field (c : L2SAP) (d : buffer) (len : Z)
    (timeout : option timeval) (os : OS) (dg : buffer)
    (rest : list os_event) :
  0 < len <= zlength d -> len + L2Headersize <= L2Framesize ->
  0 <= socket c < FD_SETSIZE ->
  inbox os = Datagram dg :: rest ->
  l2_wellformed dg ->
  let n := to_uint16 (ntohs_at dg L2_len - L2Headersize) in
  let payload :=
    slice (dg ++ memset0 (L2Framesize - zlength dg)) L2Headersize n in
  (len < n ->
   l2sap_recvfrom_timeout (Some c) (Some d) len timeout os
   = Done (-1, d, next os)) /\
  (n <= len ->
   zlength payload = n /\
   l2sap_recvfrom_timeout (Some c) (Some d) len timeout os
   = Done (n, payload ++ skipn (Z.to_nat n) d, next os) /\
   (zlength dg - L2Headersize <= n ->
    payload = slice dg L2Headersize (zlength dg - L2Headersize)
              ++ memset0 (n - (zlength dg - L2Headersize)))).
Proof.
  intros Hlen HF Hfd Hin (Hdg & Hck) n payload.
  assert (Hn : 0 <= n < 2 ^ 16) by apply to_uint16_range.
  assert (Hsrc : zlength (dg ++ memset0 (L2Framesize - zlength dg))
                 = L2Framesize)
    by (rewrite zlength_app, zlength_memset0; lia).
  rewrite (l2sap_recvfrom_timeout_datagram c d len timeout os dg rest)
    by (auto; lia).
  rewrite Hck; cbn [negb]; cbv zeta; fold n.
  split; [intros Hbig; replace (n >? len) with true by lia; reflexivity|].
  intros Hfit; replace (n >? len) with false by lia.
  assert (Hp : zlength payload = n)
    by (apply slice_length; unfold L2Headersize in *; lia).
  split; [exact Hp|]. split.
  - rewrite memcpy_ok by (unfold L2Headersize in *; lia).
    cbn [lift_mem bind]; fold payload.
    unfold store; cbn [Z.to_nat firstn app Nat.add].
    replace (length payload) with (Z.to_nat n)
      by (unfold zlength in Hp; lia).
    reflexivity.
  - intros Hshort; unfold payload, slice.
    unfold L2Headersize in *.
    rewrite skipn_app.
    replace (Z.to_nat 6 - length dg)%nat with O
      by (unfold zlength in Hdg; lia).
    cbn [skipn].
    rewrite firstn_app, length_skipn.
    rewrite (firstn_all2 (n := Z.to_nat n))
      by (rewrite length_skipn; unfold zlength in *; lia).
    rewrite (firstn_all2 (n := Z.to_nat (zlength dg - 6)))
      by (rewrite length_skipn; unfold zlength in *; lia).
    f_equal. unfold memset0; rewrite firstn_repeat_le;
      [f_equal|]; unfold zlength in *; lia.
Qed.

End L2Edges.

(** * More on the code: L4 *)

Lemma store_at_0 (d x : buffer) : store d 0 x = x ++ skipn (length x) d.
Proof. reflexivity. Qed.

Lemma slice_prefix (p q : buffer) (k : Z) :
  k <= zlength p -> slice (p ++ q) 0 k = slice p 0 k.
Proof.
  intros Hk; unfold slice, zlength in *; simpl.
  rewrite firstn_app.
  replace (Z.to_nat k - length p)%nat with O by lia.
  simpl; apply app_nil_r.
Qed.

Lemma to_uint8_small (x : Z) : 0 <= x < 256 -> to_uint8 x = x.
Proof. intros; unfold to_uint8; apply Z.mod_small; lia. Qed.

Section L4Edges.

Context {K : Constants}.
Hypothesis Hsize : framesize_ok.

(** The network loop of [l4sap_recv] entered from the call. *)
Lemma l4sap_recv_empty_slot (s : L4SAP) (c : L2SAP) (data : buffer)
    (len : Z) (os : OS) :
  l2 s = Some c -> 0 < len -> pending_data s = 0 ->
  l4sap_recv (Some s) (Some data) len os
  = ('(r, s', d', os') <- l4sap_recv_network s data os ;;
     Done (r, Some s', d', os')).
Proof.
  intros El2 Hlen Hp; unfold l4sap_recv; rewrite El2, Hp.
  replace (len <=? 0) with false by lia; reflexivity.
Qed.

(** X5. [l4sap_recv] receives into an array of [L4Framesize] bytes but tells L2
    that it holds [L2Framesize] bytes. A datagram with a matching checksum
    whose [len] field claims between [L2Framesize + 1] and [L2Framesize +
    L2Headersize] bytes passes the length test of [l2sap_recvfrom_timeout]; the
    copy of its payload then reads past the frame array and writes past the
    array of [l4sap_recv]: undefined behaviour, whatever the entity and the
    caller's buffer. *)
Theorem l4sap_recv_oversized_len_field (c : L2SAP) (s : L4SAP)
    (data : buffer) (len : Z) (os : OS) (dg : buffer)
    (rest : list os_event) :
  l2 s = Some c -> 0 < len -> pending_data s = 0 ->
  inbox os = Datagram dg :: rest ->
  l2_wellformed dg ->
  L2Framesize < ntohs_at dg L2_len <= L2Framesize + L2Headersize ->
  L2Framesize + L2Headersize < 2 ^ 16 ->
  let payload_len := ntohs_at dg L2_len - L2Headersize in
  L4Framesize < payload_len <= L2Framesize /\
  zlength (memset0 L4Framesize) = L4Framesize /\
  l2sap_recvfrom_timeout (Some c) (Some (memset0 L4Framesize)) L2Framesize
    None os = Fault /\
  l4sap_recv (Some s) (Some data) len os = Fault.
Proof.
  intros El2 Hlen Hpend Hin (Hdg & Hck) Hfield Hmax pl.
  pose proof (sizes Hsize) as (S0 & S1 & S2 & S3 & S4).
  unfold L2Headersize in *.
  assert (Hpl : to_uint16 (ntohs_at dg L2_len - 6) = pl).
  { unfold to_uint16, pl; apply Z.mod_small; lia. }
  assert (Hrecv : forall packet,
            l2sap_recvfrom_timeout (Some c) (Some packet) L2Framesize None os
            = Fault).
  { intros packet.
    destruct (Z.ltb_spec (socket c) 0) as [Hneg|Hsock];
      [apply l2sap_recvfrom_timeout_bad_fd; lia|].
    destruct (Z.leb_spec FD_SETSIZE (socket c)) as [Hbig|Hfd];
      [apply l2sap_recvfrom_timeout_bad_fd; lia|].
    rewrite (l2sap_recvfrom_timeout_datagram c packet L2Framesize None os
               dg rest) by (unfold L2Headersize; auto; lia).
    rewrite Hck; cbn [negb]. cbv zeta. unfold L2Headersize; rewrite Hpl.
    replace (pl >? L2Framesize) with false by (unfold pl; lia).
    unfold memcpy.
    replace (zlength (dg ++ memset0 (L2Framesize - zlength dg)) <? 6 + pl)
      with true.
    - rewrite orb_true_r; reflexivity.
    - rewrite zlength_app, zlength_memset0 by lia. unfold pl; lia. }
  split; [unfold pl; lia|].
  split; [apply zlength_memset0; lia|].
  split; [apply Hrecv|].
  unfold l4sap_recv; rewrite El2.
  replace (len <=? 0) with false by lia.
  rewrite Hpend; cbn [Z.eqb negb].
  unfold l4sap_recv_network; cbn [l4sap_recv_loop]; rewrite El2.
  rewrite Hrecv; reflexivity.
Qed.

(** X6. A DATA frame whose sequence number is not the expected one (the copy of
    a frame that was delivered before) is not delivered again: [l4sap_recv]
    answers it with an ACK with [ackno = 1 - seqno] and keeps waiting, the
    entity and the caller's buffer untouched. When the expected DATA frame
    comes next, the call delivers that one, and the wire shows the two ACKs. *)
Theorem l4sap_recv_duplicate_data (c : L2SAP) (s : L4SAP) (data : buffer)
    (os : OS) (dst : Z) (h : L4Header) (pl : buffer)
    (rest : list os_event) :
  l2 s = Some c -> 0 <= socket c < FD_SETSIZE ->
  zlength pl <= L4Payloadsize ->
  inbox os = incoming dst h pl :: rest ->
  hdr_mbz h = 0 -> hdr_type h = L4_DATA -> L4_DATA <> L4_RESET ->
  hdr_seqno h <> expected_seqno s ->
  let ack := ack_wire c (hdr_seqno h) in
  (forall fuel packet,
     zlength packet = L4Framesize ->
     l4sap_recv_loop (S fuel) s data packet os
     = l4sap_recv_loop fuel s data (store packet 0 (l4_frame h pl))
         (sent ack (next os))) /\
  inbox (sent ack (next os)) = rest /\
  (hd false (sendto_fails os) = false ->
   outbox (sent ack (next os)) = outbox os ++ [ack]) /\
  (forall len dst2 h2 pl2 rest2,
     0 < len -> pending_data s = 0 ->
     rest = incoming dst2 h2 pl2 :: rest2 ->
     zlength pl2 <= L4Payloadsize -> zlength pl2 <= zlength data ->
     hdr_mbz h2 = 0 -> hdr_type h2 = L4_DATA ->
     hdr_seqno h2 = expected_seqno s ->
     l4sap_recv (Some s) (Some data) len os
     = Done (zlength pl2,
             Some (set_expected_seqno s (1 - expected_seqno s)),
             pl2 ++ skipn (length pl2) data,
             sent (ack_wire c (hdr_seqno h2))
               (next (sent ack (next os))))).
Proof.
  intros El2 Hfd Hpl Hin Hmbz Ht Hne Hseq ack.
  pose proof (proj1 Hfd) as Hsock.
  pose proof (sizes Hsize) as (S0 & S1 & S2 & S3 & S4).
  assert (Hloop : forall fuel packet,
     zlength packet = L4Framesize ->
     l4sap_recv_loop (S fuel) s data packet os
     = l4sap_recv_loop fuel s data (store packet 0 (l4_frame h pl))
         (sent ack (next os))).
  { intros fuel packet Hpk.
    rewrite (recv_loop_incoming Hsize fuel c s data packet os dst h pl rest)
      by assumption.
    cbv zeta; rewrite Hmbz, Ht; cbn [Z.eqb negb].
    replace (L4_DATA =? L4_RESET) with false by lia.
    replace (hdr_seqno h =? expected_seqno s) with false by lia.
    rewrite Z.eqb_refl.
    reflexivity. }
  assert (Hrest : inbox (sent ack (next os)) = rest).
  { rewrite sent_inbox; unfold next; rewrite Hin; reflexivity. }
  split; [exact Hloop|]. split; [exact Hrest|]. split.
  { intros Hok.
    destruct (sent_accepted ack (next os)) as (_ & E & _); [exact Hok|].
    exact E. }
  intros len dst2 h2 pl2 rest2 Hlen Hpend Hr Hpl2 Hd2 Hmbz2 Ht2 Hseq2.
  rewrite (l4sap_recv_empty_slot s c) by assumption.
  unfold l4sap_recv_network; rewrite Hin.
  cbn [length].
  rewrite Hloop by (apply zlength_memset0; lia).
  rewrite Hr in *.
  rewrite (recv_loop_incoming Hsize _ c s data _ _ dst2 h2 pl2 rest2);
    try assumption.
  2:{ rewrite store_length; try lia;
        rewrite ?zlength_memset0, ?l4_frame_length;
        unfold L4Headersize; try lia. }
  cbv zeta; rewrite Hmbz2, Ht2, Hseq2; cbn [Z.eqb negb].
  replace (L4_DATA =? L4_RESET) with false by lia.
  rewrite !Z.eqb_refl.
  rewrite memcpy_whole by assumption.
  reflexivity.
Qed.

(** X7. A frame that is neither a DATA nor a RESET frame (an ACK, or a type the
    protocol does not know) is dropped by [l4sap_recv] without an answer: the
    call keeps waiting, the entity and the caller's buffer untouched, and
    delivers the expected DATA frame that comes next. *)
Theorem l4sap_recv_ignores_other_types (c : L2SAP) (s : L4SAP)
    (data : buffer) (os : OS) (dst : Z) (h : L4Header) (pl : buffer)
    (rest : list os_event) :
  l2 s = Some c -> 0 <= socket c < FD_SETSIZE ->
  zlength pl <= L4Payloadsize ->
  inbox os = incoming dst h pl :: rest ->
  hdr_type h <> L4_DATA -> hdr_type h <> L4_RESET ->
  (forall fuel packet,
     zlength packet = L4Framesize ->
     l4sap_recv_loop (S fuel) s data packet os
     = l4sap_recv_loop fuel s data (store packet 0 (l4_frame h pl))
         (next os)) /\
  inbox (next os) = rest /\ outbox (next os) = outbox os /\
  (forall len dst2 h2 pl2 rest2,
     0 < len -> pending_data s = 0 ->
     rest = incoming dst2 h2 pl2 :: rest2 ->
     zlength pl2 <= L4Payloadsize -> zlength pl2 <= zlength data ->
     hdr_mbz h2 = 0 -> hdr_type h2 = L4_DATA -> L4_DATA <> L4_RESET ->
     hdr_seqno h2 = expected_seqno s ->
     l4sap_recv (Some s) (Some data) len os
     = Done (zlength pl2,
             Some (set_expected_seqno s (1 - expected_seqno s)),
             pl2 ++ skipn (length pl2) data,
             sent (ack_wire c (hdr_seqno h2)) (next (next os)))).
Proof.
  intros El2 Hfd Hpl Hin Ht1 Ht2.
  pose proof (proj1 Hfd) as Hsock.
  pose proof (sizes Hsize) as (S0 & S1 & S2 & S3 & S4).
  assert (Hloop : forall fuel packet,
     zlength packet = L4Framesize ->
     l4sap_recv_loop (S fuel) s data packet os
     = l4sap_recv_loop fuel s data (store packet 0 (l4_frame h pl))
         (next os)).
  { intros fuel packet Hpk.
    rewrite (recv_loop_incoming Hsize fuel c s data packet os dst h pl rest)
      by assumption.
    cbv zeta.
    replace (hdr_type h =? L4_RESET) with false by lia.
    replace (hdr_type h =? L4_DATA) with false by lia.
    destruct (negb (hdr_mbz h =? 0)); reflexivity. }
  assert (Hrest : inbox (next os) = rest).
  { unfold next; rewrite Hin; reflexivity. }
  split; [exact Hloop|]. split; [exact Hrest|]. split; [reflexivity|].
  intros len dst2 h2 pl2 rest2 Hlen Hpend Hr Hpl2 Hd2 Hmbz2 Hty2 Hne Hseq2.
  rewrite (l4sap_recv_empty_slot s c) by assumption.
  unfold l4sap_recv_network; rewrite Hin.
  cbn [length].
  rewrite Hloop by (apply zlength_memset0; lia).
  rewrite Hr in *.
  rewrite (recv_loop_incoming Hsize _ c s data _ _ dst2 h2 pl2 rest2);
    try assumption.
  2:{ rewrite store_length; try lia;
        rewrite ?zlength_memset0, ?l4_frame_length;
        unfold L4Headersize; try lia. }
  cbv zeta; rewrite Hmbz2, Hty2, Hseq2; cbn [Z.eqb negb].
  replace (L4_DATA =? L4_RESET) with false by lia.
  rewrite !Z.eqb_refl.
  rewrite memcpy_whole by assumption.
  reflexivity.
Qed.

Lemma send_ready_again (c : L2SAP) (s s' : L4SAP) (packet : buffer)
    (len : Z) (rb rb' : buffer) (os os' : OS) :
  send_ready c s packet len rb os ->
  l2 s' = Some c -> zlength rb' = L4Framesize -> sendto_reliable os' ->
  send_ready c s' packet len rb' os'.
Proof.
  intros (_ & H1 & H2 & H3 & _ & _) El2 Hrb Hrel.
  repeat split; try tauto; try lia. apply reliable_hd, Hrel.
Qed.

Lemma stored_frame_length (rb : buffer) (h : L4Header) (pl : buffer) :
  zlength rb = L4Framesize -> zlength pl <= L4Payloadsize ->
  zlength (store rb 0 (l4_frame h pl)) = L4Framesize.
Proof.
  intros Hrb Hpl.
  pose proof (sizes Hsize) as (S0 & S1 & S2 & S3 & S4).
  rewrite store_length; rewrite ?l4_frame_length; unfold L4Headersize; lia.
Qed.

(** X9. A failure of L2 to send the DATA frame is not retried: with a closed
    socket, or when [sendto] fails, [l4sap_send] returns [L4_SEND_FAILED] at
    once, without waiting for an answer, the entity unchanged and nothing
    sent. *)
Theorem l4sap_send_l2_failure (c : L2SAP) (s : L4SAP) (d : buffer)
    (len : Z) (os : OS) :
  l2 s = Some c -> 0 < len -> Z.min len L4Payloadsize <= zlength d ->
  socket c < 0 \/ hd false (sendto_fails os) = true ->
  exists os',
    l4sap_send (Some s) (Some d) len os
    = Done (L4_SEND_FAILED, Some s, os') /\
    inbox os' = inbox os /\ outbox os' = outbox os.
Proof.
  intros El2 Hlen Hd Hfail.
  pose proof (sizes Hsize) as (S0 & S1 & S2 & S3 & S4).
  destruct (l4sap_send_packet Hsize c s d len os El2 Hlen Hd)
    as (Eq & _ & Hpk & Hn).
  rewrite Eq; clear Eq.
  set (n := Z.min len L4Payloadsize) in *.
  set (packet := l4_frame _ _ ++ _) in *.
  change max_retries with (S 4); cbn [l4sap_send_loop]; rewrite El2.
  destruct (Z.ltb_spec (socket c) 0) as [Hbad|Hsock].
  - exists os; unfold l2sap_sendto.
    replace (n + L4Headersize <? 0) with false
      by (unfold L4Headersize; lia).
    replace (n + L4Headersize >? L2Payloadsize) with false
      by (unfold L4Headersize; lia).
    replace (socket c <? 0) with true by lia.
    cbn; auto.
  - destruct Hfail as [Hbad|Hfail]; [lia|].
    rewrite l2sap_sendto_frame by (unfold L4Headersize in *; lia).
    unfold sys_sendto.
    destruct (sendto_fails os) as [|[|] fl]; try discriminate Hfail.
    cbn; eexists; repeat split.
Qed.

(** X10. A DATA frame that arrives while [l4sap_send] waits and the pending
    slot is full is acknowledged and then dropped: the peer gets its ACK, the
    call goes on (here: sends the DATA frame again and is answered by the
    matching ACK), and the entity is left with its old pending slot; the
    payload of the frame is stored nowhere. *)
Theorem l4sap_send_full_slot_drops_data (c : L2SAP) (s : L4SAP)
    (d : buffer) (len : Z) (os : OS) (dst : Z) (h : L4Header)
    (pl : buffer) (dst2 : Z) (h2 : L4Header) (rest : list os_event) :
  l2 s = Some c -> 0 <= socket c < FD_SETSIZE ->
  0 < len -> Z.min len L4Payloadsize <= zlength d ->
  sendto_reliable os ->
  pending_data s <> 0 ->
  zlength pl <= L4Payloadsize ->
  inbox os = incoming dst h pl :: incoming dst2 h2 [] :: rest ->
  hdr_type h = L4_DATA -> L4_DATA <> L4_RESET -> L4_DATA <> L4_ACK ->
  hdr_type h2 = L4_ACK -> L4_ACK <> L4_RESET ->
  hdr_ackno h2 = 1 - send_seqno s ->
  let n := Z.min len L4Payloadsize in
  let frame :=
    l2_frame (peer_addr c) (l4_frame (data_header s) (slice d 0 n)) in
  let ack := ack_wire c (hdr_seqno h) in
  exists os',
    l4sap_send (Some s) (Some d) len os
    = Done (n, Some (set_send_seqno s (1 - send_seqno s)), os') /\
    outbox os' = outbox os ++ [frame; ack; frame] /\
    inbox os' = rest.
Proof.
  intros El2 Hfd Hlen Hd Hrel Hfull Hpl Hin Ht Hne1 Hne2 Ht2 Hne3 Hack
    n frame ack.
  pose proof (proj1 Hfd) as Hsock.
  pose proof (sizes Hsize) as (S0 & S1 & S2 & S3 & S4).
  destruct (l4sap_send_packet Hsize c s d len os El2 Hlen Hd)
    as (Eq & Hw & Hpk & Hn).
  rewrite Eq; clear Eq.
  fold n in Hw, Hpk, Hn |- *.
  set (packet := l4_frame _ _ ++ _) in *.
  fold frame in Hw.
  assert (Hready : send_ready c s packet n (memset0 L4Framesize) os).
  { repeat split; try assumption; try lia.
    - apply zlength_memset0; lia.
    - apply reliable_hd, Hrel. }
  change max_retries with (S 4).
  rewrite (send_loop_incoming Hsize 4 c s packet n _ os dst h pl _ Hready
             Hpl Hin).
  cbv zeta; rewrite Ht, Hw.
  replace (L4_DATA =? L4_RESET) with false by lia.
  replace (L4_DATA =? L4_ACK) with false by lia.
  rewrite Z.eqb_refl.
  replace (pending_data s =? 0) with false by lia.
  fold ack.
  set (os1 := sent ack (next (sent frame os))).
  assert (Hrel1 : sendto_reliable os1)
    by (apply reliable_sent, reliable_next, reliable_sent, Hrel).
  assert (Hin1 : inbox os1 = incoming dst2 h2 [] :: rest).
  { unfold os1; rewrite sent_inbox; unfold next; cbn [inbox].
    rewrite sent_inbox, Hin; reflexivity. }
  set (rb1 := store _ 0 (l4_frame h pl)).
  assert (Hready1 : send_ready c s packet n rb1 os1).
  { apply (send_ready_again c s s packet n _ rb1 os os1 Hready El2);
      [|exact Hrel1].
    apply stored_frame_length; [apply zlength_memset0; lia|exact Hpl]. }
  rewrite (send_loop_ack Hsize 3 c s packet n rb1 os1 dst2 h2 [] rest
             Hready1); try assumption.
  cbn [bind]. rewrite Hw.
  eexists; split; [reflexivity|].
  split.
  - unfold next; cbn [outbox inbox].
    destruct (sent_accepted frame os1) as (_ & E & _);
      [apply reliable_hd, Hrel1|].
    rewrite E; unfold os1.
    destruct (sent_accepted ack (next (sent frame os))) as (_ & E1 & _);
      [apply reliable_hd, reliable_next, reliable_sent, Hrel|].
    rewrite E1; unfold next; cbn [outbox].
    destruct (sent_accepted frame os) as (_ & E2 & _);
      [apply reliable_hd, Hrel|].
    rewrite E2, <- !app_assoc; reflexivity.
  - unfold next; cbn [inbox]. rewrite sent_inbox, Hin1; reflexivity.
Qed.

(** X11. [l4sap_send] and [l4sap_recv] through the pending slot. A DATA frame
    with the expected sequence number that arrives while [l4sap_send] waits for
    its ACK is acknowledged and stored in the empty pending slot; the call then
    succeeds on the matching ACK. The next [l4sap_recv] on the entity returns
    [min(payload length, len)] bytes of that payload without reading the
    socket, sends the ACK a second time, toggles [expected_seqno] and empties
    the slot. *)
Theorem l4sap_send_stash_then_recv (c : L2SAP) (s : L4SAP)
    (d : buffer) (len : Z) (os : OS) (dst : Z) (h : L4Header)
    (pl : buffer) (dst2 : Z) (h2 : L4Header) (rest : list os_event)
    (data : buffer) (blen : Z) :
  l2 s = Some c -> 0 <= socket c < FD_SETSIZE ->
  0 < len -> Z.min len L4Payloadsize <= zlength d ->
  sendto_reliable os ->
  pending_data s = 0 ->
  zlength pl <= L4Payloadsize ->
  zlength pl <= zlength (pending_pl_buffer s) ->
  inbox os = incoming dst h pl :: incoming dst2 h2 [] :: rest ->
  hdr_type h = L4_DATA -> L4_DATA <> L4_RESET -> L4_DATA <> L4_ACK ->
  hdr_seqno h = expected_seqno s ->
  hdr_type h2 = L4_ACK -> L4_ACK <> L4_RESET ->
  hdr_ackno h2 = 1 - send_seqno s ->
  0 < blen -> Z.min (zlength pl) blen <= zlength data ->
  let n := Z.min len L4Payloadsize in
  let k := Z.min (zlength pl) blen in
  let frame :=
    l2_frame (peer_addr c) (l4_frame (data_header s) (slice d 0 n)) in
  let ack := ack_wire c (hdr_seqno h) in
  exists s1 os1,
    l4sap_send (Some s) (Some d) len os = Done (n, Some s1, os1) /\
    outbox os1 = outbox os ++ [frame; ack; frame] /\
    inbox os1 = rest /\
    send_seqno s1 = 1 - send_seqno s /\
    expected_seqno s1 = expected_seqno s /\
    pending_data s1 = 1 /\
    exists s2 os2,
      l4sap_recv (Some s1) (Some data) blen os1
      = Done (k, Some s2, slice pl 0 k ++ skipn (Z.to_nat k) data, os2) /\
      outbox os2 = outbox os1 ++ [ack] /\
      inbox os2 = rest /\
      send_seqno s2 = 1 - send_seqno s /\
      expected_seqno s2 = 1 - expected_seqno s /\
      pending_data s2 = 0.
Proof.
  intros El2 Hfd Hlen Hd Hrel Hempty Hpl Hbuf Hin Ht Hne1 Hne2 Hseq Ht2
    Hne3 Hack Hblen Hdata n k frame ack.
  pose proof (proj1 Hfd) as Hsock.
  pose proof (sizes Hsize) as (S0 & S1 & S2 & S3 & S4).
  destruct (l4sap_send_packet Hsize c s d len os El2 Hlen Hd)
    as (Eq & Hw & Hpk & Hn).
  rewrite Eq; clear Eq.
  fold n in Hw, Hpk, Hn |- *.
  set (packet := l4_frame _ _ ++ _) in *.
  fold frame in Hw.
  assert (Hready : send_ready c s packet n (memset0 L4Framesize) os).
  { repeat split; try assumption; try lia.
    - apply zlength_memset0; lia.
    - apply reliable_hd, Hrel. }
  change max_retries with (S 4).
  rewrite (send_loop_incoming Hsize 4 c s packet n _ os dst h pl _ Hready
             Hpl Hin).
  cbv zeta; rewrite Ht, Hw.
  replace (L4_DATA =? L4_RESET) with false by lia.
  replace (L4_DATA =? L4_ACK) with false by lia.
  rewrite Z.eqb_refl, Hempty; cbn [Z.eqb].
  rewrite memcpy_whole by exact Hbuf; cbn [lift_mem bind].
  fold ack.
  set (os1 := sent ack (next (sent frame os))).
  set (s0 := set_pending s h (zlength pl) _).
  assert (Hrel1 : sendto_reliable os1)
    by (apply reliable_sent, reliable_next, reliable_sent, Hrel).
  assert (Hin1 : inbox os1 = incoming dst2 h2 [] :: rest).
  { unfold os1; rewrite sent_inbox; unfold next; cbn [inbox].
    rewrite sent_inbox, Hin; reflexivity. }
  set (rb1 := store _ 0 (l4_frame h pl)).
  assert (Hready1 : send_ready c s0 packet n rb1 os1).
  { apply (send_ready_again c s s0 packet n _ rb1 os os1 Hready El2);
      [|exact Hrel1].
    apply stored_frame_length;
      [apply zlength_memset0; lia|exact Hpl]. }
  rewrite (send_loop_ack Hsize 3 c s0 packet n rb1 os1 dst2 h2 [] rest
             Hready1); try assumption.
  cbn [bind]. rewrite Hw.
  set (os2 := next (sent frame os1)).
  assert (Hout2 : outbox os2 = outbox os ++ [frame; ack; frame]).
  { unfold os2, next; cbn [outbox inbox].
    destruct (sent_accepted frame os1) as (_ & E & _);
      [apply reliable_hd, Hrel1|].
    rewrite E; unfold os1.
    destruct (sent_accepted ack (next (sent frame os))) as (_ & E1 & _);
      [apply reliable_hd, reliable_next, reliable_sent, Hrel|].
    rewrite E1; unfold next; cbn [outbox].
    destruct (sent_accepted frame os) as (_ & E2 & _);
      [apply reliable_hd, Hrel|].
    rewrite E2, <- !app_assoc; reflexivity. }
  assert (Hin2 : inbox os2 = rest).
  { unfold os2, next; cbn [inbox]. rewrite sent_inbox, Hin1; reflexivity. }
  assert (Hrel2 : sendto_reliable os2)
    by (apply reliable_next, reliable_sent, Hrel1).
  eexists _, os2; split; [reflexivity|].
  do 5 (split; [first [assumption | reflexivity]|]).
  unfold l4sap_recv; clear Hready1; subst s0.
  cbn [l2 set_send_seqno set_pending pending_data pending_header
       pending_pl_len pending_pl_buffer expected_seqno send_seqno].
  rewrite El2.
  replace (blen <=? 0) with false by lia.
  cbn [Z.eqb negb].
  rewrite Ht, Hseq, !Z.eqb_refl; cbn [andb].
  replace (if zlength pl <? blen then zlength pl else blen) with k
    by (unfold k; destruct (Z.ltb_spec (zlength pl) blen); lia).
  assert (Hk : 0 <= k <= zlength pl)
    by (unfold k; pose proof (zlength_nonneg pl); lia).
  rewrite memcpy_ok; try lia.
  2:{ rewrite zlength_app; pose proof (zlength_nonneg
        (skipn (length pl) (pending_pl_buffer s))); lia. }
  cbn [lift_mem bind].
  destruct (send_ack Hsize c (expected_seqno s) os2 Hsock) as (r & Er).
  rewrite Er; cbn [bind].
  rewrite slice_prefix by lia.
  rewrite store_at_0.
  replace (length (slice pl 0 k)) with (Z.to_nat k).
  2:{ pose proof (slice_length pl 0 k) as E; unfold zlength in E.
      unfold zlength in Hk; lia. }
  unfold ack; rewrite Hseq.
  eexists _, _; split; [reflexivity|].
  destruct (sent_accepted (ack_wire c (expected_seqno s)) os2)
    as (_ & E & E' & _); [apply reliable_hd, Hrel2|].
  rewrite E, E', Hin2. repeat split.
Qed.

(** X12. One payload from an entity A to an entity B. The DATA frame that
    [l4sap_send] of A puts on the wire, given to [l4sap_recv] of B (which
    expects its sequence number), makes B deliver the first [min(len,
    L4Payloadsize)] bytes of A's data, return their number, toggle
    [expected_seqno] and put an ACK on the wire; that ACK, given to A, makes
    [l4sap_send] return the same number and toggle [send_seqno]. *)
Theorem l4_send_recv_end_to_end (cA cB : L2SAP) (sA sB : L4SAP)
    (d buf : buffer) (len blen : Z) (osA osB : OS)
    (restA restB : list os_event) :
  l2 sA = Some cA -> 0 <= socket cA < FD_SETSIZE ->
  l2 sB = Some cB -> 0 <= socket cB < FD_SETSIZE ->
  0 <= L4_DATA < 256 -> 0 <= L4_ACK < 256 ->
  L4_DATA <> L4_RESET -> L4_ACK <> L4_RESET ->
  bit (send_seqno sA) -> expected_seqno sB = send_seqno sA ->
  pending_data sB = 0 ->
  0 < len -> 0 < blen ->
  let n := Z.min len L4Payloadsize in
  n <= zlength d -> n <= zlength buf ->
  hd false (sendto_fails osA) = false ->
  hd false (sendto_fails osB) = false ->
  let frame :=
    l2_frame (peer_addr cA) (l4_frame (data_header sA) (slice d 0 n)) in
  let ack := ack_wire cB (send_seqno sA) in
  inbox osA = Datagram ack :: restA ->
  inbox osB = Datagram frame :: restB ->
  exists osA' osB',
    l4sap_send (Some sA) (Some d) len osA
    = Done (n, Some (set_send_seqno sA (1 - send_seqno sA)), osA') /\
    outbox osA' = outbox osA ++ [frame] /\ inbox osA' = restA /\
    l4sap_recv (Some sB) (Some buf) blen osB
    = Done (n, Some (set_expected_seqno sB (1 - expected_seqno sB)),
            slice d 0 n ++ skipn (Z.to_nat n) buf, osB') /\
    outbox osB' = outbox osB ++ [ack] /\ inbox osB' = restB.
Proof.
  intros ElA HfdA ElB HfdB HD HA Hne1 Hne2 Hbit Hexp Hempty Hlen Hblen
    n Hd Hbuf HokA HokB frame ack HinA HinB.
  pose proof (proj1 HfdA) as HsockA.
  pose proof (proj1 HfdB) as HsockB.
  pose proof (sizes Hsize) as (S0 & S1 & S2 & S3 & S4).
  assert (Hseq8 : to_uint8 (send_seqno sA) = send_seqno sA)
    by (apply to_uint8_small; destruct Hbit; lia).
  assert (Hn : 0 <= n <= L4Payloadsize) by (unfold n; lia).
  assert (Hsl : zlength (slice d 0 n) = n) by (apply slice_length; lia).
  (* the sender *)
  destruct (l4sap_send_packet Hsize cA sA d len osA ElA Hlen Hd)
    as (Eq & Hw & Hpk & _).
  fold n in Eq, Hw, Hpk.
  set (packet := l4_frame _ _ ++ _) in *.
  fold frame in Hw.
  assert (Hready : send_ready cA sA packet n (memset0 L4Framesize) osA).
  { repeat split; try assumption; try lia.
    apply zlength_memset0; lia. }
  exists (next (sent frame osA)), (sent ack (next osB)).
  split.
  { rewrite Eq; change max_retries with (S 4).
    rewrite (send_loop_ack Hsize 4 cA sA packet n _ osA (peer_addr cB)
               (mkL4Header (to_uint8 L4_ACK) 0
                  (to_uint8 (1 - send_seqno sA)) 0) [] restA Hready);
      try assumption.
    - cbn [bind]; rewrite Hw; reflexivity.
    - cbn [hdr_type]; apply to_uint8_small; lia.
    - cbn [hdr_ackno]; apply to_uint8_bit, Hbit. }
  split.
  { unfold next; cbn [outbox].
    destruct (sent_accepted frame osA HokA) as (_ & E & _); exact E. }
  split.
  { unfold next; cbn [inbox]; rewrite sent_inbox, HinA; reflexivity. }
  (* the receiver *)
  split.
  { rewrite (l4sap_recv_empty_slot sB cB) by assumption.
    unfold l4sap_recv_network; rewrite HinB; cbn [length].
    rewrite (recv_loop_incoming Hsize _ cB sB buf _ osB (peer_addr cA)
               (data_header sA) (slice d 0 n) restB); try assumption;
      try lia.
    2: apply zlength_memset0; lia.
    cbv zeta; unfold data_header.
    cbn [hdr_mbz hdr_type hdr_seqno Z.eqb negb].
    rewrite Hseq8, Hexp, (to_uint8_small L4_DATA HD), !Z.eqb_refl.
    replace (L4_DATA =? L4_RESET) with false by lia.
    rewrite memcpy_whole by lia.
    cbn [lift_mem bind].
    replace (length (slice d 0 n)) with (Z.to_nat n)
      by (unfold zlength in Hsl; lia).
    rewrite Hsl; reflexivity. }
  split.
  { destruct (sent_accepted ack (next osB)) as (_ & E & _); [exact HokB|].
    exact E. }
  rewrite sent_inbox; unfold next; cbn [inbox]; rewrite HinB; reflexivity.
Qed.

End L4Edges.

Section L4Error.

Context {K : Constants}.

(** X8. An error of L2 is not skipped by [l4sap_recv]. When [select] or
    [recvfrom] fails, [l2sap_recvfrom_timeout] returns [-1], which is not below
    [sizeof(struct L4Header)] once converted to [size_t]. On the first wait of
    a call the zeroed array is then read as a frame: with [L4_DATA = 0] and
    [expected_seqno = 0] it is an expected DATA frame, and its payload is
    copied with a length of [-5]: undefined behaviour. *)
Theorem l4sap_recv_l2_error_fault (c : L2SAP) (s : L4SAP) (data : buffer)
    (len : Z) (os : OS) (e : os_event) (rest : list os_event) :
  0 < L2Framesize ->
  l2 s = Some c -> 0 <= socket c < FD_SETSIZE ->
  0 < len -> pending_data s = 0 ->
  inbox os = e :: rest -> e = SelectFails \/ e = RecvfromFails ->
  L4_DATA = 0 -> L4_RESET <> 0 -> expected_seqno s = 0 ->
  l2sap_recvfrom_timeout (Some c) (Some (memset0 L4Framesize)) L2Framesize
    None os = Done (-1, memset0 L4Framesize, next os) /\
  (to_size_t (-1) <? L4Headersize) = false /\
  payload_len_of (-1) = -5 /\
  l4sap_recv (Some s) (Some data) len os = Fault.
Proof.
  intros HF El2 Hfd Hlen Hpend Hin He HD HR Hexp.
  assert (Hrecv : l2sap_recvfrom_timeout (Some c)
                    (Some (memset0 L4Framesize)) L2Framesize None os
                  = Done (-1, memset0 L4Framesize, next os)).
  { unfold l2sap_recvfrom_timeout, sys_select, sys_recvfrom, next.
    replace (L2Framesize <=? 0) with false by lia.
    rewrite FD_SET_ok by exact Hfd; cbn [bind].
    destruct He as [-> | ->]; rewrite Hin; cbn [bind]; cbn; rewrite ?Hin;
      reflexivity. }
  split; [exact Hrecv|]. split; [reflexivity|]. split; [reflexivity|].
  rewrite (l4sap_recv_empty_slot s c) by assumption.
  unfold l4sap_recv_network; rewrite Hin; cbn [length l4sap_recv_loop].
  rewrite El2, Hrecv; cbn [bind].
  change (-1 =? L2_TIMEOUT) with false.
  change (to_size_t (-1) <? L4Headersize) with false.
  cbv iota.
  assert (Hh : header_at (memset0 L4Framesize) = mkL4Header 0 0 0 0).
  { unfold header_at; rewrite !load8_memset0; reflexivity. }
  rewrite Hh; cbn [hdr_mbz hdr_type hdr_seqno].
  rewrite HD, Hexp.
  replace (0 =? L4_RESET) with false by lia.
  cbn [Z.eqb negb].
  rewrite memcpy_negative by reflexivity.
  reflexivity.
Qed.

End L4Error.

(** ** [l4sap_send] against any peer *)

Section L4AnyPeer.

Context {K : Constants}.
Hypothesis Hsize : framesize_ok.

Lemma slot_kept_refl (s : L4SAP) : slot_kept s s.
Proof. repeat split. Qed.

Lemma slot_trans (s s1 s2 : L4SAP) :
  slot_kept s s1 \/ slot_filled s s1 ->
  slot_kept s1 s2 \/ slot_filled s1 s2 ->
  slot_kept s s2 \/ slot_filled s s2.
Proof.
  intros [(A1 & A2 & A3 & A4)|(A1 & A2 & A3 & A4 & A5)]
         [(B1 & B2 & B3 & B4)|(B1 & B2 & B3 & B4 & B5)].
  - left; repeat split; congruence.
  - right; repeat split; try congruence; try lia.
  - right; repeat split; try congruence; try lia.
  - exfalso; lia.
Qed.

(** The loop of [l4sap_send] against any script of the socket: it returns
    after at most [n] rounds; each round takes at most one event and sends
    at most the DATA frame and one ACK; the pending slot is kept or, if it
    was empty, filled once.  The descriptor is below [FD_SETSIZE]; with a
    negative one [l2sap_sendto] fails before any wait. *)
Lemma l4sap_send_loop_any_peer (c : L2SAP) (packet : buffer) (len : Z)
    (n : nat) :
  forall s rb os,
  l2 s = Some c ->
  0 <= len <= L4Payloadsize ->
  len + L4Headersize <= zlength packet ->
  zlength rb = L4Framesize ->
  L4Payloadsize <= zlength (pending_pl_buffer s) ->
  socket c < FD_SETSIZE ->
  exists r s' os' rounds k,
    l4sap_send_loop n s packet len rb os = Done (r, s', os') /\
    (r = len \/ r = L4_SEND_FAILED \/ r = L4_QUIT) /\
    outbox os' = outbox os ++ concat rounds /\
    (length rounds <= n)%nat /\
    Forall (round_trace c (wire c packet len)) rounds /\
    inbox os' = skipn k (inbox os) /\ (k <= n)%nat /\
    (slot_kept s s' \/ slot_filled s s').
Proof.
  pose proof (sizes Hsize) as (S0 & S1 & S2 & S3 & S4).
  induction n as [|n IH]; intros s rb os El2 Hlen Hpk Hrb Hpend Hfd.
  { exists L4_SEND_FAILED, s, os, [], O; cbn [concat].
    rewrite app_nil_r; repeat split; auto; left; apply slot_kept_refl. }
  (* what the rest of the loop adds after a round *)
  assert (Hnext : forall s1 rb1 os1 round,
    l2 s1 = Some c -> zlength rb1 = L4Framesize ->
    L4Payloadsize <= zlength (pending_pl_buffer s1) ->
    outbox os1 = outbox os ++ round ->
    round_trace c (wire c packet len) round ->
    inbox os1 = inbox os \/ inbox os1 = tl (inbox os) ->
    slot_kept s s1 \/ slot_filled s s1 ->
    exists r s' os' rounds k,
      l4sap_send_loop n s1 packet len rb1 os1 = Done (r, s', os') /\
      (r = len \/ r = L4_SEND_FAILED \/ r = L4_QUIT) /\
      outbox os' = outbox os ++ concat rounds /\
      (length rounds <= S n)%nat /\
      Forall (round_trace c (wire c packet len)) rounds /\
      inbox os' = skipn k (inbox os) /\ (k <= S n)%nat /\
      (slot_kept s s' \/ slot_filled s s')).
  { intros s1 rb1 os1 round E1 Hrb1 Hp1 Hout Hround Hin Hslot.
    destruct (IH s1 rb1 os1 E1 Hlen Hpk Hrb1 Hp1 Hfd)
      as (r & s' & os' & rounds & k & Erun & Hr & Ho & Hl & Hf & Hi & Hk
          & Hs).
    assert (Hk' : exists k', inbox os' = skipn k' (inbox os) /\
                             (k' <= S n)%nat).
    { destruct Hin as [Hin|Hin]; [exists k|exists (S k)];
        rewrite Hi, Hin; split; try lia; [reflexivity|apply skipn_tl]. }
    destruct Hk' as (k' & Hi' & Hk').
    exists r, s', os', (round :: rounds), k'.
    split; [exact Erun|]. split; [exact Hr|].
    split; [cbn [concat]; rewrite Ho, Hout, app_assoc; reflexivity|].
    split; [cbn [length]; lia|].
    split; [constructor; assumption|].
    split; [exact Hi'|]. split; [exact Hk'|].
    exact (slot_trans s s1 s' Hslot Hs). }
  (* the result of a round that ends the call *)
  assert (Hstop : forall r s1 os1 round,
    r = len \/ r = L4_SEND_FAILED \/ r = L4_QUIT ->
    outbox os1 = outbox os ++ round ->
    round_trace c (wire c packet len) round ->
    inbox os1 = inbox os \/ inbox os1 = tl (inbox os) ->
    slot_kept s s1 \/ slot_filled s s1 ->
    exists r' s' os' rounds k,
      Done (r, s1, os1) = Done (r', s', os') /\
      (r' = len \/ r' = L4_SEND_FAILED \/ r' = L4_QUIT) /\
      outbox os' = outbox os ++ concat rounds /\
      (length rounds <= S n)%nat /\
      Forall (round_trace c (wire c packet len)) rounds /\
      inbox os' = skipn k (inbox os) /\ (k <= S n)%nat /\
      (slot_kept s s' \/ slot_filled s s')).
  { intros r s1 os1 round Hr Hout Hround Hin Hslot.
    assert (Hk' : exists k', inbox os1 = skipn k' (inbox os) /\
                             (k' <= S n)%nat).
    { destruct Hin as [Hin|Hin]; [exists O|exists 1%nat];
        rewrite Hin; split; try lia; reflexivity. }
    destruct Hk' as (k' & Hi' & Hk').
    exists r, s1, os1, [round], k'.
    split; [reflexivity|]. split; [exact Hr|].
    split; [cbn [concat]; rewrite app_nil_r; exact Hout|].
    split; [cbn [length]; lia|].
    split; [constructor; [assumption|constructor]|].
    split; [exact Hi'|]. split; [exact Hk'|].
    exact Hslot. }
  cbn [l4sap_send_loop]; rewrite El2.
  destruct (l2sap_sendto_cases c packet (len + L4Headersize) os Hpk)
    as (r0 & os0 & E0 & Hin0 & Hcase0).
  rewrite E0; cbn [bind].
  destruct Hcase0 as [(-> & Hout0)|(-> & _ & Hsock & Hout0)].
  { cbn [Z.ltb Z.compare].
    apply (Hstop L4_SEND_FAILED s os0 []); auto.
    - rewrite app_nil_r; exact Hout0.
    - left; reflexivity.
    - left; apply slot_kept_refl. }
  replace (len + L4Headersize <? 0) with false
    by (unfold L4Headersize; lia).
  fold (wire c packet len) in Hout0.
  set (W := wire c packet len) in *.
  assert (Hrecv := l2sap_recvfrom_timeout_cases c rb L4Framesize
                     (Some (1, 0)) os0).
  destruct (l2sap_recvfrom_timeout (Some c) (Some rb) L4Framesize
              (Some (1, 0)) os0) as [[[r1 rb1] os1]| | |];
    [|exfalso;
      assert (Hx := Hrecv ltac:(lia) ltac:(unfold L2Headersize; lia)
                      (conj Hsock Hfd));
      first [exact Hx | destruct Hx as [Hx _]; discriminate Hx]..].
  destruct Hrecv as (Hr1 & Hrb1 & _ & Hout1 & _ & Hin1);
    [lia | unfold L2Headersize; lia | lia |].
  rewrite Hin0 in Hin1; rewrite Hout0 in Hout1; rewrite Hrb in Hrb1.
  cbn [bind].
  assert (HW : round_trace c W [W]) by (right; left; reflexivity).
  assert (Hkeep : slot_kept s s \/ slot_filled s s)
    by (left; apply slot_kept_refl).
  destruct (r1 =? L2_TIMEOUT); [apply (Hnext s rb1 os1 [W]); auto|].
  destruct (Z.ltb_spec r1 0); [apply (Hnext s rb1 os1 [W]); auto|].
  rewrite to_size_t_small by lia.
  destruct (Z.ltb_spec r1 L4Headersize);
    [apply (Hnext s rb1 os1 [W]); auto|].
  destruct (hdr_type (header_at rb1) =? L4_RESET);
    [apply (Hstop L4_QUIT s os1 [W]); auto|].
  destruct (hdr_type (header_at rb1) =? L4_ACK).
  { destruct (hdr_ackno (header_at rb1) =? 1 - send_seqno s);
      [|apply (Hnext s rb1 os1 [W]); auto].
    apply (Hstop len _ os1 [W]); auto. }
  destruct (Z.eqb_spec (hdr_type (header_at rb1)) L4_DATA) as [Hty|_];
    [|apply (Hnext s rb1 os1 [W]); auto].
  set (q := hdr_seqno (header_at rb1)).
  destruct (l2sap_sendto_cases c (ack_for q) L4Headersize os1)
    as (r2 & os2 & E2 & Hin2 & Hcase2);
    [unfold L4Headersize, zlength; simpl; lia|].
  rewrite E2; cbn [bind].
  assert (H2 : exists round, outbox os2 = outbox os ++ round /\
                             round_trace c W round).
  { destruct Hcase2 as [(_ & Hout2)|(_ & _ & _ & Hout2)].
    - exists [W]; split; [congruence|exact HW].
    - exists [W; ack_wire c q]; split.
      + rewrite Hout2, Hout1, <- app_assoc; reflexivity.
      + right; right; exists q; reflexivity. }
  destruct H2 as (round & Hout2 & Hround).
  rewrite <- Hin2 in Hin1.
  set (pl := if payload_len_of r1 >? L4Payloadsize then L4Payloadsize
             else payload_len_of r1).
  assert (Hplen : 0 <= pl <= L4Payloadsize /\ pl + L4Headersize <= r1).
  { unfold pl.
    replace r1 with ((r1 - L4Headersize) + L4Headersize) by lia.
    rewrite payload_len_of_frame by (unfold L4Headersize in *; lia).
    destruct (Z.gtb_spec (r1 - L4Headersize) L4Payloadsize);
      unfold L4Headersize in *; lia. }
  destruct (Z.eqb_spec (pending_data s) 0) as [Hempty|Hfull];
    [|cbn [bind]; apply (Hnext s rb1 os2 round); auto].
  rewrite memcpy_ok by (unfold L4Headersize in *; lia).
  cbn [lift_mem bind].
  assert (Hst : zlength (store (pending_pl_buffer s) 0
                           (slice rb1 L4Headersize pl))
                = zlength (pending_pl_buffer s)).
  { rewrite store_length; try lia.
    rewrite slice_length; unfold L4Headersize in *; lia. }
  apply (Hnext _ rb1 os2 round); auto.
  - unfold set_pending; cbn [pending_pl_buffer]; lia.
  - right; unfold slot_filled, set_pending.
    cbn [pending_data pending_header pending_pl_len pending_pl_buffer].
    repeat split; try assumption; lia.
Qed.

(** X13. [l4sap_send] is bounded and memory safe against any peer, on a socket
    whose descriptor is below [FD_SETSIZE] (a negative one never reaches
    [FD_SET]: [l2sap_sendto] fails first). Whatever arrives on the socket and
    whatever [sendto] does, a call with [len > 0] on an entity whose pending
    payload array has [L4Payloadsize] bytes returns [min(len, L4Payloadsize)],
    [L4_SEND_FAILED] or [L4_QUIT] after at most five rounds. It takes at most
    five events from the socket, and what it sends is, round by round, nothing,
    the DATA frame, or the DATA frame and one ACK. *)
Theorem l4sap_send_bounded_for_any_peer (c : L2SAP) (s : L4SAP)
    (d : buffer) (len : Z) (os : OS) :
  l2 s = Some c -> socket c < FD_SETSIZE ->
  0 < len -> Z.min len L4Payloadsize <= zlength d ->
  L4Payloadsize <= zlength (pending_pl_buffer s) ->
  let n := Z.min len L4Payloadsize in
  let frame :=
    l2_frame (peer_addr c) (l4_frame (data_header s) (slice d 0 n)) in
  exists r s' os' rounds k,
    l4sap_send (Some s) (Some d) len os = Done (r, Some s', os') /\
    (r = n \/ r = L4_SEND_FAILED \/ r = L4_QUIT) /\
    outbox os' = outbox os ++ concat rounds /\
    (length rounds <= 5)%nat /\
    Forall (round_trace c frame) rounds /\
    inbox os' = skipn k (inbox os) /\ (k <= 5)%nat.
Proof.
  intros El2 Hfd Hlen Hd Hpend n frame.
  pose proof (sizes Hsize) as (S0 & S1 & S2 & S3 & S4).
  destruct (l4sap_send_packet Hsize c s d len os El2 Hlen Hd)
    as (Eq & Hw & Hpk & Hn).
  fold n in Eq, Hw, Hpk, Hn.
  set (packet := l4_frame _ _ ++ _) in *.
  fold frame in Hw.
  destruct (l4sap_send_loop_any_peer c packet n max_retries s
              (memset0 L4Framesize) os El2 Hn Hpk)
    as (r & s' & os' & rounds & k & Erun & Hr & Ho & Hl & Hf & Hi & Hk & _);
    [apply zlength_memset0; lia | exact Hpend | exact Hfd |].
  exists r, s', os', rounds, k.
  rewrite Eq, Erun, <- Hw; cbn [bind].
  repeat split; assumption.
Qed.

(** X14. [l4sap_send] never overwrites a full pending slot. A call leaves the
    slot as it was, or fills the empty slot with one DATA frame whose payload
    length is within [0 .. L4Payloadsize]; the payload array keeps its size. *)
Theorem l4sap_send_pending_slot (c : L2SAP) (s : L4SAP)
    (d : buffer) (len : Z) (os : OS) :
  l2 s = Some c -> socket c < FD_SETSIZE ->
  0 < len -> Z.min len L4Payloadsize <= zlength d ->
  L4Payloadsize <= zlength (pending_pl_buffer s) ->
  exists r s' os',
    l4sap_send (Some s) (Some d) len os = Done (r, Some s', os') /\
    (slot_kept s s' \/ slot_filled s s') /\
    (pending_data s <> 0 -> slot_kept s s') /\
    zlength (pending_pl_buffer s') = zlength (pending_pl_buffer s).
Proof.
  intros El2 Hfd Hlen Hd Hpend.
  pose proof (sizes Hsize) as (S0 & S1 & S2 & S3 & S4).
  destruct (l4sap_send_packet Hsize c s d len os El2 Hlen Hd)
    as (Eq & _ & Hpk & Hn).
  set (n := Z.min len L4Payloadsize) in *.
  set (packet := l4_frame _ _ ++ _) in *.
  destruct (l4sap_send_loop_any_peer c packet n max_retries s
              (memset0 L4Framesize) os El2 Hn Hpk)
    as (r & s' & os' & _ & _ & Erun & _ & _ & _ & _ & _ & _ & Hs);
    [apply zlength_memset0; lia | exact Hpend | exact Hfd |].
  exists r, s', os'.
  rewrite Eq, Erun; cbn [bind].
  split; [reflexivity|]. split; [exact Hs|]. split.
  - intros Hfull; destruct Hs as [Hs|(Hs & _)]; [exact Hs|contradiction].
  - destruct Hs as [(_ & _ & _ & ->)|(_ & _ & _ & _ & Hs)];
      [reflexivity|exact Hs].
Qed.

End L4AnyPeer.

(** * More on the code: the maze solver *)

Lemma to_uint8_land (x : Z) : to_uint8 x = Z.land x 255.
Proof.
  unfold to_uint8; change 255 with (Z.ones 8); now rewrite Z.land_ones.
Qed.

Section MazeFacts.

Context {B : MazeBits}.

(** ** The solver only sets marks *)

Lemma with_mark_idem (a : Z) : with_mark (with_mark a) = with_mark a.
Proof.
  unfold with_mark; rewrite !to_uint8_land.
  apply Z.bits_inj'; intros i Hi.
  rewrite !Z.land_spec, !Z.lor_spec, !Z.land_spec, !Z.lor_spec.
  destruct (Z.testbit a i), (Z.testbit mark i), (Z.testbit 255 i);
    reflexivity.
Qed.

Lemma marks_only_refl (c : buffer) : marks_only c c.
Proof. induction c; constructor; auto. Qed.

Lemma marks_only_trans (a b c : buffer) :
  marks_only a b -> marks_only b c -> marks_only a c.
Proof.
  intros H; revert c; induction H as [|x y a b Hxy Hab IH]; intros c Hc;
    inversion Hc as [|y' z b' c' Hyz Hbc]; subst; constructor.
  - destruct Hxy as [->| ->]; [exact Hyz|].
    destruct Hyz as [->| ->]; [right; reflexivity|].
    right; apply with_mark_idem.
  - apply IH, Hbc.
Qed.

Lemma marks_only_length (a b : buffer) :
  marks_only a b -> zlength b = zlength a.
Proof.
  intros H; unfold zlength; f_equal; symmetry.
  exact (Forall2_length H).
Qed.

Lemma store_one_split (b : buffer) (i v : Z) :
  0 <= i < zlength b ->
  exists pre x post,
    b = pre ++ x :: post /\ length pre = Z.to_nat i /\
    load8 b i = x /\ store b i [v] = pre ++ v :: post.
Proof.
  intros Hi; unfold zlength in Hi.
  destruct (nth_split b 0 (n := Z.to_nat i)) as (pre & post & Hb & Hpre);
    [lia|].
  exists pre, (load8 b i), post.
  split; [exact Hb|]. split; [exact Hpre|]. split; [reflexivity|].
  unfold store; rewrite Hb at 1 2; fold (load8 b i).
  rewrite firstn_app, skipn_app, <- Hpre.
  rewrite firstn_all, Nat.sub_diag, skipn_all2 by (simpl; lia).
  simpl length.
  replace (length pre + 1 - length pre)%nat with 1%nat by lia.
  simpl; rewrite app_nil_r; reflexivity.
Qed.

Lemma marks_only_store (c : buffer) (i : Z) :
  0 <= i < zlength c ->
  marks_only c (store c i [with_mark (load8 c i)]).
Proof.
  intros Hi.
  destruct (store_one_split c i (with_mark (load8 c i)) Hi)
    as (pre & x & post & Hc & _ & Hx & Hs).
  rewrite Hs, Hx; rewrite Hc at 1.
  apply Forall2_app; [apply marks_only_refl|].
  constructor; [right; reflexivity|apply marks_only_refl].
Qed.

Lemma maze_kept_refl (m : Maze) : maze_kept m m.
Proof. repeat split; apply marks_only_refl. Qed.

Lemma maze_kept_trans (a b c : Maze) :
  maze_kept a b -> maze_kept b c -> maze_kept a c.
Proof.
  intros (A1 & A2 & A3 & A4 & A5 & A6) (B1 & B2 & B3 & B4 & B5 & B6).
  repeat split; try congruence.
  exact (marks_only_trans _ _ _ A6 B6).
Qed.

Lemma mark_cell_kept (m m' : Maze) (idx : Z) :
  mark_cell m idx = Done m' -> maze_kept m m'.
Proof.
  unfold mark_cell, read8, write8.
  destruct ((0 <=? idx) && (idx <? zlength (maze m))) eqn:E;
    cbn [bind]; [|discriminate].
  rewrite ?E; cbn [bind]; intros H; inversion H; subst; clear H.
  repeat split; cbn [maze set_maze].
  apply marks_only_store; lia.
Qed.

Lemma dfs_neighbour_marks_only
    (call : Maze -> Z -> Z -> buffer -> outcome (Z * Maze * buffer))
    (m : Maze) (idx cell out_bit in_bit x' y' : Z) (visited : buffer)
    (r : Z) (m' : Maze) (v' : buffer) :
  (forall m x y v r m' v',
     call m x y v = Done (r, m', v') -> dfs_result_ok m r m') ->
  dfs_neighbour call m idx cell out_bit in_bit x' y' visited
  = Done (r, m', v') ->
  dfs_result_ok m r m'.
Proof.
  intros Hrec H; unfold dfs_neighbour in H.
  repeat (step_run H; try (inversion H; subst; left; auto; fail)).
  all: try discriminate H.
  all: match goal with
       | E : _ _ _ _ _ = Done (_, _, _) |- _ =>
           apply Hrec in E; rename E into Hr
       end.
  - inversion H; subst; clear H.
    destruct Hr as [(_ & ->)|(Hz & _)]; [left; auto|].
    subst; discriminate.
  - inversion H; subst; clear H.
    destruct Hr as [(-> & _)|(_ & Hk)]; [discriminate|].
    right; split; [reflexivity|].
    eapply maze_kept_trans; [exact Hk|eapply mark_cell_kept; eassumption].
Qed.

Lemma dfs_cells_marks_only (fuel : nat) :
  forall m x y v r m' v',
  dfs_cells fuel m x y v = Done (r, m', v') -> dfs_result_ok m r m'.
Proof.
  induction fuel as [|fuel IH]; intros m x y v r m' v' H;
    [discriminate H|].
  cbn [dfs_cells] in H.
  step_run H. step_run H. step_run H.
  { inversion H; subst; left; auto. }
  step_run H. step_run H.
  { inversion H; subst; left; auto. }
  step_run H.
  { step_run H; inversion H; subst; clear H.
    right; split; [reflexivity|eapply mark_cell_kept; eassumption]. }
  step_run H. step_run H.
  assert (Hdir : forall m0 idx cell o i x' y' v0 r0 m1 v1,
            dfs_neighbour (dfs_cells fuel) m0 idx cell o i x' y' v0
            = Done (r0, m1, v1) -> dfs_result_ok m0 r0 m1)
    by (intros; eapply dfs_neighbour_marks_only; eauto).
  do 4
    (match type of H with
     | bind ?c _ = _ =>
         destruct c as [[[? ?] ?]| | |] eqn:Ed; cbn [bind] in H;
         try discriminate H; cbn beta iota in H
     end;
     apply Hdir in Ed;
     destruct Ed as [(-> & ->)|(-> & Hk)];
     cbn [Z.eqb negb] in H;
     [|inversion H; subst; right; auto]).
  inversion H; subst; left; auto.
Qed.

(** ** The grid and the visited cells *)

Lemma is_valid_spec (x y n : Z) :
  is_valid x y n = true <-> 0 <= x < n /\ 0 <= y < n.
Proof. unfold is_valid; rewrite !andb_true_iff; lia. Qed.

Lemma cell_index_range (m : Maze) (x y : Z) :
  is_valid x y (edgeLen m) = true ->
  0 <= cell_index m x y < edgeLen m * edgeLen m.
Proof. rewrite is_valid_spec; unfold cell_index; nia. Qed.

Lemma cell_index_inj (m : Maze) (x y x' y' : Z) :
  is_valid x y (edgeLen m) = true -> is_valid x' y' (edgeLen m) = true ->
  cell_index m x y = cell_index m x' y' -> x = x' /\ y = y'.
Proof.
  rewrite !is_valid_spec; unfold cell_index; intros H H' E.
  assert (y = y') by nia. subst; lia.
Qed.

Lemma int_of_ok (v : Z) : - 2 ^ 31 <= v < 2 ^ 31 -> int_of v = Done v.
Proof.
  intros H; unfold int_of.
  replace ((- 2 ^ 31 <=? v) && (v <? 2 ^ 31)) with true; [reflexivity|].
  symmetry; apply andb_true_iff; lia.
Qed.

Lemma read8_ok (b : buffer) (i : Z) :
  0 <= i < zlength b -> read8 b i = Done (load8 b i).
Proof.
  intros H; unfold read8.
  replace ((0 <=? i) && (i <? zlength b)) with true; [reflexivity|].
  symmetry; apply andb_true_iff; lia.
Qed.

Lemma write8_ok (b : buffer) (i v : Z) :
  0 <= i < zlength b -> write8 b i v = Done (store b i [v]).
Proof.
  intros H; unfold write8.
  replace ((0 <=? i) && (i <? zlength b)) with true; [reflexivity|].
  symmetry; apply andb_true_iff; lia.
Qed.

(** *** Writing one cell *)

Lemma load8_app_r (pre post : buffer) (i : Z) :
  0 <= i -> Z.to_nat i = length pre ->
  forall x, load8 (pre ++ x :: post) i = x.
Proof.
  intros Hi E x; unfold load8; rewrite E, app_nth2, Nat.sub_diag by lia.
  reflexivity.
Qed.

Lemma load8_app_other (pre post : buffer) (i j : Z) (x y : Z) :
  0 <= i -> 0 <= j -> Z.to_nat i = length pre -> j <> i ->
  load8 (pre ++ x :: post) j = load8 (pre ++ y :: post) j.
Proof.
  intros Hi Hj E Hne; unfold load8.
  destruct (Nat.lt_ge_cases (Z.to_nat j) (length pre)) as [Hlt|Hge].
  - rewrite !app_nth1 by lia; reflexivity.
  - rewrite !app_nth2 by lia.
    destruct (Z.to_nat j - length pre)%nat as [|k] eqn:Ek; [lia|].
    reflexivity.
Qed.

Lemma load8_store_same (b : buffer) (i v : Z) :
  0 <= i < zlength b -> load8 (store b i [v]) i = v.
Proof.
  intros Hi.
  destruct (store_one_split b i v Hi) as (pre & x & post & _ & Hp & _ & ->).
  apply load8_app_r; lia.
Qed.

Lemma load8_store_other (b : buffer) (i j v : Z) :
  0 <= i < zlength b -> 0 <= j -> j <> i ->
  load8 (store b i [v]) j = load8 b j.
Proof.
  intros Hi Hj Hne.
  destruct (store_one_split b i v Hi) as (pre & x & post & Hb & Hp & _ & ->).
  rewrite Hb.
  apply load8_app_other with (i := i); lia.
Qed.

Lemma zlength_store_one (b : buffer) (i v : Z) :
  0 <= i < zlength b -> zlength (store b i [v]) = zlength b.
Proof.
  intros Hi; apply store_length; [lia|].
  unfold zlength at 1; simpl; lia.
Qed.

(** *** The visited cells *)

Lemma visited_more_refl (v : buffer) : visited_more v v.
Proof. induction v; constructor; auto. Qed.

Lemma visited_more_trans (a b c : buffer) :
  visited_more a b -> visited_more b c -> visited_more a c.
Proof.
  intros H; revert c; induction H as [|x y a b Hxy Hab IH]; intros c Hc;
    inversion Hc as [|y' z b' c' Hyz Hbc]; subst; constructor.
  - intros Hx; apply Hyz, Hxy, Hx.
  - apply IH, Hbc.
Qed.

Lemma visited_more_length (a b : buffer) :
  visited_more a b -> zlength b = zlength a.
Proof.
  intros H; unfold zlength; f_equal; symmetry; exact (Forall2_length H).
Qed.

Lemma visited_more_unvisited (a b : buffer) :
  visited_more a b -> (unvisited b <= unvisited a)%nat.
Proof.
  unfold unvisited; induction 1 as [|x y a b Hxy Hab IH]; [simpl; lia|].
  cbn [count_occ].
  destruct (Z.eq_dec x 0), (Z.eq_dec y 0); lia.
Qed.

Lemma visited_more_load (a b : buffer) (i : Z) :
  visited_more a b -> load8 a i <> 0 -> load8 b i <> 0.
Proof.
  unfold load8; generalize (Z.to_nat i) as k.
  intros k H; revert k; induction H as [|x y a b Hxy Hab IH];
    intros [|k]; simpl; auto.
Qed.

Lemma visit_cell (v : buffer) (i : Z) :
  0 <= i < zlength v -> load8 v i = 0 ->
  let v' := store v i [1] in
  visited_more v v' /\ (unvisited v' < unvisited v)%nat.
Proof.
  intros Hi Hz; cbv zeta.
  destruct (store_one_split v i 1 Hi) as (pre & x & post & Hb & _ & Hx & ->).
  rewrite Hz in Hx; subst x.
  rewrite Hb; split.
  - apply Forall2_app; [apply visited_more_refl|].
    constructor; [intros []; reflexivity|apply visited_more_refl].
  - unfold unvisited; rewrite !count_occ_app; cbn [count_occ].
    destruct (Z.eq_dec 0 0); [|contradiction].
    destruct (Z.eq_dec 1 0); [discriminate|]. lia.
Qed.

(** ** The search *)

Lemma open_between_valid (m : Maze) (x y x' y' o i : Z) :
  open_between m x y x' y' o i = true ->
  is_valid x' y' (edgeLen m) = true.
Proof.
  unfold open_between; rewrite !andb_true_iff; tauto.
Qed.

Lemma passage_valid (m : Maze) (p q : Z * Z) :
  passage m p q = true -> is_valid (fst q) (snd q) (edgeLen m) = true.
Proof.
  destruct p as [x y], q as [x' y']; unfold passage; cbn [fst snd].
  rewrite !orb_true_iff, !andb_true_iff.
  intros [[[H|H]|H]|H]; eapply open_between_valid, (proj2 H).
Qed.

Lemma zlength_marked (cells : buffer) (i : Z) :
  0 <= i < zlength cells -> zlength (marked cells i) = zlength cells.
Proof. apply zlength_store_one. Qed.

Lemma mark_route_length (m : Maze) (cells : buffer) (route : list (Z * Z)) :
  edgeLen m * edgeLen m <= zlength cells ->
  forall p, is_valid (fst p) (snd p) (edgeLen m) = true ->
  is_path m p route = true ->
  zlength (mark_route m (p :: route) cells) = zlength cells.
Proof.
  intros Hn; induction route as [|q route IH]; intros [x y] Hp Hpath;
    cbn [fst snd] in Hp.
  - cbn [mark_route]; apply zlength_marked.
    pose proof (cell_index_range m x y Hp); lia.
  - cbn [is_path] in Hpath; apply andb_true_iff in Hpath.
    destruct Hpath as [Hq Hpath].
    specialize (IH q (passage_valid _ _ _ Hq) Hpath).
    change (mark_route m ((x, y) :: q :: route) cells)
      with (marked (mark_route m (q :: route) cells) (cell_index m x y)).
    rewrite zlength_marked; [exact IH|].
    pose proof (cell_index_range m x y Hp); lia.
Qed.

Lemma mark_cell_ok (m : Maze) (idx : Z) :
  0 <= idx < zlength (maze m) ->
  mark_cell m idx = Done (set_maze m (marked (maze m) idx)).
Proof.
  intros H; unfold mark_cell.
  rewrite read8_ok by exact H; cbn [bind].
  rewrite write8_ok by exact H; reflexivity.
Qed.

Lemma explored_refl (m : Maze) (v : buffer) : explored m v v.
Proof. intros x y x' y' _ H0 H1; contradiction. Qed.

Lemma dfs_neighbour_spec
    (call : Maze -> Z -> Z -> buffer -> outcome (Z * Maze * buffer))
    (fuel : nat) (m : Maze) (x y x' y' o i : Z) (v : buffer) :
  well_formed m ->
  (forall x y v,
     dfs_pre fuel m x y v ->
     exists res, call m x y v = Done res /\ dfs_post m x y v res) ->
  is_valid x y (edgeLen m) = true ->
  -1 <= x' - x <= 1 -> -1 <= y' - y <= 1 ->
  zlength v = edgeLen m * edgeLen m ->
  end_unvisited m v -> (unvisited v < fuel)%nat ->
  exists r m' v',
    dfs_neighbour call m (cell_index m x y)
      (load8 (maze m) (cell_index m x y)) o i x' y' v
    = Done (r, m', v') /\
    visited_more v v' /\ end_unvisited m v' /\
    ((r = 0 /\ m' = m /\ explored m v v' /\
      (open_between m x y x' y' o i = true ->
       load8 v' (cell_index m x' y') <> 0)) \/
     (r = 1 /\ open_between m x y x' y' o i = true /\
      exists route,
        is_path m (x', y') route = true /\
        m' = set_maze m
               (marked (mark_route m ((x', y') :: route) (maze m))
                  (cell_index m x y)))).
Proof.
  intros (Hn & Hnn & Hcells) Hcall Hxy Hx' Hy' Hv Hend Hfuel.
  pose proof (proj1 (is_valid_spec _ _ _) Hxy) as Hr.
  assert (Hnb : edgeLen m < 2 ^ 31) by nia.
  pose proof (cell_index_range m x y Hxy) as Hidx.
  assert (Hstay : forall b : bool, b = false ->
            (open_between m x y x' y' o i = true -> b = true) ->
            exists r m' v',
              Done (0, m, v) = Done (r, m', v') /\
              visited_more v v' /\ end_unvisited m v' /\
              ((r = 0 /\ m' = m /\ explored m v v' /\
                (open_between m x y x' y' o i = true ->
                 load8 v' (cell_index m x' y') <> 0)) \/
               (r = 1 /\ open_between m x y x' y' o i = true /\
                exists route,
                  is_path m (x', y') route = true /\
                  m' = set_maze m
                         (marked (mark_route m ((x', y') :: route) (maze m))
                            (cell_index m x y))))).
  { intros b Hb Hopen; exists 0, m, v.
    split; [reflexivity|]. split; [apply visited_more_refl|].
    split; [exact Hend|]. left.
    split; [reflexivity|]. split; [reflexivity|].
    split; [apply explored_refl|].
    intros Ho; rewrite (Hopen Ho) in Hb; discriminate. }
  unfold dfs_neighbour.
  destruct (Z.land (load8 (maze m) (cell_index m x y)) o =? 0) eqn:Eo.
  { apply (Hstay (negb true) eq_refl).
    unfold open_between; rewrite Eo; cbn; discriminate. }
  rewrite (int_of_ok x'), (int_of_ok y') by lia; cbn [bind].
  destruct (is_valid x' y' (edgeLen m)) eqn:Ev; cbn [negb].
  2:{ apply (Hstay false eq_refl).
      unfold open_between; rewrite Ev, andb_false_r; cbn; discriminate. }
  pose proof (proj1 (is_valid_spec _ _ _) Ev) as Hr'.
  pose proof (cell_index_range m x' y' Ev) as Hidx'.
  rewrite (int_of_ok (y' * edgeLen m)) by nia; cbn [bind].
  fold (cell_index m x' y').
  rewrite (int_of_ok (cell_index m x' y')) by lia; cbn [bind].
  rewrite read8_ok by lia; cbn [bind].
  destruct (load8 v (cell_index m x' y') =? 0) eqn:Eseen; cbn [negb].
  2:{ exists 0, m, v.
      split; [reflexivity|]. split; [apply visited_more_refl|].
      split; [exact Hend|]. left.
      split; [reflexivity|]. split; [reflexivity|].
      split; [apply explored_refl|].
      intros _; apply Z.eqb_neq, Eseen. }
  apply Z.eqb_eq in Eseen.
  rewrite read8_ok by lia; cbn [bind].
  destruct (Z.land (load8 (maze m) (cell_index m x' y')) i =? 0) eqn:Ei.
  { apply (Hstay (negb true) eq_refl).
    unfold open_between; rewrite Ei, andb_false_r; discriminate. }
  assert (Hopen : open_between m x y x' y' o i = true).
  { unfold open_between; rewrite Eo, Ev, Ei; reflexivity. }
  destruct (Hcall x' y' v) as ([[r1 m1] v1] & Ecall & Hmore & Hend1 & Hres).
  { repeat split; assumption. }
  rewrite Ecall; cbn [bind].
  destruct Hres as [(-> & -> & Hvis & Hexp)|(-> & route & Hpath & ->)].
  - cbn [Z.eqb]. exists 0, m, v1.
    split; [reflexivity|]. split; [exact Hmore|]. split; [exact Hend1|].
    left; repeat split; auto.
  - cbn [Z.eqb].
    rewrite mark_cell_ok.
    2:{ cbn [maze set_maze].
        rewrite (mark_route_length m (maze m) route Hcells (x', y') Ev Hpath).
        lia. }
    cbn [bind]. eexists 1, _, v1.
    split; [reflexivity|]. split; [exact Hmore|]. split; [exact Hend1|].
    right; split; [reflexivity|]. split; [exact Hopen|].
    exists route; split; [exact Hpath|reflexivity].
Qed.

Lemma dfs_found_step (m : Maze) (x y x' y' : Z) (route : list (Z * Z))
    (m' : Maze) :
  passage m (x, y) (x', y') = true ->
  is_path m (x', y') route = true ->
  m' = set_maze m
         (marked (mark_route m ((x', y') :: route) (maze m))
            (cell_index m x y)) ->
  dfs_found m x y m'.
Proof.
  intros Hp Hr ->; exists ((x', y') :: route); split; [|reflexivity].
  cbn [is_path]; rewrite Hp, Hr; reflexivity.
Qed.

Lemma passage_cases (m : Maze) (x y x' y' : Z) :
  passage m (x, y) (x', y') = true ->
  (x' = x + 1 /\ y' = y /\ open_between m x y (x + 1) y right left = true) \/
  (x' = x - 1 /\ y' = y /\ open_between m x y (x - 1) y left right = true) \/
  (x' = x /\ y' = y + 1 /\ open_between m x y x (y + 1) down up = true) \/
  (x' = x /\ y' = y - 1 /\ open_between m x y x (y - 1) up down = true).
Proof.
  unfold passage; rewrite !orb_true_iff, !andb_true_iff, !Z.eqb_eq.
  intros [[[((-> & ->) & H)|((-> & ->) & H)]|((-> & ->) & H)]
         |((-> & ->) & H)]; tauto.
Qed.

Lemma passage_right (m : Maze) (x y : Z) :
  open_between m x y (x + 1) y right left = true ->
  passage m (x, y) (x + 1, y) = true.
Proof. intros H; unfold passage; rewrite H, !Z.eqb_refl; reflexivity. Qed.

Lemma passage_left (m : Maze) (x y : Z) :
  open_between m x y (x - 1) y left right = true ->
  passage m (x, y) (x - 1, y) = true.
Proof.
  intros H; unfold passage.
  rewrite !orb_true_iff, !andb_true_iff, !Z.eqb_eq; intuition lia.
Qed.

Lemma passage_down (m : Maze) (x y : Z) :
  open_between m x y x (y + 1) down up = true ->
  passage m (x, y) (x, y + 1) = true.
Proof.
  intros H; unfold passage.
  rewrite !orb_true_iff, !andb_true_iff, !Z.eqb_eq; intuition lia.
Qed.

Lemma passage_up (m : Maze) (x y : Z) :
  open_between m x y x (y - 1) up down = true ->
  passage m (x, y) (x, y - 1) = true.
Proof.
  intros H; unfold passage.
  rewrite !orb_true_iff, !andb_true_iff, !Z.eqb_eq; intuition lia.
Qed.

Lemma dfs_cells_spec (fuel : nat) :
  forall m x y v,
  well_formed m -> dfs_pre fuel m x y v ->
  exists res, dfs_cells fuel m x y v = Done res /\ dfs_post m x y v res.
Proof.
  induction fuel as [|fuel IH];
    intros m x y v Hwf (Hv & Hend & Hxy & Hnew & Hfuel); [lia|].
  pose proof Hwf as (Hn & Hnn & Hcells).
  pose proof (proj1 (is_valid_spec _ _ _) Hxy) as Hr.
  pose proof (cell_index_range m x y Hxy) as Hidx.
  cbn [dfs_cells].
  rewrite (int_of_ok (y * edgeLen m)) by nia; cbn [bind].
  fold (cell_index m x y).
  rewrite (int_of_ok (cell_index m x y)) by lia; cbn [bind].
  replace (cell_index m x y <? 0) with false by lia.
  rewrite (int_of_ok (edgeLen m * edgeLen m)) by lia; cbn [bind].
  replace (cell_index m x y >=? edgeLen m * edgeLen m) with false by lia.
  destruct ((x =? endX m) && (y =? endY m)) eqn:Eend.
  { rewrite mark_cell_ok by lia; cbn [bind].
    eexists; split; [reflexivity|].
    split; [apply visited_more_refl|]. split; [exact Hend|].
    right; split; [reflexivity|].
    exists []; split; [exact Eend|reflexivity]. }
  rewrite write8_ok by lia; cbn [bind].
  rewrite read8_ok by lia; cbn [bind].
  set (v0 := store v (cell_index m x y) [1]).
  destruct (visit_cell v (cell_index m x y)) as [Hm0 Hu0]; [lia|exact Hnew|].
  fold v0 in Hm0, Hu0.
  assert (Hv0 : zlength v0 = edgeLen m * edgeLen m)
    by (rewrite (visited_more_length _ _ Hm0); exact Hv).
  assert (Hself : load8 v0 (cell_index m x y) <> 0).
  { unfold v0; rewrite load8_store_same by lia; discriminate. }
  assert (Hend0 : end_unvisited m v0).
  { intros HE; unfold v0; rewrite load8_store_other; try lia.
    - apply Hend, HE.
    - pose proof (cell_index_range m _ _ HE); lia.
    - intros E.
      destruct (cell_index_inj m _ _ _ _ HE Hxy E) as [E1 E2].
      rewrite <- E1, <- E2, !Z.eqb_refl in Eend; discriminate. }
  assert (Hcall : forall x y v,
            dfs_pre fuel m x y v ->
            exists res, dfs_cells fuel m x y v = Done res /\
                        dfs_post m x y v res)
    by (intros; apply IH; assumption).
  (* the four neighbours *)
  destruct (dfs_neighbour_spec (dfs_cells fuel) fuel m x y (x + 1) y
              right left v0 Hwf Hcall Hxy)
    as (r1 & m1 & v1 & E1 & Hm1 & Hend1 & Hres1); try lia; try assumption.
  rewrite E1; cbn [bind].
  destruct Hres1 as [(-> & -> & Hx1 & Ho1)|(-> & Ho1 & route & Hp & Hm')].
  2:{ cbn [Z.eqb negb]. eexists; split; [reflexivity|].
      split; [exact (visited_more_trans _ _ _ Hm0 Hm1)|].
      split; [exact Hend1|]. right; split; [reflexivity|].
      exact (dfs_found_step m x y _ _ route m1 (passage_right _ _ _ Ho1)
               Hp Hm'). }
  cbn [Z.eqb negb].
  assert (Hv1 : zlength v1 = edgeLen m * edgeLen m)
    by (rewrite (visited_more_length _ _ Hm1); exact Hv0).
  pose proof (visited_more_unvisited _ _ Hm1) as Hu1.
  destruct (dfs_neighbour_spec (dfs_cells fuel) fuel m x y (x - 1) y
              left right v1 Hwf Hcall Hxy)
    as (r2 & m2 & v2 & E2 & Hm2 & Hend2 & Hres2); try lia; try assumption.
  rewrite E2; cbn [bind].
  destruct Hres2 as [(-> & -> & Hx2 & Ho2)|(-> & Ho2 & route & Hp & Hm')].
  2:{ cbn [Z.eqb negb]. eexists; split; [reflexivity|].
      split; [exact (visited_more_trans _ _ _ Hm0
                       (visited_more_trans _ _ _ Hm1 Hm2))|].
      split; [exact Hend2|]. right; split; [reflexivity|].
      exact (dfs_found_step m x y _ _ route m2 (passage_left _ _ _ Ho2)
               Hp Hm'). }
  cbn [Z.eqb negb].
  assert (Hv2 : zlength v2 = edgeLen m * edgeLen m)
    by (rewrite (visited_more_length _ _ Hm2); exact Hv1).
  pose proof (visited_more_unvisited _ _ Hm2) as Hu2.
  destruct (dfs_neighbour_spec (dfs_cells fuel) fuel m x y x (y + 1)
              down up v2 Hwf Hcall Hxy)
    as (r3 & m3 & v3 & E3 & Hm3 & Hend3 & Hres3); try lia; try assumption.
  rewrite E3; cbn [bind].
  destruct Hres3 as [(-> & -> & Hx3 & Ho3)|(-> & Ho3 & route & Hp & Hm')].
  2:{ cbn [Z.eqb negb]. eexists; split; [reflexivity|].
      split; [exact (visited_more_trans _ _ _ Hm0
                       (visited_more_trans _ _ _ Hm1
                          (visited_more_trans _ _ _ Hm2 Hm3)))|].
      split; [exact Hend3|]. right; split; [reflexivity|].
      exact (dfs_found_step m x y _ _ route m3 (passage_down _ _ _ Ho3)
               Hp Hm'). }
  cbn [Z.eqb negb].
  assert (Hv3 : zlength v3 = edgeLen m * edgeLen m)
    by (rewrite (visited_more_length _ _ Hm3); exact Hv2).
  pose proof (visited_more_unvisited _ _ Hm3) as Hu3.
  destruct (dfs_neighbour_spec (dfs_cells fuel) fuel m x y x (y - 1)
              up down v3 Hwf Hcall Hxy)
    as (r4 & m4 & v4 & E4 & Hm4 & Hend4 & Hres4); try lia; try assumption.
  rewrite E4; cbn [bind].
  assert (Hm04 : visited_more v0 v4)
    by exact (visited_more_trans _ _ _ Hm1
                (visited_more_trans _ _ _ Hm2
                   (visited_more_trans _ _ _ Hm3 Hm4))).
  destruct Hres4 as [(-> & -> & Hx4 & Ho4)|(-> & Ho4 & route & Hp & Hm')].
  2:{ cbn [Z.eqb negb]. eexists; split; [reflexivity|].
      split; [exact (visited_more_trans _ _ _ Hm0 Hm04)|].
      split; [exact Hend4|]. right; split; [reflexivity|].
      exact (dfs_found_step m x y _ _ route m4 (passage_up _ _ _ Ho4)
               Hp Hm'). }
  cbn [Z.eqb negb].
  eexists; split; [reflexivity|].
  split; [exact (visited_more_trans _ _ _ Hm0 Hm04)|].
  split; [exact Hend4|]. left.
  split; [reflexivity|]. split; [reflexivity|].
  split; [exact (visited_more_load _ _ _ Hm04 Hself)|].
  (* every cell visited by this call is explored *)
  intros cx cy dx dy Hc Hc0 Hc4 Hpass.
  assert (H14 : forall k, load8 v1 k <> 0 -> load8 v4 k <> 0).
  { intros k; apply visited_more_load.
    exact (visited_more_trans _ _ _ Hm2
             (visited_more_trans _ _ _ Hm3 Hm4)). }
  assert (H24 : forall k, load8 v2 k <> 0 -> load8 v4 k <> 0).
  { intros k; apply visited_more_load.
    exact (visited_more_trans _ _ _ Hm3 Hm4). }
  assert (H34 : forall k, load8 v3 k <> 0 -> load8 v4 k <> 0)
    by (intros k; apply visited_more_load; exact Hm4).
  destruct (Z.eq_dec (cell_index m cx cy) (cell_index m x y)) as [E|Hne].
  - destruct (cell_index_inj m _ _ _ _ Hc Hxy E) as [-> ->].
    destruct (passage_cases m x y dx dy Hpass)
      as [(-> & -> & H)|[(-> & -> & H)|[(-> & -> & H)|(-> & -> & H)]]];
      auto.
  - assert (Hc00 : load8 v0 (cell_index m cx cy) = 0).
    { unfold v0; rewrite load8_store_other; try lia.
      pose proof (cell_index_range m _ _ Hc); lia. }
    destruct (Z.eq_dec (load8 v1 (cell_index m cx cy)) 0) as [Hc1|Hc1];
      [|apply H14; eapply Hx1; eauto].
    destruct (Z.eq_dec (load8 v2 (cell_index m cx cy)) 0) as [Hc2|Hc2];
      [|apply H24; eapply Hx2; eauto].
    destruct (Z.eq_dec (load8 v3 (cell_index m cx cy)) 0) as [Hc3|Hc3];
      [|apply H34; eapply Hx3; eauto].
    eapply Hx4; eauto.
Qed.

Lemma unvisited_memset0 (n : Z) : unvisited (memset0 n) = Z.to_nat n.
Proof.
  unfold unvisited, memset0; induction (Z.to_nat n) as [|k IH]; simpl; auto.
Qed.

(** A search that fails has visited the start and explored every cell it
    visited, without visiting the end: no path leads to the end. *)
Lemma explored_no_path (m : Maze) (v v' : buffer) :
  (forall i, load8 v i = 0) -> explored m v v' -> end_unvisited m v' ->
  forall route p,
    is_valid (fst p) (snd p) (edgeLen m) = true ->
    load8 v' (cell_index m (fst p) (snd p)) <> 0 ->
    is_path m p route = false.
Proof.
  intros Hzero Hexp Hend; induction route as [|q route IH];
    intros [x y] Hp Hvis; cbn [fst snd] in *.
  - cbn [is_path fst snd].
    destruct (Z.eqb_spec x (endX m)) as [->|]; [|reflexivity].
    destruct (Z.eqb_spec y (endY m)) as [->|]; [|reflexivity].
    exfalso; apply Hvis, Hend, Hp.
  - cbn [is_path].
    destruct (passage m (x, y) q) eqn:Hq; [|reflexivity].
    destruct q as [x' y']; cbn [andb].
    apply IH; cbn [fst snd].
    + exact (passage_valid _ _ _ Hq).
    + exact (Hexp x y x' y' Hp (Hzero _) Hvis Hq).
Qed.

Lemma mazeSolve_run (m : Maze) :
  well_formed m ->
  is_valid (startX m) (startY m) (edgeLen m) = true ->
  exists r m' v',
    mazeSolve m true = Done m' /\
    dfs_post m (startX m) (startY m) (memset0 (edgeLen m * edgeLen m))
      (r, m', v').
Proof.
  intros Hwf Hstart.
  pose proof Hwf as (Hn & Hnn & Hcells).
  unfold mazeSolve.
  rewrite int_of_ok by nia; cbn [bind negb dfs].
  destruct (dfs_cells_spec (S (Z.to_nat (edgeLen m * edgeLen m))) m
              (startX m) (startY m) (memset0 (edgeLen m * edgeLen m)) Hwf)
    as ([[r m'] v'] & E & Hpost).
  { split; [apply zlength_memset0; nia|].
    split; [intros _; apply load8_memset0|].
    split; [exact Hstart|].
    split; [apply load8_memset0|].
    rewrite unvisited_memset0; lia. }
  rewrite E; cbn [bind].
  exists r, m', v'; split; [reflexivity|exact Hpost].
Qed.

Lemma path_in_grid (m : Maze) (route : list (Z * Z)) :
  forall p,
  is_path m p route = true ->
  Forall (fun q => is_valid (fst q) (snd q) (edgeLen m) = true) route.
Proof.
  induction route as [|q route IH]; intros p H; constructor;
    cbn [is_path] in H; apply andb_true_iff in H; destruct H as [Hq H].
  - exact (passage_valid _ _ _ Hq).
  - exact (IH q H).
Qed.

Lemma load8_mark_route (m : Maze) (cells : buffer) (route : list (Z * Z))
    (x y : Z) :
  edgeLen m * edgeLen m <= zlength cells ->
  Forall (fun q => is_valid (fst q) (snd q) (edgeLen m) = true) route ->
  is_valid x y (edgeLen m) = true ->
  zlength (mark_route m route cells) = zlength cells /\
  load8 (mark_route m route cells) (cell_index m x y)
  = if on_route route x y then with_mark (load8 cells (cell_index m x y))
    else load8 cells (cell_index m x y).
Proof.
  intros Hn Hroute Hxy; induction Hroute as [|[a b] route Hab _ IH].
  - split; reflexivity.
  - destruct IH as [IHlen IHload]; cbn [fst snd] in Hab.
    pose proof (cell_index_range m a b Hab) as Hidx.
    pose proof (cell_index_range m x y Hxy) as Hidx'.
    cbn [mark_route on_route existsb fst snd]; fold (on_route route x y).
    unfold marked.
    split; [rewrite zlength_store_one; [exact IHlen|lia]|].
    destruct (Z.eq_dec (cell_index m x y) (cell_index m a b)) as [E|Hne].
    + destruct (cell_index_inj m _ _ _ _ Hxy Hab E) as [-> ->].
      rewrite !Z.eqb_refl; cbn [andb orb].
      rewrite load8_store_same by lia.
      rewrite IHload.
      destruct (on_route route a b); [apply with_mark_idem|reflexivity].
    + rewrite load8_store_other by lia.
      replace ((a =? x) && (b =? y)) with false; [exact IHload|].
      symmetry; apply andb_false_iff.
      destruct (Z.eqb_spec a x) as [->|]; [|auto].
      destruct (Z.eqb_spec b y) as [->|]; [|auto].
      contradiction.
Qed.

(** X15. [mazeSolve] finds a path whenever there is one. In a well-formed maze
    whose start lies in the grid and from which some path leads to the end, the
    call returns, and the result is the maze with the cells of a path from the
    start to the end marked: every cell on that path has got [mark], every
    other cell of the grid is as it was, and the array keeps its size. *)
Theorem mazeSolve_marks_a_path (m : Maze) (route : list (Z * Z)) :
  well_formed m ->
  is_valid (startX m) (startY m) (edgeLen m) = true ->
  is_path m (startX m, startY m) route = true ->
  exists route',
    is_path m (startX m, startY m) route' = true /\
    let cells' :=
      mark_route m ((startX m, startY m) :: route') (maze m) in
    mazeSolve m true = Done (set_maze m cells') /\
    zlength cells' = zlength (maze m) /\
    forall x y,
      is_valid x y (edgeLen m) = true ->
      load8 cells' (cell_index m x y)
      = if on_route ((startX m, startY m) :: route') x y
        then with_mark (load8 (maze m) (cell_index m x y))
        else load8 (maze m) (cell_index m x y).
Proof.
  intros Hwf Hstart Hroute.
  destruct (mazeSolve_run m Hwf Hstart)
    as (r & m' & v' & E & Hmore & Hend & Hres).
  destruct Hres as [(_ & _ & Hvis & Hexp)|(_ & route' & Hpath & ->)].
  - rewrite (explored_no_path m _ v' (load8_memset0 _) Hexp Hend route
               (startX m, startY m) Hstart Hvis) in Hroute.
    discriminate.
  - exists route'; split; [exact Hpath|]. cbv zeta.
    split; [exact E|].
    assert (Hall : Forall
                     (fun q => is_valid (fst q) (snd q) (edgeLen m) = true)
                     ((startX m, startY m) :: route'))
      by (constructor; [exact Hstart|exact (path_in_grid _ _ _ Hpath)]).
    destruct Hwf as (_ & _ & Hcells).
    split.
    + exact (proj1 (load8_mark_route m (maze m) _ _ _ Hcells Hall Hstart)).
    + intros x y Hxy.
      exact (proj2 (load8_mark_route m (maze m) _ x y Hcells Hall Hxy)).
Qed.

(** X16. [mazeSolve] leaves a maze without a path as it is. In a well-formed
    maze whose start lies in the grid and from which no path leads to the end,
    the call returns with the maze unchanged, whether [calloc] gives an array
    or not. *)
Theorem mazeSolve_without_path (m : Maze) (calloc_ok : bool) :
  well_formed m ->
  is_valid (startX m) (startY m) (edgeLen m) = true ->
  (forall route, is_path m (startX m, startY m) route = false) ->
  mazeSolve m calloc_ok = Done m.
Proof.
  intros Hwf Hstart Hnone.
  destruct calloc_ok.
  - destruct (mazeSolve_run m Hwf Hstart)
      as (r & m' & v' & E & Hmore & Hend & Hres).
    destruct Hres as [(_ & -> & _)|(_ & route' & Hpath & _)];
      [exact E|].
    rewrite Hnone in Hpath; discriminate.
  - destruct Hwf as (Hn & Hnn & _); unfold mazeSolve.
    rewrite int_of_ok by nia; reflexivity.
Qed.

(** X17. [mazeSolve] only sets marks. Whatever the maze (well-formed or not), a
    call that returns leaves the edge length, the start and the end as they
    were, keeps the number of cells, and leaves every cell as it was or with
    [mark] set; when [calloc] fails the maze is unchanged. *)
Theorem mazeSolve_only_adds_marks (m m' : Maze) (calloc_ok : bool) :
  mazeSolve m calloc_ok = Done m' ->
  edgeLen m' = edgeLen m /\
  startX m' = startX m /\ startY m' = startY m /\
  endX m' = endX m /\ endY m' = endY m /\
  zlength (maze m') = zlength (maze m) /\
  marks_only (maze m) (maze m') /\
  (calloc_ok = false -> m' = m).
Proof.
  intros H; unfold mazeSolve in H.
  step_run H.
  destruct calloc_ok; cbn [negb] in H.
  2:{ inversion H; subst; repeat split; apply marks_only_refl. }
  cbn [dfs] in H.
  destruct (dfs_cells _ m _ _ _) as [[[r m1] v1]| | |] eqn:E1;
    cbn [bind] in H; try discriminate H.
  inversion H; subst; clear H.
  apply dfs_cells_marks_only in E1.
  assert (Hk : maze_kept m m').
  { destruct E1 as [(_ & ->)|(_ & Hk)]; [apply maze_kept_refl|exact Hk]. }
  destruct Hk as (K1 & K2 & K3 & K4 & K5 & K6).
  repeat split; try assumption; try discriminate.
  apply marks_only_length, K6.
Qed.

(** X18. A search that fails changes nothing in the maze. Whatever the maze and
    the array of visited cells, [dfs] returns [0] or [1] when it returns; with
    [0] the maze is as it was, and a [NULL] pointer gives [0] at once. *)
Theorem dfs_failure_leaves_maze (fuel : nat) (maze : option Maze)
    (x y : Z) (visited : option buffer) (r : Z) (maze' : option Maze)
    (visited' : option buffer) :
  dfs fuel maze x y visited = Done (r, maze', visited') ->
  (r = 0 \/ r = 1) /\
  (r = 0 -> maze' = maze) /\
  (maze = None \/ visited = None ->
   r = 0 /\ maze' = maze /\ visited' = visited).
Proof.
  intros H; unfold dfs in H.
  destruct maze as [m|], visited as [v|];
    try (inversion H; subst; repeat split; auto; fail).
  destruct (dfs_cells _ m _ _ _) as [[[r1 m1] v1]| | |] eqn:E;
    cbn [bind] in H; try discriminate H.
  inversion H; subst; clear H.
  apply dfs_cells_marks_only in E.
  destruct E as [(-> & ->)|(-> & _)].
  - split; [auto|]. split; [auto|]. intros [?|?]; discriminate.
  - split; [auto|]. split; [discriminate|]. intros [?|?]; discriminate.
Qed.

(** X19. [mazeSolve] returns. In a well-formed maze whose start lies in the
    grid, the depth of the recursion of [dfs] stays within the number of cells
    plus one, no array is read or written outside its bounds and no [int]
    overflows: the call returns, with the maze unchanged or with a path from
    the start to the end marked. *)
Theorem mazeSolve_returns (m : Maze) (calloc_ok : bool) :
  well_formed m ->
  is_valid (startX m) (startY m) (edgeLen m) = true ->
  exists m',
    mazeSolve m calloc_ok = Done m' /\
    (m' = m \/ dfs_found m (startX m) (startY m) m').
Proof.
  intros Hwf Hstart; destruct calloc_ok.
  - destruct (mazeSolve_run m Hwf Hstart)
      as (r & m' & v' & E & _ & _ & Hres).
    exists m'; split; [exact E|].
    destruct Hres as [(_ & -> & _)|(_ & Hfound)]; auto.
  - exists m; split; [|auto].
    destruct Hwf as (Hn & Hnn & _); unfold mazeSolve.
    rewrite int_of_ok by nia; reflexivity.
Qed.

(** X20. A maze whose start is its end: [mazeSolve] marks that one cell and
    nothing else. *)
Theorem mazeSolve_start_is_end (m : Maze) :
  well_formed m ->
  is_valid (startX m) (startY m) (edgeLen m) = true ->
  startX m = endX m -> startY m = endY m ->
  mazeSolve m true
  = Done (set_maze m (marked (maze m) (cell_index m (startX m) (startY m)))).
Proof.
  intros Hwf Hstart Hx Hy.
  pose proof Hwf as (Hn & Hnn & Hcells).
  pose proof (cell_index_range m _ _ Hstart) as Hidx.
  unfold mazeSolve.
  rewrite int_of_ok by nia; cbn [bind negb dfs dfs_cells].
  rewrite (int_of_ok (startY m * edgeLen m))
    by (apply is_valid_spec in Hstart; nia).
  cbn [bind]; fold (cell_index m (startX m) (startY m)).
  rewrite (int_of_ok (cell_index m (startX m) (startY m))) by lia.
  cbn [bind].
  replace (cell_index m (startX m) (startY m) <? 0) with false by lia.
  rewrite (int_of_ok (edgeLen m * edgeLen m)) by lia; cbn [bind].
  replace (cell_index m (startX m) (startY m) >=? edgeLen m * edgeLen m)
    with false by lia.
  rewrite Hx, Hy, !Z.eqb_refl; cbn [andb].
  rewrite <- Hx, <- Hy.
  rewrite mark_cell_ok by lia; reflexivity.
Qed.

End MazeFacts.

(** * More on the code: creating and destroying the entities *)

Section LifecycleFacts.

Context {K : Constants}.
Variable AF_INET : Z.
Variable inet_pton : buffer -> option Z.

Lemma remove_fresh (fd : Z) (ds : list Z) :
  ~ In fd ds -> remove Z.eq_dec fd (fd :: ds) = ds.
Proof.
  intros H; cbn [remove].
  destruct (Z.eq_dec fd fd) as [_|Hne]; [|contradiction].
  apply notin_remove, H.
Qed.

(** What [l2sap_create] returns: no entity and the resources as they
    were, or an entity on a new descriptor, with one block more. *)
Lemma l2sap_create_cases (ip : buffer) (port : Z) (h : Host) :
  ~ In (hd 3 (socket_results h)) (descriptors h) ->
  match l2sap_create AF_INET inet_pton ip port h with
  | (None, h') => resources h' = resources h
  | (Some ep, h') =>
      exists addr,
        inet_pton ip = Some addr /\
        ep = mkL2Endpoint (mkL2SAP (hd 3 (socket_results h)) addr) AF_INET
               (htons_bytes port) /\
        0 <= hd 3 (socket_results h) /\
        blocks h' = blocks h + 1 /\
        descriptors h' = hd 3 (socket_results h) :: descriptors h
  end.
Proof.
  intros Hfresh; unfold l2sap_create, sys_malloc.
  destruct (malloc_fails h) as [|[|] fails]; cbn [negb];
    try reflexivity.
  all: unfold sys_socket; cbn [socket_results descriptors blocks].
  all: destruct (Z.ltb_spec (hd 3 (socket_results h)) 0) as [Hneg|Hfd];
    [unfold resources, sys_free; cbn; f_equal; lia|].
  all: destruct (inet_pton ip) as [addr|];
    [exists addr; repeat split; assumption|].
  all: unfold resources, sys_free, sys_close;
    cbn [blocks descriptors malloc_fails socket_results].
  all: replace (hd 3 (socket_results h) <? 0) with false by lia.
  all: rewrite remove_fresh by exact Hfresh; f_equal; lia.
Qed.

(** What [l4sap_create] returns behind its test of the arguments. *)
Lemma l4sap_create_cases (server_ip : option buffer) (server_port : Z)
    (garbage : L4SAP) (h : Host) :
  ~ In (hd 3 (socket_results h)) (descriptors h) ->
  match l4sap_create AF_INET inet_pton server_ip server_port garbage h with
  | (None, h') => resources h' = resources h
  | (Some s, h') =>
      exists text addr,
        server_ip = Some text /\ 1024 <= server_port /\
        inet_pton text = Some addr /\ 0 <= hd 3 (socket_results h) /\
        s = l4sap_init (mkL2SAP (hd 3 (socket_results h)) addr)
              (pending_header garbage) (pending_pl_buffer garbage) /\
        blocks h' = blocks h + 2 /\
        descriptors h' = hd 3 (socket_results h) :: descriptors h
  end.
Proof.
  intros Hfresh; unfold l4sap_create.
  destruct server_ip as [text|]; [|reflexivity].
  destruct (Z.ltb_spec server_port 1024) as [Hlow|Hport]; [reflexivity|].
  destruct (sys_malloc h) as [got h1] eqn:Em.
  assert (Hm : socket_results h1 = socket_results h /\
               descriptors h1 = descriptors h /\
               blocks h1 = blocks h + (if got then 1 else 0)).
  { unfold sys_malloc in Em.
    destruct (malloc_fails h) as [|[|] fails]; inversion Em; subst; cbn;
      repeat split; lia. }
  destruct Hm as (Hs1 & Hd1 & Hb1).
  destruct got; cbn [negb]; cbv iota in Hb1;
    [|unfold resources; rewrite Hd1; f_equal; lia].
  pose proof (l2sap_create_cases text server_port h1) as Hl2.
  rewrite Hs1, Hd1 in Hl2; specialize (Hl2 Hfresh).
  destruct (l2sap_create AF_INET inet_pton text server_port h1)
    as [[ep|] h2].
  - destruct Hl2 as (addr & Ha & -> & Hfd & Hb2 & Hd2).
    exists text, addr; cbn [endpoint].
    repeat split; auto; lia.
  - unfold resources in *; unfold sys_free; cbn.
    injection Hl2 as Hb2 Hd2; f_equal; [lia|congruence].
Qed.

(** X21. [l4sap_create] takes what it returns. A [NULL] text or a port below
    1024 is turned down before anything is allocated. Every other call either
    returns [NULL] and leaves the process with the heap blocks and the
    descriptors it had (nothing leaks when [malloc], [socket] or [inet_pton]
    fails), or returns an entity with both sequence numbers 0 and an empty
    pending slot, on a new descriptor, for which the process holds two blocks
    and one descriptor more. *)
Theorem l4sap_create_result (server_ip : option buffer) (server_port : Z)
    (garbage : L4SAP) (h : Host) :
  ~ In (hd 3 (socket_results h)) (descriptors h) ->
  (server_ip = None \/ server_port < 1024 ->
   l4sap_create AF_INET inet_pton server_ip server_port garbage h
   = (None, h)) /\
  match l4sap_create AF_INET inet_pton server_ip server_port garbage h with
  | (None, h') => resources h' = resources h
  | (Some s, h') =>
      exists text addr fd,
        server_ip = Some text /\ 1024 <= server_port /\
        inet_pton text = Some addr /\ 0 <= fd /\
        s = l4sap_init (mkL2SAP fd addr) (pending_header garbage)
              (pending_pl_buffer garbage) /\
        send_seqno s = 0 /\ expected_seqno s = 0 /\ pending_data s = 0 /\
        pending_pl_len s = 0 /\ seqnos_in_range s /\
        blocks h' = blocks h + 2 /\ descriptors h' = fd :: descriptors h
  end.
Proof.
  intros Hfresh; split.
  { intros [->|Hport]; [reflexivity|].
    unfold l4sap_create; destruct server_ip; [|reflexivity].
    replace (server_port <? 1024) with true by lia; reflexivity. }
  pose proof (l4sap_create_cases server_ip server_port garbage h Hfresh)
    as H.
  destruct (l4sap_create AF_INET inet_pton server_ip server_port garbage h)
    as [[s|] h']; [|exact H].
  destruct H as (text & addr & Hip & Hport & Ha & Hfd & -> & Hb & Hd).
  exists text, addr, (hd 3 (socket_results h)).
  repeat split; auto; left; reflexivity.
Qed.

(** X22. [l4sap_destroy] gives back what [l4sap_create] took: after the call on
    the entity, in whatever state the transfers left its sequence numbers and
    its pending slot, the process holds the heap blocks and the descriptors it
    held before the entity was created. *)
Theorem l4sap_create_destroy (server_ip : option buffer) (server_port : Z)
    (garbage : L4SAP) (h h' : Host) (s : L4SAP) :
  ~ In (hd 3 (socket_results h)) (descriptors h) ->
  l4sap_create AF_INET inet_pton server_ip server_port garbage h
  = (Some s, h') ->
  resources h' <> resources h /\
  resources (l4sap_destroy (Some s) h') = resources h /\
  (forall s', l2 s' = l2 s ->
   resources (l4sap_destroy (Some s') h') = resources h) /\
  l4sap_destroy None h' = h'.
Proof.
  intros Hfresh E.
  pose proof (l4sap_create_cases server_ip server_port garbage h Hfresh)
    as H.
  rewrite E in H.
  destruct H as (text & addr & _ & _ & _ & Hfd & -> & Hb & Hd).
  set (fd := hd 3 (socket_results h)) in *.
  split; [unfold resources; intros Heq; inversion Heq; lia|].
  assert (Hdestroy : forall s0,
            l2 s0 = Some (mkL2SAP fd addr) ->
            resources (l4sap_destroy (Some s0) h') = resources h).
  { intros s0 El2; unfold l4sap_destroy, l2sap_destroy; rewrite El2.
    cbn [socket].
    replace (fd >=? 0) with true by lia.
    unfold resources, sys_free, sys_close;
      cbn [blocks descriptors malloc_fails socket_results].
    rewrite Hd, remove_fresh by exact Hfresh.
    f_equal; lia. }
  split; [apply Hdestroy; reflexivity|].
  split; [intros s' El2; apply Hdestroy; exact El2|reflexivity].
Qed.

End LifecycleFacts.

(** ** The claims on concrete calls *)

#[local] Existing Instance demo.

(** Side conditions on concrete values, by computation. *)
Ltac by_computation :=
  first [ reflexivity
        | vm_compute; repeat split; first [reflexivity | intro; discriminate] ].

Lemma demo_framesize_ok : framesize_ok.
Proof. unfold framesize_ok; simpl; lia. Defined.

(** C7 at a concrete input: "hi" framed, sent, received into four bytes. *)
Lemma l2_round_trip_witness :
  let frame := l2_frame (peer_addr demo_l2) (slice [104; 105] 0 2) in
  l2sap_sendto (Some demo_l2) (Some [104; 105]) 2 (demo_os [])
  = Done (2, sent frame (demo_os [])) /\
  outbox (sent frame (demo_os [])) = outbox (demo_os []) ++ [frame] /\
  checksum_verifies frame = true /\
  l2sap_recvfrom_timeout (Some demo_l2) (Some [9; 9; 9; 9]) 4 None
    (demo_os [Datagram frame])
  = Done (2, slice [104; 105] 0 2 ++ skipn (Z.to_nat 2) [9; 9; 9; 9],
          next (demo_os [Datagram frame])).
Proof.
  apply (l2_round_trip demo_l2 demo_l2 [104; 105] [9; 9; 9; 9] 2 4 None
           (demo_os [])
           (demo_os [Datagram (l2_frame (peer_addr demo_l2)
                                 (slice [104; 105] 0 2))]) []);
    by_computation.
Defined.

(** C7 fails for a buffer of no bytes: the empty payload is framed and
    sent, and a receiver that gives a buffer of length 0, which is at least
    the payload's length, gets [-1] before any frame is looked at. *)
Lemma l2_round_trip_empty_buffer :
  l2sap_sendto (Some demo_l2) (Some []) 0 (demo_os [])
  = Done (0, mkOS [] [] [[0; 127; 0; 6; 121; 0]]) /\
  l2sap_recvfrom_timeout (Some demo_l2) (Some []) 0 None
    (demo_os [Datagram [0; 127; 0; 6; 121; 0]])
  = Done (-1, [], demo_os [Datagram [0; 127; 0; 6; 121; 0]]).
Proof. split; reflexivity. Qed.

(** C8 at a concrete input: bit 3 of the first payload byte of a frame
    inverted. *)
Lemma checksum_detects_single_bit_flip_witness :
  let frame := l2_frame 7 [104; 105] in
  checksum_verifies (flip_bit frame 6 3) = false /\
  l2sap_recvfrom_timeout (Some demo_l2) (Some [9; 9; 9; 9]) 4 None
    (demo_os [Datagram (flip_bit frame 6 3)])
  = Done (-1, [9; 9; 9; 9], next (demo_os [Datagram (flip_bit frame 6 3)])).
Proof.
  apply (checksum_detects_single_bit_flip demo_l2 [9; 9; 9; 9] 4 None
           (demo_os [Datagram (flip_bit (l2_frame 7 [104; 105]) 6%nat 3)])
           (l2_frame 7 [104; 105]) 6%nat 3 []).
  - apply l2_frame_wellformed; by_computation.
  - simpl; lia.
  - lia.
  - by_computation.
  - lia.
  - reflexivity.
Defined.

Lemma demo_send_ready (events : list os_event) :
  send_ready demo_l2 demo_l4 demo_packet 3 (memset0 L4Framesize)
    (demo_os events).
Proof. unfold send_ready; by_computation. Defined.

(** C3 at a concrete input: six timeouts in the script, five of them
    used. *)
Lemma silent_peer_five_transmissions_witness :
  let os := demo_os (repeat SelectTimeout 6) in
  l4sap_send (Some demo_l4) (Some demo_data) 3 os
  = Done (L4_SEND_FAILED, Some demo_l4, after_timeouts 5 demo_wire os) /\
  outbox (after_timeouts 5 demo_wire os)
  = outbox os ++ [demo_wire; demo_wire; demo_wire; demo_wire; demo_wire].
Proof.
  apply (silent_peer_five_transmissions demo_framesize_ok demo_l2 demo_l4
           demo_data 3 (demo_os (repeat SelectTimeout 6)));
    try by_computation.
  - repeat constructor.
  - constructor.
Defined.

(** C1 on two concrete calls: a send that is acknowledged, a receive that
    delivers. *)
Lemma seqno_discipline_witness :
  (exists s',
     Some (set_send_seqno demo_l4 1) = Some s' /\
     (seqnos_in_range demo_l4 -> seqnos_in_range s') /\
     expected_seqno s' = expected_seqno demo_l4 /\
     (0 <= 3 \/ 3 = L4_SEND_FAILED \/ 3 = L4_QUIT) /\
     (0 <= 3 -> send_seqno s' = 1 - send_seqno demo_l4) /\
     (3 = L4_SEND_FAILED \/ 3 = L4_QUIT ->
      send_seqno s' = send_seqno demo_l4)) /\
  (exists s',
     Some (set_expected_seqno demo_l4 1) = Some s' /\
     (seqnos_in_range demo_l4 -> seqnos_in_range s') /\
     send_seqno s' = send_seqno demo_l4 /\
     (0 <= 2 \/ 2 = L4_QUIT \/ 2 = -1) /\
     (0 <= 2 -> expected_seqno s' = 1 - expected_seqno demo_l4) /\
     (2 = L4_QUIT \/ 2 = -1 ->
      expected_seqno s' = expected_seqno demo_l4)).
Proof.
  assert (HQ : L4_QUIT < 0) by reflexivity.
  assert (HF : L4_SEND_FAILED < 0) by reflexivity.
  assert (HP : 0 <= L4Payloadsize) by by_computation.
  split.
  - apply (proj1 (seqno_discipline HQ HF HP) demo_l4 (Some demo_data) 3
             (demo_os [demo_ack 0]) 3 (Some (set_send_seqno demo_l4 1))
             (mkOS [] [] [demo_wire])).
    reflexivity.
  - apply (proj2 (seqno_discipline HQ HF HP) demo_l4 (Some [9; 9]) 2
             (demo_os [demo_peer_data 0]) 2
             (Some (set_expected_seqno demo_l4 1)) [104; 105]
             (mkOS [] [] [demo_ack_wire])).
    reflexivity.
Defined.

(** C9 on concrete calls: [len = 0] is turned down, [len = 30] is cut to
    the 22 bytes of [L4Payloadsize]. *)
Lemma l4sap_send_length_witness :
  (L4_SEND_FAILED < 0 /\
   forall l4 data,
     l4sap_send l4 data 0 (demo_os []) = Done (L4_SEND_FAILED, l4, demo_os []))
  /\
  (let n := Z.min 30 L4Payloadsize in
   let frame :=
     l2_frame (peer_addr demo_l2)
       (l4_frame (data_header demo_l4) (slice (repeat 65 30) 0 n)) in
   (30 <= L4Payloadsize -> n = 30) /\
   (L4Payloadsize < 30 -> n = L4Payloadsize) /\
   zlength (slice (repeat 65 30) 0 n) = n /\
   (exists r s' os' more,
      l4sap_send (Some demo_l4) (Some (repeat 65 30)) 30
        (demo_os [demo_ack 0])
      = Done (r, Some s', os') /\
      outbox os' = outbox (demo_os [demo_ack 0]) ++ frame :: more /\
      (0 <= r -> r = n)) /\
   l4sap_send (Some demo_l4) (Some (repeat 65 30)) 30 (demo_os [demo_ack 0])
   = Done (n, Some (set_send_seqno demo_l4 (1 - send_seqno demo_l4)),
           next (sent frame (demo_os [demo_ack 0])))).
Proof.
  assert (HQ : L4_QUIT < 0) by reflexivity.
  assert (HF : L4_SEND_FAILED < 0) by reflexivity.
  split.
  - apply (proj1 (l4sap_send_length demo_framesize_ok demo_l2 demo_l4 []
                    0 (demo_os []) HF HQ)).
    lia.
  - pose proof (proj2 (l4sap_send_length demo_framesize_ok demo_l2 demo_l4
                         (repeat 65 30) 30 (demo_os [demo_ack 0]) HF HQ))
      as H.
    destruct H as (H1 & H2 & H3 & H4 & H5); [by_computation..|].
    cbv zeta; do 4 (split; [assumption|]).
    apply (H5 7 (mkL4Header 1 0 1 0) []); by_computation.
Defined.

(** C5 on a concrete call: an ACK and a DATA frame with [mbz = 1] reach
    [l4sap_send]; the first ends it with success, the second is stored. *)
Lemma send_accepts_nonzero_mbz_witness :
  l4sap_send_loop 5 demo_l4 demo_packet 3 (memset0 L4Framesize)
    (demo_os [demo_ack 1])
  = Done (3, set_send_seqno demo_l4 (1 - send_seqno demo_l4),
          next (sent (wire demo_l2 demo_packet 3) (demo_os [demo_ack 1]))) /\
  l4sap_send_loop 5 demo_l4 demo_packet 3 (memset0 L4Framesize)
    (demo_os [demo_peer_data 1])
  = l4sap_send_loop 4
      (set_pending demo_l4 (mkL4Header 0 0 0 1) (zlength [104; 105])
         ([104; 105]
          ++ skipn (length [104; 105]) (pending_pl_buffer demo_l4)))
      demo_packet 3
      (store (memset0 L4Framesize) 0
         (l4_frame (mkL4Header 0 0 0 1) [104; 105]))
      (sent (ack_wire demo_l2 (hdr_seqno (mkL4Header 0 0 0 1)))
         (next (sent (wire demo_l2 demo_packet 3)
                  (demo_os [demo_peer_data 1])))).
Proof.
  split.
  - apply (proj1 (send_accepts_nonzero_mbz demo_framesize_ok 4 demo_l2
                    demo_l4 demo_packet 3 (memset0 L4Framesize)
                    (demo_os [demo_ack 1]) 7 (mkL4Header 1 0 1 1) [] []
                    (demo_send_ready _)
                    ltac:(by_computation) ltac:(by_computation) eq_refl
                    ltac:(by_computation) ltac:(by_computation)
                    ltac:(by_computation) ltac:(by_computation)));
      reflexivity.
  - apply (proj2 (send_accepts_nonzero_mbz demo_framesize_ok 4 demo_l2
                    demo_l4 demo_packet 3 (memset0 L4Framesize)
                    (demo_os [demo_peer_data 1]) 7 (mkL4Header 0 0 0 1)
                    [104; 105] []
                    (demo_send_ready _)
                    ltac:(by_computation) ltac:(by_computation) eq_refl
                    ltac:(by_computation) ltac:(by_computation)
                    ltac:(by_computation) ltac:(by_computation)));
      reflexivity.
Defined.

(** C6 on concrete calls: a RESET frame ends both a send and a receive. *)
Lemma reset_returns_quit_witness :
  (l4sap_send_loop 5 demo_l4 demo_packet 3 (memset0 L4Framesize)
     (demo_os [demo_reset 0])
   = Done (L4_QUIT, demo_l4,
           next (sent (wire demo_l2 demo_packet 3)
                   (demo_os [demo_reset 0]))) /\
   outbox (next (sent (wire demo_l2 demo_packet 3)
                   (demo_os [demo_reset 0])))
   = outbox (demo_os [demo_reset 0]) ++ [wire demo_l2 demo_packet 3]) /\
  l4sap_send (Some demo_l4) (Some demo_data) 3 (demo_os [demo_reset 0])
  = Done (L4_QUIT, Some demo_l4, mkOS [] [] [demo_wire]) /\
  (l4sap_recv_loop 2 demo_l4 [9; 9; 9] (memset0 L4Framesize)
     (demo_os [demo_reset 0])
   = Done (L4_QUIT, demo_l4, [9; 9; 9], next (demo_os [demo_reset 0])) /\
   outbox (next (demo_os [demo_reset 0]))
   = outbox (demo_os [demo_reset 0])) /\
  l4sap_recv (Some demo_l4) (Some [9; 9; 9]) 3 (demo_os [demo_reset 0])
  = Done (L4_QUIT, Some demo_l4, [9; 9; 9], mkOS [] [] []).
Proof.
  destruct (reset_returns_quit demo_framesize_ok demo_l2 demo_l4 7
              (mkL4Header 2 0 0 0) [] [] (demo_os [demo_reset 0]))
    as (Hloop & Hsend & Hrloop & Hrecv); [by_computation..|].
  split; [apply Hloop, demo_send_ready|].
  split; [apply (Hsend demo_data 3); by_computation|].
  split; [apply Hrloop; by_computation|].
  apply (Hrecv [9; 9; 9] 3); by_computation.
Defined.

(** A frame with [mbz = 1] is dropped by [l4sap_recv] before its type is
    read, whatever the type: the call goes on to deliver the next DATA frame
    and to acknowledge it. *)
Lemma recv_drops_nonzero_mbz_then_delivers :
  l4sap_recv (Some demo_l4) (Some [9; 9; 9]) 3
    (demo_os [demo_reset 1; demo_peer_data 0])
  = Done (2, Some (set_expected_seqno demo_l4 1), [104; 105; 9],
          mkOS [] [] [demo_ack_wire]).
Proof. reflexivity. Qed.

(** C2 on concrete calls: a stale ACK, then a DATA frame of the peer, as
    first answer to a send. *)
Lemma unexpected_frame_ends_attempt_witness :
  (let os := demo_os [demo_stale_ack] in
   let os1 := next (sent demo_wire os) in
   l4sap_send_loop 5 demo_l4 demo_packet 3 (memset0 L4Framesize) os
   = l4sap_send_loop 4 demo_l4 demo_packet 3
       (store (memset0 L4Framesize) 0 (l4_frame (mkL4Header 1 0 0 0) []))
       os1 /\
   outbox os1 = outbox os ++ [demo_wire] /\
   exists r s' os' more,
     l4sap_send_loop 5 demo_l4 demo_packet 3 (memset0 L4Framesize) os
     = Done (r, s', os') /\
     outbox os' = outbox os ++ demo_wire :: demo_wire :: more) /\
  (let os := demo_os [demo_peer_data 0] in
   let os1 := sent demo_ack_wire (next (sent demo_wire os)) in
   let s1 :=
     set_pending demo_l4 (mkL4Header 0 0 0 0) 2
       ([104; 105] ++ skipn 2 (pending_pl_buffer demo_l4)) in
   l4sap_send_loop 5 demo_l4 demo_packet 3 (memset0 L4Framesize) os
   = l4sap_send_loop 4 s1 demo_packet 3
       (store (memset0 L4Framesize) 0
          (l4_frame (mkL4Header 0 0 0 0) [104; 105]))
       os1 /\
   outbox os1 = outbox os ++ [demo_wire; demo_ack_wire] /\
   exists r s' os' more,
     l4sap_send_loop 5 demo_l4 demo_packet 3 (memset0 L4Framesize) os
     = Done (r, s', os') /\
     outbox os' = outbox os ++ demo_wire :: demo_ack_wire :: demo_wire :: more).
Proof.
  split.
  - destruct (unexpected_frame_ends_attempt demo_framesize_ok 4 demo_l2
                demo_l4 demo_packet 3 (memset0 L4Framesize)
                (demo_os [demo_stale_ack]) 7 (mkL4Header 1 0 0 0) [] []
                (demo_send_ready _))
      as [Hack _]; [first [by_computation | constructor]..|].
    destruct Hack as (H1 & H2 & H3); [by_computation..|].
    cbv zeta; split; [exact H1|]; split; [exact H2|].
    apply H3; discriminate.
  - destruct (unexpected_frame_ends_attempt demo_framesize_ok 4 demo_l2
                demo_l4 demo_packet 3 (memset0 L4Framesize)
                (demo_os [demo_peer_data 0]) 7 (mkL4Header 0 0 0 0)
                [104; 105] [] (demo_send_ready _))
      as [_ Hdata]; [first [by_computation | constructor]..|].
    destruct Hdata as (H1 & H2 & H3); [by_computation..|].
    cbv zeta; split; [exact H1|]; split; [exact H2|].
    apply H3; discriminate.
Defined.

(** The failing call of C2: five ACKs with a stale [ackno] use up the five
    attempts, each followed at once by a transmission, and the call gives up
    with [L4_SEND_FAILED], the matching ACK still unread; no wait ended in a
    timeout. *)
Lemma stale_acks_use_up_attempts :
  l4sap_send (Some demo_l4) (Some demo_data) 3
    (demo_os [demo_stale_ack; demo_stale_ack; demo_stale_ack;
              demo_stale_ack; demo_stale_ack; demo_ack 0])
  = Done (L4_SEND_FAILED, Some demo_l4,
          mkOS [demo_ack 0] []
            [demo_wire; demo_wire; demo_wire; demo_wire; demo_wire]).
Proof. reflexivity. Qed.

(** C10 on a concrete call: a payload of two bytes, a caller who gave
    [len = 1]: two bytes are written when the memory behind the buffer
    holds them, and the copy leaves the buffer when it holds one byte. *)
Lemma recv_network_copy_unclamped_witness :
  let os := demo_os [demo_peer_data 0] in
  let s' := set_expected_seqno demo_l4 (1 - expected_seqno demo_l4) in
  let os' := sent (ack_wire demo_l2 0) (next os) in
  l4sap_recv_loop 2 demo_l4 [9; 9; 9] (memset0 L4Framesize) os
  = Done (2, s', [104; 105; 9], os') /\
  l4sap_recv (Some demo_l4) (Some [9; 9; 9]) 1 os
  = Done (2, Some s', [104; 105; 9], os') /\
  l4sap_recv_loop 2 demo_l4 [9] (memset0 L4Framesize) os = Fault /\
  l4sap_recv (Some demo_l4) (Some [9]) 1 os = Fault.
Proof.
  destruct (recv_network_copy_unclamped demo_framesize_ok demo_l2 demo_l4
              [9; 9; 9] (demo_os [demo_peer_data 0]) 7 (mkL4Header 0 0 0 0)
              [104; 105] []) as [Hloop Hcall]; [by_computation..|].
  destruct (recv_network_copy_unclamped demo_framesize_ok demo_l2 demo_l4
              [9] (demo_os [demo_peer_data 0]) 7 (mkL4Header 0 0 0 0)
              [104; 105] []) as [Hloop1 Hcall1]; [by_computation..|].
  cbv zeta; split; [|split; [|split]].
  - destruct (Hloop 1%nat (memset0 L4Framesize)) as [H _];
      [by_computation|].
    apply H; by_computation.
  - destruct (Hcall 1) as [H _]; [by_computation..|].
    apply H; by_computation.
  - destruct (Hloop1 1%nat (memset0 L4Framesize)) as [_ H];
      [by_computation|].
    apply H; by_computation.
  - destruct (Hcall1 1) as [_ H]; [by_computation..|].
    apply H; by_computation.
Defined.

(** C4 on concrete calls: the pending frame "hi" with the expected
    sequence number is delivered, clamped to [len = 1]; with the other
    sequence number it is acknowledged and dropped. *)
Lemma recv_pending_slot_witness :
  (let s := demo_l4_pending 0 in
   l4sap_recv (Some s) (Some [9; 9; 9]) 1 (demo_os [])
   = Done (1,
           Some (set_pending_data
                   (set_expected_seqno s (1 - expected_seqno s)) 0),
           [104; 9; 9], sent demo_ack_wire (demo_os []))) /\
  (let s := demo_l4_pending 1 in
   l4sap_recv (Some s) (Some [9; 9; 9]) 1 (demo_os [])
   = ('(r, s', data', os') <-
        l4sap_recv_network (set_pending_data s 0) [9; 9; 9]
          (sent (ack_wire demo_l2 1) (demo_os [])) ;;
      Done (r, Some s', data', os'))).
Proof.
  split.
  - destruct (recv_pending_slot demo_framesize_ok demo_l2
                (demo_l4_pending 0) [9; 9; 9] 1 (demo_os []))
      as (_ & Hmatch & _); [by_computation..|].
    apply Hmatch; by_computation.
  - destruct (recv_pending_slot demo_framesize_ok demo_l2
                (demo_l4_pending 1) [9; 9; 9] 1 (demo_os []))
      as (_ & _ & Hother); [by_computation..|].
    apply Hother; right; by_computation.
Defined.

(** The first L2 error of a receive on the fresh entity: with [L4_DATA = 0]
    the zeroed array reads as an expected DATA frame, and the copy of [-5]
    bytes is undefined. *)
Lemma recv_first_l2_error :
  l4sap_recv (Some demo_l4) (Some [9; 9; 9]) 3 (demo_os [RecvfromFails])
  = Fault.
Proof. reflexivity. Qed.

(** * More on the code, on concrete calls *)

(** X1 on a concrete call. "hi" sent on an open socket: one frame of eight
    bytes. *)
Lemma l2sap_sendto_all_or_nothing_witness :
  exists r os',
    l2sap_sendto (Some demo_l2) (Some [104; 105]) 2 (demo_os [])
    = Done (r, os') /\
    inbox os' = inbox (demo_os []) /\
    ((r = -1 /\ outbox os' = outbox (demo_os [])) \/
     (r = 2 /\
      exists c d,
        Some demo_l2 = Some c /\ Some [104; 105] = Some d /\
        0 <= socket c /\ 0 <= 2 <= L2Payloadsize /\
        outbox os'
        = outbox (demo_os []) ++ [l2_frame (peer_addr c) (slice d 0 2)] /\
        zlength (l2_frame (peer_addr c) (slice d 0 2))
        = 2 + L2Headersize)) /\
    (Some demo_l2 = None \/ Some [104; 105] = None \/ 2 < 0 \/
     L2Payloadsize < 2 \/
     (exists c, Some demo_l2 = Some c /\ socket c < 0) ->
     r = -1 /\ os' = demo_os []).
Proof.
  apply (l2sap_sendto_all_or_nothing (Some demo_l2) (Some [104; 105]) 2
           (demo_os [])).
  intros d Hd; inversion Hd; subst; by_computation.
Defined.

(** X2 on a concrete call. A frame with the payload "hi" received into four
    bytes with [len = 3]: the fourth byte is out of reach. *)
Lemma l2sap_recvfrom_timeout_bounded_write_witness :
  let os := demo_os [Datagram (l2_frame 7 [104; 105])] in
  (l2sap_recvfrom_timeout (Some demo_l2) (Some [9; 9; 9; 9]) 3 None os
   <> Fault <-> 0 <= socket demo_l2 < FD_SETSIZE) /\
  forall r d' os',
    l2sap_recvfrom_timeout (Some demo_l2) (Some [9; 9; 9; 9]) 3 None os
    = Done (r, d', os') ->
    0 <= socket demo_l2 < FD_SETSIZE /\
    -1 <= r <= 3 /\ zlength d' = zlength [9; 9; 9; 9] /\
    (forall i, 0 <= i -> r <= i -> load8 d' i = load8 [9; 9; 9; 9] i) /\
    outbox os' = outbox os /\ sendto_fails os' = sendto_fails os /\
    (inbox os' = inbox os \/ inbox os' = tl (inbox os)).
Proof.
  apply (l2sap_recvfrom_timeout_bounded_write demo_l2 [9; 9; 9; 9] 3 None
           (demo_os [Datagram (l2_frame 7 [104; 105])]));
    by_computation.
Defined.

(** X3 on a concrete call. Bit 0 of both bytes of "hi" inverted: "ih" arrives,
    and is accepted. *)
Lemma checksum_misses_paired_flips_witness :
  let p' := flip_bit (flip_bit [104; 105] 0 0) 1 0 in
  let f' := flip_bit (flip_bit (l2_frame 7 [104; 105]) (6 + 0) 0) (6 + 1) 0 in
  p' <> [104; 105] /\ f' = l2_frame 7 p' /\
  l2sap_recvfrom_timeout (Some demo_l2) (Some [9; 9; 9; 9]) 4 None
    (demo_os [Datagram f'])
  = Done (zlength [104; 105], store [9; 9; 9; 9] 0 p',
          next (demo_os [Datagram f'])).
Proof.
  apply (checksum_misses_paired_flips demo_l2 [9; 9; 9; 9] 4 None
           (demo_os [Datagram
                       (flip_bit (flip_bit (l2_frame 7 [104; 105])
                                    (6 + 0) 0) (6 + 1) 0)])
           7 [104; 105] [] 0%nat 1%nat 0);
    by_computation.
Defined.

(** X4 on a concrete call. A datagram of seven bytes, "h" behind a header that
    claims two bytes of payload: two bytes are delivered, "h" and a zero. *)
Lemma l2sap_recvfrom_trusts_len_field_witness :
  let dg := [0; 7; 0; 8; 103; 0; 104] in
  let os := demo_os [Datagram dg] in
  let n := to_uint16 (ntohs_at dg L2_len - L2Headersize) in
  let payload :=
    slice (dg ++ memset0 (L2Framesize - zlength dg)) L2Headersize n in
  (1 < n ->
   l2sap_recvfrom_timeout (Some demo_l2) (Some [9; 9; 9; 9]) 1 None os
   = Done (-1, [9; 9; 9; 9], next os)) /\
  (n <= 4 ->
   zlength payload = n /\
   l2sap_recvfrom_timeout (Some demo_l2) (Some [9; 9; 9; 9]) 4 None os
   = Done (n, payload ++ skipn (Z.to_nat n) [9; 9; 9; 9], next os) /\
   (zlength dg - L2Headersize <= n ->
    payload = slice dg L2Headersize (zlength dg - L2Headersize)
              ++ memset0 (n - (zlength dg - L2Headersize)))).
Proof.
  cbv zeta; split.
  - apply (l2sap_recvfrom_trusts_len_field demo_l2 [9; 9; 9; 9] 1 None
             (demo_os [Datagram [0; 7; 0; 8; 103; 0; 104]])
             [0; 7; 0; 8; 103; 0; 104] []);
      by_computation.
  - apply (l2sap_recvfrom_trusts_len_field demo_l2 [9; 9; 9; 9] 4 None
             (demo_os [Datagram [0; 7; 0; 8; 103; 0; 104]])
             [0; 7; 0; 8; 103; 0; 104] []);
      by_computation.
Defined.

(** X5 on a concrete call. A header of six bytes whose [len] field claims 38
    bytes, on a socket with frames of 32 bytes: the copy of 32 bytes of payload
    leaves both arrays. *)
Lemma l4sap_recv_oversized_len_field_witness :
  let dg := [0; 7; 0; 38; 33; 0] in
  let os := demo_os [Datagram dg] in
  let payload_len := ntohs_at dg L2_len - L2Headersize in
  L4Framesize < payload_len <= L2Framesize /\
  zlength (memset0 L4Framesize) = L4Framesize /\
  l2sap_recvfrom_timeout (Some demo_l2) (Some (memset0 L4Framesize))
    L2Framesize None os = Fault /\
  l4sap_recv (Some demo_l4) (Some (repeat 9 40)) 40 os = Fault.
Proof.
  apply (l4sap_recv_oversized_len_field demo_framesize_ok demo_l2 demo_l4
           (repeat 9 40) 40 (demo_os [Datagram [0; 7; 0; 38; 33; 0]])
           [0; 7; 0; 38; 33; 0] []);
    by_computation.
Defined.

(** X6 on a concrete call. An entity that expects the sequence number 1 gets
    the DATA frame "hi" with the number 0 once more, then "ok" with the number
    1. *)
Lemma l4sap_recv_duplicate_data_witness :
  let s := set_expected_seqno demo_l4 1 in
  let os :=
    demo_os [demo_peer_data 0; incoming 7 (mkL4Header 0 1 0 0) [111; 107]] in
  l4sap_recv_loop 3 s [9; 9; 9] (memset0 L4Framesize) os
  = l4sap_recv_loop 2 s [9; 9; 9]
      (store (memset0 L4Framesize) 0
         (l4_frame (mkL4Header 0 0 0 0) [104; 105]))
      (sent (ack_wire demo_l2 0) (next os)) /\
  l4sap_recv (Some s) (Some [9; 9; 9]) 3 os
  = Done (2, Some (set_expected_seqno s (1 - expected_seqno s)),
          [111; 107; 9],
          mkOS [] [] [ack_wire demo_l2 0; ack_wire demo_l2 1]).
Proof.
  destruct (l4sap_recv_duplicate_data demo_framesize_ok demo_l2
              (set_expected_seqno demo_l4 1) [9; 9; 9]
              (demo_os [demo_peer_data 0;
                        incoming 7 (mkL4Header 0 1 0 0) [111; 107]])
              7 (mkL4Header 0 0 0 0) [104; 105]
              [incoming 7 (mkL4Header 0 1 0 0) [111; 107]])
    as (Hloop & _ & _ & Hcall); [by_computation..|].
  cbv zeta; split.
  - apply Hloop; by_computation.
  - etransitivity;
      [apply (Hcall 3 7 (mkL4Header 0 1 0 0) [111; 107] [])|];
      by_computation.
Defined.

(** X7 on a concrete call. A stray ACK reaches [l4sap_recv] before the DATA
    frame "hi". *)
Lemma l4sap_recv_ignores_other_types_witness :
  let os := demo_os [demo_ack 0; demo_peer_data 0] in
  l4sap_recv_loop 3 demo_l4 [9; 9; 9] (memset0 L4Framesize) os
  = l4sap_recv_loop 2 demo_l4 [9; 9; 9]
      (store (memset0 L4Framesize) 0 (l4_frame (mkL4Header 1 0 1 0) []))
      (next os) /\
  l4sap_recv (Some demo_l4) (Some [9; 9; 9]) 3 os
  = Done (2, Some (set_expected_seqno demo_l4 1), [104; 105; 9],
          mkOS [] [] [demo_ack_wire]).
Proof.
  destruct (l4sap_recv_ignores_other_types demo_framesize_ok demo_l2
              demo_l4 [9; 9; 9] (demo_os [demo_ack 0; demo_peer_data 0])
              7 (mkL4Header 1 0 1 0) [] [demo_peer_data 0])
    as (Hloop & _ & _ & Hcall); [by_computation..|].
  cbv zeta; split.
  - apply Hloop; by_computation.
  - etransitivity;
      [apply (Hcall 3 7 (mkL4Header 0 0 0 0) [104; 105] [])|];
      by_computation.
Defined.

(** X8 on a concrete call. [select] fails on the first wait of a receive on the
    fresh entity. *)
Lemma l4sap_recv_l2_error_fault_witness :
  let os := demo_os [SelectFails] in
  l2sap_recvfrom_timeout (Some demo_l2) (Some (memset0 L4Framesize))
    L2Framesize None os
  = Done (-1, memset0 L4Framesize, next os) /\
  (to_size_t (-1) <? L4Headersize) = false /\
  payload_len_of (-1) = -5 /\
  l4sap_recv (Some demo_l4) (Some [9; 9; 9]) 3 os = Fault.
Proof.
  apply (l4sap_recv_l2_error_fault demo_l2 demo_l4 [9; 9; 9] 3
           (demo_os [SelectFails]) SelectFails []);
    first [by_computation | left; reflexivity].
Defined.

(** X9 on a concrete call. [sendto] turns down the DATA frame of a send: no
    second attempt. *)
Lemma l4sap_send_l2_failure_witness :
  let os := mkOS [demo_ack 0] [true] [] in
  exists os',
    l4sap_send (Some demo_l4) (Some demo_data) 3 os
    = Done (L4_SEND_FAILED, Some demo_l4, os') /\
    inbox os' = inbox os /\ outbox os' = outbox os.
Proof.
  apply (l4sap_send_l2_failure demo_framesize_ok demo_l2 demo_l4 demo_data
           3 (mkOS [demo_ack 0] [true] []));
    first [by_computation | right; reflexivity].
Defined.

(** X10 on a concrete call. The entity holds "hi" in its pending slot when a
    send is answered by the DATA frame "ok" and then by the ACK. *)
Lemma l4sap_send_full_slot_drops_data_witness :
  let s := demo_l4_pending 0 in
  let os :=
    demo_os [incoming 7 (mkL4Header 0 1 0 0) [111; 107]; demo_ack 0] in
  exists os',
    l4sap_send (Some s) (Some demo_data) 3 os
    = Done (3, Some (set_send_seqno s (1 - send_seqno s)), os') /\
    outbox os' = outbox os ++ [demo_wire; ack_wire demo_l2 1; demo_wire] /\
    inbox os' = [].
Proof.
  apply (l4sap_send_full_slot_drops_data demo_framesize_ok demo_l2
           (demo_l4_pending 0) demo_data 3
           (demo_os [incoming 7 (mkL4Header 0 1 0 0) [111; 107];
                     demo_ack 0])
           7 (mkL4Header 0 1 0 0) [111; 107] 7 (mkL4Header 1 0 1 0) []);
    first [by_computation | constructor].
Defined.

(** X11 on a concrete call. A send is answered by the DATA frame "hi" and then
    by the ACK; the next receive, with [len = 1], returns "h" from the slot. *)
Lemma l4sap_send_stash_then_recv_witness :
  let os := demo_os [demo_peer_data 0; demo_ack 0] in
  exists s1 os1,
    l4sap_send (Some demo_l4) (Some demo_data) 3 os = Done (3, Some s1, os1) /\
    outbox os1 = outbox os ++ [demo_wire; demo_ack_wire; demo_wire] /\
    inbox os1 = [] /\
    send_seqno s1 = 1 - send_seqno demo_l4 /\
    expected_seqno s1 = expected_seqno demo_l4 /\
    pending_data s1 = 1 /\
    exists s2 os2,
      l4sap_recv (Some s1) (Some [9; 9; 9]) 1 os1
      = Done (1, Some s2, [104; 9; 9], os2) /\
      outbox os2 = outbox os1 ++ [demo_ack_wire] /\
      inbox os2 = [] /\
      send_seqno s2 = 1 - send_seqno demo_l4 /\
      expected_seqno s2 = 1 - expected_seqno demo_l4 /\
      pending_data s2 = 0.
Proof.
  apply (l4sap_send_stash_then_recv demo_framesize_ok demo_l2 demo_l4
           demo_data 3 (demo_os [demo_peer_data 0; demo_ack 0])
           7 (mkL4Header 0 0 0 0) [104; 105] 7 (mkL4Header 1 0 1 0) []
           [9; 9; 9] 1);
    first [by_computation | constructor].
Defined.

(** X12 on a concrete call. "ABC" from the fresh entity to a fresh entity on
    another socket. *)
Lemma l4_send_recv_end_to_end_witness :
  let peer := mkL2SAP 4 7 in
  let b := l4sap_init peer (mkL4Header 0 0 0 0) (repeat 0 22) in
  let ack := ack_wire peer 0 in
  exists osA' osB',
    l4sap_send (Some demo_l4) (Some demo_data) 3 (demo_os [Datagram ack])
    = Done (3, Some (set_send_seqno demo_l4 1), osA') /\
    outbox osA' = [demo_wire] /\ inbox osA' = [] /\
    l4sap_recv (Some b) (Some [9; 9; 9; 9]) 4 (demo_os [Datagram demo_wire])
    = Done (3, Some (set_expected_seqno b 1), [65; 66; 67; 9], osB') /\
    outbox osB' = [ack] /\ inbox osB' = [].
Proof.
  apply (l4_send_recv_end_to_end demo_framesize_ok demo_l2 (mkL2SAP 4 7)
           demo_l4 (l4sap_init (mkL2SAP 4 7) (mkL4Header 0 0 0 0)
                      (repeat 0 22))
           demo_data [9; 9; 9; 9] 3 4
           (demo_os [Datagram (ack_wire (mkL2SAP 4 7) 0)])
           (demo_os [Datagram demo_wire]) [] []);
    first [by_computation | left; reflexivity].
Defined.

(** X13 on a concrete call. A send against a peer that answers with noise: a
    frame too short, a frame with a wrong checksum, a stale ACK. *)
Lemma l4sap_send_bounded_for_any_peer_witness :
  let os :=
    demo_os [Datagram [1; 2; 3]; Datagram [0; 7; 0; 6; 0; 0]; demo_stale_ack;
             RecvfromFails; SelectFails; demo_ack 0] in
  exists r s' os' rounds k,
    l4sap_send (Some demo_l4) (Some demo_data) 3 os
    = Done (r, Some s', os') /\
    (r = Z.min 3 L4Payloadsize \/ r = L4_SEND_FAILED \/ r = L4_QUIT) /\
    outbox os' = outbox os ++ concat rounds /\
    (length rounds <= 5)%nat /\
    Forall
      (round_trace demo_l2
         (l2_frame (peer_addr demo_l2)
            (l4_frame (data_header demo_l4)
               (slice demo_data 0 (Z.min 3 L4Payloadsize)))))
      rounds /\
    inbox os' = skipn k (inbox os) /\ (k <= 5)%nat.
Proof.
  apply (l4sap_send_bounded_for_any_peer demo_framesize_ok demo_l2 demo_l4
           demo_data 3
           (demo_os [Datagram [1; 2; 3]; Datagram [0; 7; 0; 6; 0; 0];
                     demo_stale_ack; RecvfromFails; SelectFails;
                     demo_ack 0]));
    by_computation.
Defined.

(** X14 on a concrete call. A send on the entity with "hi" in its slot,
    answered by a DATA frame: the slot is kept. *)
Lemma l4sap_send_pending_slot_witness :
  let s := demo_l4_pending 0 in
  let os := demo_os [incoming 7 (mkL4Header 0 1 0 0) [111; 107]] in
  exists r s' os',
    l4sap_send (Some s) (Some demo_data) 3 os = Done (r, Some s', os') /\
    (slot_kept s s' \/ slot_filled s s') /\
    (pending_data s <> 0 -> slot_kept s s') /\
    zlength (pending_pl_buffer s') = zlength (pending_pl_buffer s).
Proof.
  apply (l4sap_send_pending_slot demo_framesize_ok demo_l2
           (demo_l4_pending 0) demo_data 3
           (demo_os [incoming 7 (mkL4Header 0 1 0 0) [111; 107]]));
    by_computation.
Defined.

#[local] Existing Instance demo_bits.

Lemma demo_maze_well_formed : well_formed demo_maze.
Proof. by_computation. Defined.

(** X15 on a concrete call. The maze of three by three cells has the path along
    the left and the lower border; a path is marked. *)
Lemma mazeSolve_marks_a_path_witness :
  exists route',
    is_path demo_maze (0, 0) route' = true /\
    let cells' := mark_route demo_maze ((0, 0) :: route') (maze demo_maze) in
    mazeSolve demo_maze true = Done (set_maze demo_maze cells') /\
    zlength cells' = zlength (maze demo_maze) /\
    forall x y,
      is_valid x y 3 = true ->
      load8 cells' (cell_index demo_maze x y)
      = if on_route ((0, 0) :: route') x y
        then with_mark (load8 (maze demo_maze) (cell_index demo_maze x y))
        else load8 (maze demo_maze) (cell_index demo_maze x y).
Proof.
  apply (mazeSolve_marks_a_path demo_maze [(0, 1); (0, 2); (1, 2); (2, 2)]);
    by_computation.
Defined.

Lemma demo_maze_closed_no_path (route : list (Z * Z)) :
  is_path demo_maze_closed (0, 0) route = false.
Proof.
  assert (H : forall p,
            passage demo_maze_closed p (1, 1) = false /\
            (fst p =? 1) && (snd p =? 1) = false ->
            forall route, is_path demo_maze_closed p route = false).
  { intros p Hp route'; revert p Hp.
    induction route' as [|q route' IH]; intros p [Hp1 Hp2].
    - exact Hp2.
    - cbn [is_path].
      destruct (passage demo_maze_closed p q) eqn:Hq; [|reflexivity].
      cbn [andb]; apply IH.
      pose proof (passage_valid _ _ _ Hq) as Hv.
      destruct q as [x' y']; cbn [fst snd] in Hv.
      apply is_valid_spec in Hv; cbn [edgeLen demo_maze_closed] in Hv.
      assert (Hc : (x' = 0 \/ x' = 1 \/ x' = 2) /\
                   (y' = 0 \/ y' = 1 \/ y' = 2)) by lia.
      destruct Hc as [[-> | [-> | ->]] [-> | [-> | ->]]];
        try (split; reflexivity).
      rewrite Hp1 in Hq; discriminate. }
  apply H; split; reflexivity.
Defined.

(** X16 on a concrete call. With the end in the closed cell in the middle there
    is no path, and the maze stays as it is. *)
Lemma mazeSolve_without_path_witness :
  mazeSolve demo_maze_closed true = Done demo_maze_closed.
Proof.
  apply (mazeSolve_without_path demo_maze_closed true);
    first [by_computation | exact demo_maze_closed_no_path].
Defined.

(** X17 on a concrete call. The solved maze of three by three cells. *)
Lemma mazeSolve_only_adds_marks_witness :
  let m' := set_maze demo_maze [26; 19; 25; 12; 0; 28; 6; 3; 21] in
  edgeLen m' = edgeLen demo_maze /\
  startX m' = startX demo_maze /\ startY m' = startY demo_maze /\
  endX m' = endX demo_maze /\ endY m' = endY demo_maze /\
  zlength (maze m') = zlength (maze demo_maze) /\
  marks_only (maze demo_maze) (maze m') /\
  (true = false -> m' = demo_maze).
Proof.
  apply (mazeSolve_only_adds_marks demo_maze
           (set_maze demo_maze [26; 19; 25; 12; 0; 28; 6; 3; 21]) true).
  by_computation.
Defined.

(** X18 on a concrete call. A search for the closed cell in the middle. *)
Lemma dfs_failure_leaves_maze_witness :
  (0 = 0 \/ 0 = 1) /\
  (0 = 0 -> Some demo_maze_closed = Some demo_maze_closed) /\
  (Some demo_maze_closed = None \/ Some (memset0 9) = None ->
   0 = 0 /\ Some demo_maze_closed = Some demo_maze_closed /\
   Some [1; 1; 1; 1; 0; 1; 1; 1; 1] = Some (memset0 9)).
Proof.
  apply (dfs_failure_leaves_maze 10 (Some demo_maze_closed) 0 0
           (Some (memset0 9)) 0 (Some demo_maze_closed)
           (Some [1; 1; 1; 1; 0; 1; 1; 1; 1])).
  by_computation.
Defined.

(** X19 on a concrete call. *)
Lemma mazeSolve_returns_witness :
  exists m',
    mazeSolve demo_maze true = Done m' /\
    (m' = demo_maze \/ dfs_found demo_maze 0 0 m').
Proof.
  apply (mazeSolve_returns demo_maze true); by_computation.
Defined.

(** X20 on a concrete call. The maze of three by three cells with the end moved
    to the start. *)
Lemma mazeSolve_start_is_end_witness :
  let m := mkMaze 3 0 0 0 0 [10; 3; 9; 12; 0; 12; 6; 3; 5] in
  mazeSolve m true = Done (set_maze m [26; 3; 9; 12; 0; 12; 6; 3; 5]).
Proof.
  cbv zeta; etransitivity;
    [apply (mazeSolve_start_is_end
              (mkMaze 3 0 0 0 0 [10; 3; 9; 12; 0; 12; 6; 3; 5]))|];
    by_computation.
Defined.

(** X21 on a concrete call. The entity for 127.0.0.1, port 4000, created and
    destroyed. *)
Lemma l4sap_create_result_witness :
  (Some [49; 50; 55] = None \/ 4000 < 1024 ->
   l4sap_create 2 demo_inet_pton (Some [49; 50; 55]) 4000 demo_l4 demo_host
   = (None, demo_host)) /\
  exists text addr fd,
    Some [49; 50; 55] = Some text /\ 1024 <= 4000 /\
    demo_inet_pton text = Some addr /\ 0 <= fd /\
    l4sap_init (mkL2SAP 3 16777343) (pending_header demo_l4)
      (pending_pl_buffer demo_l4)
    = l4sap_init (mkL2SAP fd addr) (pending_header demo_l4)
        (pending_pl_buffer demo_l4) /\
    0 = 0 /\ 0 = 0 /\ 0 = 0 /\ 0 = 0 /\
    seqnos_in_range
      (l4sap_init (mkL2SAP 3 16777343) (pending_header demo_l4)
         (pending_pl_buffer demo_l4)) /\
    blocks (mkHost [] [] 2 [3]) = blocks demo_host + 2 /\
    descriptors (mkHost [] [] 2 [3]) = fd :: descriptors demo_host.
Proof.
  apply (l4sap_create_result 2 demo_inet_pton (Some [49; 50; 55]) 4000
           demo_l4 demo_host).
  intros H; exact H.
Defined.

(** X22 on a concrete call. *)
Lemma l4sap_create_destroy_witness :
  let h' := mkHost [] [] 2 [3] in
  resources h' <> resources demo_host /\
  resources (l4sap_destroy (Some demo_l4) h') = resources demo_host /\
  (forall s', l2 s' = l2 demo_l4 ->
   resources (l4sap_destroy (Some s') h') = resources demo_host) /\
  l4sap_destroy None h' = h'.
Proof.
  apply (l4sap_create_destroy 2 demo_inet_pton (Some [49; 50; 55]) 4000
           demo_l4 demo_host (mkHost [] [] 2 [3]) demo_l4).
  - intros H; exact H.
  - reflexivity.
Defined.
